(** * Pioneer Market Analytics: the dashboard script [Dashboard/app.py]

    A shallow embedding of the analytical pipeline of the Streamlit script:
    the joins that build [orders_full], the date filter, the RFM table with
    its quartile scores and segments, the temporal, category and geographic
    summaries, and the Key Insights blocks, in the order the script runs
    them.

    Conventions.
    - A dataframe is a list of records, in row order.  A missing cell (NaN)
      is [None].
    - [order_purchase_timestamp] is a number of seconds since
      1970-01-01 00:00:00; a calendar date is a number of days since
      1970-01-01.
    - Money ([price], [revenue], [monetary]) is an exact integer amount
      (cents); sums are exact.
    - A Python exception that ends the script run is [Raise e]. *)

From Stdlib Require Import ZArith List String Ascii Bool Lia Permutation Sorted.
Import ListNotations.

Open Scope string_scope.
Open Scope list_scope.
Open Scope Z_scope.

(** ** Exceptions and the result monad *)

Inductive exn : Type :=
| NameError (name : string)
| ValueError (msg : string)
| IndexError (msg : string)
| StopException.

Inductive result (A : Type) : Type :=
| Ok (a : A)
| Raise (e : exn).

Arguments Ok {A} a.
Arguments Raise {A} e.

Definition bind {A B : Type} (c : result A) (k : A -> result B) : result B :=
  match c with
  | Ok a => k a
  | Raise e => Raise e
  end.

Notation "x <- c ;; k" := (bind c (fun x => k))
  (at level 61, c at next level, right associativity).

Definition raises {A : Type} (c : result A) : Prop :=
  exists e, c = Raise e.

(** ** Keys of [groupby], [merge] and [nunique] *)

Class GroupKey (K : Type) : Type := {
  key_eqb : K -> K -> bool;
  key_leb : K -> K -> bool;
  key_eqb_spec : forall x y, reflect (x = y) (key_eqb x y)
}.

#[export] Instance string_key : GroupKey string := {
  key_eqb := String.eqb;
  key_leb := String.leb;
  key_eqb_spec := String.eqb_spec
}.

#[export] Instance Z_key : GroupKey Z := {
  key_eqb := Z.eqb;
  key_leb := Z.leb;
  key_eqb_spec := Z.eqb_spec
}.

Definition pair_eqb (p q : Z * Z) : bool :=
  (fst p =? fst q) && (snd p =? snd q).

Definition pair_leb (p q : Z * Z) : bool :=
  (fst p <? fst q) || ((fst p =? fst q) && (snd p <=? snd q)).

Lemma pair_eqb_spec (p q : Z * Z) : reflect (p = q) (pair_eqb p q).
Proof.
  destruct p as [a b], q as [c d]; unfold pair_eqb; simpl.
  destruct (Z.eqb_spec a c), (Z.eqb_spec b d); simpl; constructor; congruence.
Qed.

#[export] Instance period_key : GroupKey (Z * Z) := {
  key_eqb := pair_eqb;
  key_leb := pair_leb;
  key_eqb_spec := pair_eqb_spec
}.

(** The non-null cells of a column. *)
Fixpoint dropna {A : Type} (l : list (option A)) : list A :=
  match l with
  | [] => []
  | Some a :: tl => a :: dropna tl
  | None :: tl => dropna tl
  end.

Section Frames.
Context {K : Type} `{GroupKey K}.

Definition key_mem (k : K) (l : list K) : bool := existsb (key_eqb k) l.

(** [Series.unique]: the distinct values, in order of first appearance. *)
Fixpoint unique_from (seen : list K) (l : list K) : list K :=
  match l with
  | [] => []
  | k :: tl =>
      if key_mem k seen then unique_from seen tl
      else k :: unique_from (k :: seen) tl
  end.

Definition unique (l : list K) : list K := unique_from [] l.

Fixpoint insert_key (k : K) (l : list K) : list K :=
  match l with
  | [] => [k]
  | x :: tl => if key_leb k x then k :: l else x :: insert_key k tl
  end.

Definition sort_keys (l : list K) : list K := fold_right insert_key [] l.

Definition has_key (k : K) (o : option K) : bool :=
  match o with
  | Some k' => key_eqb k' k
  | None => false
  end.

(** [Series.nunique()]: the number of distinct non-null values. *)
Definition nunique (col : list (option K)) : Z :=
  Z.of_nat (List.length (unique (dropna col))).

(** [df.groupby(key)] with the defaults [sort=True], [dropna=True]: one
    group per distinct non-null key, the groups in increasing key order,
    each group holding its rows in frame order. *)
Definition group_keys {R : Type} (key : R -> option K) (rows : list R)
  : list K :=
  sort_keys (unique (dropna (map key rows))).

Definition groupby {R : Type} (key : R -> option K) (rows : list R)
  : list (K * list R) :=
  map (fun k => (k, filter (fun r => has_key k (key r)) rows))
      (group_keys key rows).

(** [left.merge(right, on=key, how='left')]: every left row, in order,
    paired with each right row of the same key in right order, or once
    with nothing when no right row has the key. *)
Definition merge_left {L R : Type} (lkey : L -> option K) (rkey : R -> K)
    (left : list L) (right : list R) : list (L * option R) :=
  flat_map
    (fun l =>
       match filter (fun r => has_key (rkey r) (lkey l)) right with
       | [] => [(l, None)]
       | ms => map (fun r => (l, Some r)) ms
       end)
    left.
End Frames.

Definition sumZ (l : list Z) : Z := fold_right Z.add 0 l.

(** [Series.sum()] of a numeric column: missing cells are skipped. *)
Definition nansum (col : list (option Z)) : Z := sumZ (dropna col).

Definition fillna (d : Z) (o : option Z) : Z :=
  match o with
  | Some v => v
  | None => d
  end.

(** ** The four input tables *)

Module Customers.
Record t : Type := {
  customer_id : string;
  customer_unique_id : string;
  customer_state : string
}.
End Customers.

Module Orders.
Record t : Type := {
  order_id : string;
  customer_id : string;
  order_purchase_timestamp : Z
}.
End Orders.

Module OrderItems.
Record t : Type := {
  order_id : string;
  product_id : string;
  price : Z
}.
End OrderItems.

Module Products.
Record t : Type := {
  product_id : string;
  product_category_name : option string
}.
End Products.

Record Dataset : Type := {
  customers : list Customers.t;
  orders : list Orders.t;
  order_items : list OrderItems.t;
  products : list Products.t
}.

(** ** The master dataset [orders_full] *)

Record Row : Type := {
  order_id : string;
  customer_id : string;
  order_purchase_timestamp : Z;
  customer_unique_id : option string;
  customer_state : option string;
  product_id : option string;
  price : option Z;
  product_category_name : option string;
  revenue : option Z
}.

Definition orders_customers (d : Dataset)
  : list (Orders.t * option Customers.t) :=
  merge_left (fun o => Some (Orders.customer_id o)) Customers.customer_id
             (orders d) (customers d).

Definition with_items (d : Dataset)
  : list ((Orders.t * option Customers.t) * option OrderItems.t) :=
  merge_left (fun oc => Some (Orders.order_id (fst oc))) OrderItems.order_id
             (orders_customers d) (order_items d).

Definition with_products (d : Dataset)
  : list (((Orders.t * option Customers.t) * option OrderItems.t)
          * option Products.t) :=
  merge_left (fun oci => option_map OrderItems.product_id (snd oci))
             Products.product_id
             (with_items d) (products d).

Definition make_row
    (x : ((Orders.t * option Customers.t) * option OrderItems.t)
         * option Products.t) : Row :=
  let '(((o, c), i), p) := x in
  {| order_id := Orders.order_id o;
     customer_id := Orders.customer_id o;
     order_purchase_timestamp := Orders.order_purchase_timestamp o;
     customer_unique_id := option_map Customers.customer_unique_id c;
     customer_state := option_map Customers.customer_state c;
     product_id := option_map OrderItems.product_id i;
     price := option_map OrderItems.price i;
     product_category_name :=
       match p with
       | Some p' => Products.product_category_name p'
       | None => None
       end;
     (* orders_full['revenue'] = orders_full['price'] *)
     revenue := option_map OrderItems.price i |}.

Definition orders_full (d : Dataset) : list Row :=
  map make_row (with_products d).

(** ** The date filter *)

Definition seconds_per_day : Z := 86400.

(** [Timestamp.date()]: the calendar day, the time of day dropped. *)
Definition date (ts : Z) : Z := ts / seconds_per_day.

Definition in_window (start_date end_date : Z) (r : Row) : bool :=
  (start_date <=? date (order_purchase_timestamp r))
  && (date (order_purchase_timestamp r) <=? end_date).

Definition filtered_orders (full : list Row) (start_date end_date : Z)
  : list Row :=
  filter (in_window start_date end_date) full.

(** ** Calendar arithmetic *)

(** Days since 1970-01-01 of a proleptic Gregorian date. *)
Definition days_from_civil (y m d : Z) : Z :=
  let y' := if m <=? 2 then y - 1 else y in
  let era := y' / 400 in
  let yoe := y' - era * 400 in
  let mp := (m + 9) mod 12 in
  let doy := (153 * mp + 2) / 5 + d - 1 in
  let doe := yoe * 365 + yoe / 4 - yoe / 100 + doy in
  era * 146097 + doe - 719468.

(** Year and month of a day number: [dt.to_period('M')]. *)
Definition year_month (day : Z) : Z * Z :=
  let z := day + 719468 in
  let era := z / 146097 in
  let doe := z - era * 146097 in
  let yoe := (doe - doe / 1460 + doe / 36524 - doe / 146096) / 365 in
  let doy := doe - (365 * yoe + yoe / 4 - yoe / 100) in
  let mp := (5 * doy + 2) / 153 in
  let m := if mp <? 10 then mp + 3 else mp - 9 in
  let y := yoe + era * 400 in
  (if m <=? 2 then y + 1 else y, m).

(** [dt.dayofweek]: Monday is 0, Sunday is 6 (1970-01-01 was a Thursday). *)
Definition dayofweek (ts : Z) : Z := (date ts + 3) mod 7.

(** [dt.hour]. *)
Definition hour (ts : Z) : Z := (ts mod seconds_per_day) / 3600.

Definition weekday_names : list string :=
  ["Monday"; "Tuesday"; "Wednesday"; "Thursday"; "Friday"; "Saturday";
   "Sunday"].

(** [dt.day_name()]. *)
Definition day_name (ts : Z) : string :=
  nth (Z.to_nat (dayofweek ts)) weekday_names "Sunday".

(** ** KPI block: the second merge with the item table *)

(** A row of [filtered_orders.merge(order_items, on='order_id', how='left')]:
    the columns of [filtered_orders] (its [price] becomes [price_x]), the
    columns of the item table (suffix [_y]), and the [revenue] column that
    the script then overwrites with [price_x.fillna(0)]. *)
Record MergedRow : Type := {
  base : Row;
  item_y : option OrderItems.t;
  revenue_filled : Z
}.

Definition merged_order_items (filtered : list Row) (d : Dataset)
  : list MergedRow :=
  map (fun x =>
         {| base := fst x;
            item_y := snd x;
            revenue_filled := fillna 0 (price (fst x)) |})
      (merge_left (fun r => Some (order_id r)) OrderItems.order_id
                  filtered (order_items d)).

(** ** Tab 1: the RFM table *)

(** [Series.max()] of a timestamp column (the script calls it on non-empty
    columns only). *)
Definition series_max (col : list Z) : Z :=
  match col with
  | [] => 0
  | x :: tl => fold_left Z.max tl x
  end.

Definition snapshot_date (filtered : list Row) : Z :=
  series_max (map order_purchase_timestamp filtered) + seconds_per_day.

Record Rfm : Type := {
  rfm_customer_unique_id : string;
  recency : Z;
  frequency : Z;
  monetary : Z
}.

Definition rfm_agg (snapshot : Z) (merged : list MergedRow) : list Rfm :=
  map (fun g =>
         {| rfm_customer_unique_id := fst g;
            (* (snapshot_date - x.max()).days *)
            recency :=
              (snapshot
               - series_max
                   (map (fun r => order_purchase_timestamp (base r)) (snd g)))
              / seconds_per_day;
            frequency := nunique (map (fun r => Some (order_id (base r))) (snd g));
            monetary := sumZ (map revenue_filled (snd g)) |})
      (groupby (fun r => customer_unique_id (base r)) merged).

(** *** [Series.rank(method='first')] *)

Definition count_if (p : Z -> bool) (l : list Z) : Z :=
  Z.of_nat (List.length (filter p l)).

(** The rank of a value is one more than the number of smaller values plus
    the number of equal values before it in the column. *)
Fixpoint rank_from (seen all rest : list Z) : list Z :=
  match rest with
  | [] => []
  | v :: tl =>
      (1 + count_if (fun w => w <? v) all + count_if (fun w => w =? v) seen)
      :: rank_from (v :: seen) all tl
  end.

Definition rank_first (col : list Z) : list Z := rank_from [] col col.

(** *** [pd.qcut(x, 4, labels=False)] *)

(** Four times the quantile of order [k/4] of a sorted column, by linear
    interpolation between the two nearest positions. *)
Definition quantile4 (sorted : list Z) (k : Z) : Z :=
  let n := Z.of_nat (List.length sorted) in
  let h := (n - 1) * k in
  let lo := h / 4 in
  let a := nth (Z.to_nat lo) sorted 0 in
  let b := nth (Z.to_nat (Z.min (lo + 1) (n - 1))) sorted 0 in
  4 * a + (b - a) * (h mod 4).

Definition bin_edges4 (x : list Z) : list Z :=
  map (quantile4 (sort_keys x)) [0; 1; 2; 3; 4].

(** [bins.searchsorted(v, side='left')], then [include_lowest]. *)
Definition bin_id (edges4 : list Z) (v : Z) : Z :=
  if 4 * v =? hd 0 edges4 then 1
  else count_if (fun e => e <? 4 * v) edges4.

Definition qcut (x : list Z) : result (list Z) :=
  match x with
  | [] => Raise (ValueError "Bin edges must be unique")
  | _ =>
      let edges := bin_edges4 x in
      if (List.length (unique edges) <? List.length edges)%nat
      then Raise (ValueError "Bin edges must be unique")
      else Ok (map (fun v => bin_id edges v - 1) x)
  end.

(** [pd.qcut(col.rank(method='first'), 4, labels=False) + 1] *)
Definition score_column (col : list Z) : result (list Z) :=
  codes <- qcut (rank_first col) ;;
  Ok (map (fun c => c + 1) codes).

Record Scored : Type := {
  metrics : Rfm;
  R_score : Z;
  F_score : Z;
  M_score : Z
}.

Fixpoint add_scores (t : list Rfm) (r f m : list Z) : list Scored :=
  match t, r, f, m with
  | x :: t', rs :: r', fs :: f', ms :: m' =>
      {| metrics := x; R_score := rs; F_score := fs; M_score := ms |}
      :: add_scores t' r' f' m'
  | _, _, _, _ => []
  end.

Definition with_scores (t : list Rfm) : result (list Scored) :=
  r <- score_column (map recency t) ;;
  f <- score_column (map frequency t) ;;
  m <- score_column (map monetary t) ;;
  Ok (add_scores t r f m).

(** *** Segments *)

Definition rfm_segment (row : Scored) : string :=
  if (3 <=? R_score row) && (3 <=? F_score row) && (3 <=? M_score row)
  then "Champions"
  else if (3 <=? R_score row) && (2 <=? F_score row)
  then "Loyal Customers"
  else if 3 <=? R_score row
  then "Potential Loyalists"
  else if R_score row =? 2
  then "Need Attention"
  else "Lost Customers".

Record Segmented : Type := {
  scored : Scored;
  Segment : string
}.

Definition with_segment (t : list Scored) : list Segmented :=
  map (fun row => {| scored := row; Segment := rfm_segment row |}) t.

(** The RFM block of tab 1, run when [filtered_orders] is not empty. *)
Definition build_rfm (filtered : list Row) (merged : list MergedRow)
  : result (list Segmented) :=
  s <- with_scores (rfm_agg (snapshot_date filtered) merged) ;;
  Ok (with_segment s).

(** ** Helpers of the Key Insights blocks *)

(** A quotient [num / den] of two exact amounts, kept unevaluated (the
    script formats it as a percentage or compares it). *)
Record Ratio : Type := {
  num : Z;
  den : Z
}.

(** Comparison of two quotients with positive denominators. *)
Definition ratio_ltb (p q : Ratio) : bool :=
  num p * den q <? num q * den p.

Section Sorting.
Context {R : Type}.

(** Stable insertion: [x] goes in front of the first row that does not
    have to come before it. *)
Fixpoint insert_row (before : R -> R -> bool) (x : R) (l : list R)
  : list R :=
  match l with
  | [] => [x]
  | y :: tl => if before y x then y :: insert_row before x tl else x :: l
  end.

(** [df.sort_values(col)]: [before y x] says that [y] sorts strictly
    before [x]; rows that tie keep their frame order (the tie-break rule of
    the specification, section 4.3). *)
Definition sort_values (before : R -> R -> bool) (l : list R) : list R :=
  fold_right (insert_row before) [] l.

(** [df.iloc[0]] *)
Definition iloc0 (l : list R) : result R :=
  match l with
  | x :: _ => Ok x
  | [] => Raise (IndexError "single positional indexer is out-of-bounds")
  end.

(** [array[0]] on the [.values] of a column *)
Definition values0 (l : list R) : result R :=
  match l with
  | x :: _ => Ok x
  | [] =>
      Raise (IndexError "index 0 is out of bounds for axis 0 with size 0")
  end.
End Sorting.

(** [Series.idxmax()] on a default index: the position of the first
    largest non-null cell; an exception when the column is empty or holds
    missing cells only. *)
Fixpoint idxmax_from (best : option (nat * Z)) (i : nat)
    (col : list (option Z)) : option (nat * Z) :=
  match col with
  | [] => best
  | None :: tl => idxmax_from best (S i) tl
  | Some v :: tl =>
      match best with
      | Some (_, b) =>
          if b <? v then idxmax_from (Some (i, v)) (S i) tl
          else idxmax_from best (S i) tl
      | None => idxmax_from (Some (i, v)) (S i) tl
      end
  end.

Definition idxmax (col : list (option Z)) : result nat :=
  match idxmax_from None 0 col with
  | Some (i, _) => Ok i
  | None => Raise (ValueError "attempt to get argmax of an empty sequence")
  end.

(** [df.loc[i]] for a position [i] returned by [idxmax]. *)
Definition loc {R : Type} (l : list R) (i : nat) : result R :=
  match nth_error l i with
  | Some x => Ok x
  | None => Raise (IndexError "label not in index")
  end.

(** [df.groupby(key).size()] *)
Definition size_by {K : Type} `{GroupKey K} {R : Type}
    (key : R -> option K) (rows : list R) : list (K * Z) :=
  map (fun g => (fst g, Z.of_nat (List.length (snd g)))) (groupby key rows).

Fixpoint lookup {V : Type} (k : string) (s : list (string * V)) : option V :=
  match s with
  | [] => None
  | (k', v) :: tl => if String.eqb k' k then Some v else lookup k tl
  end.

(** [Series.reindex(labels)]: one entry per label, in the order of
    [labels]; a label the series does not have gets a missing cell. *)
Definition reindex {V : Type} (labels : list string) (s : list (string * V))
  : list (string * option V) :=
  map (fun l => (l, lookup l s)) labels.

Inductive Finding : Type :=
| RevenueConcentration (segment : string) (revenue_pct customer_pct : Ratio)
| CustomerAttritionRisk (lost_pct : Ratio)
| GrowthOpportunity (pot_pct : Ratio)
| PeakTransactionDay (day : string) (total : option Z)
| PeakOperatingHour (at_hour total : Z)
| WeekendDominantBehavior
| WeekdayDominantBehavior
| PositiveMomentum
| DemandSlowdownSignal
| RevenueDriver (category : string) (revenue_pct : Ratio)
| PortfolioConcentration (category : string)
| HighValueTransactions (category : string)
| RevenueStronghold (state : string) (revenue_pct : Ratio)
| TransactionHotspot (state : string) (order_pct : Ratio)
| BehavioralGapAcrossRegions (state : string).

(** ** Tab 1: Key Insights *)

Module SegmentSummary.
Record t : Type := {
  Segment : string;
  customers : Z;
  revenue : Z;
  customer_pct : Ratio;
  revenue_pct : Ratio
}.
End SegmentSummary.

Definition segment_summary (rfm : list Segmented) : list SegmentSummary.t :=
  let total_customers := Z.of_nat (List.length rfm) in
  let total_revenue := sumZ (map (fun r => monetary (metrics (scored r))) rfm) in
  map (fun g =>
         let customers := Z.of_nat (List.length (snd g)) in
         let revenue := sumZ (map (fun r => monetary (metrics (scored r))) (snd g)) in
         {| SegmentSummary.Segment := fst g;
            SegmentSummary.customers := customers;
            SegmentSummary.revenue := revenue;
            SegmentSummary.customer_pct :=
              {| num := customers; den := total_customers |};
            SegmentSummary.revenue_pct :=
              {| num := revenue; den := total_revenue |} |})
      (groupby (fun r => Some (Segment r)) rfm).

Definition tab1_key_insights (rfm : list Segmented)
  : result (list SegmentSummary.t * list Finding) :=
  let summary := segment_summary rfm in
  top_segment <-
    iloc0 (sort_values
             (fun y x => SegmentSummary.revenue x <? SegmentSummary.revenue y)
             summary) ;;
  let lost_segment :=
    filter (fun s => String.eqb (SegmentSummary.Segment s) "Lost Customers")
           summary in
  let potential_segment :=
    filter (fun s =>
              String.eqb (SegmentSummary.Segment s) "Potential Loyalists"
              || String.eqb (SegmentSummary.Segment s) "Need Attention")
           summary in
  Ok (summary,
      [RevenueConcentration (SegmentSummary.Segment top_segment)
         (SegmentSummary.revenue_pct top_segment)
         (SegmentSummary.customer_pct top_segment)]
      ++ match lost_segment with
         | s :: _ => [CustomerAttritionRisk (SegmentSummary.customer_pct s)]
         | [] => []
         end
      ++ match potential_segment with
         | _ :: _ =>
             [GrowthOpportunity
                {| num := sumZ (map SegmentSummary.customers potential_segment);
                   den := Z.of_nat (List.length rfm) |}]
         | [] => []
         end).

Record Tab1 : Type := {
  t1_rfm : list Segmented;
  t1_segment_summary : list SegmentSummary.t;
  t1_findings : list Finding
}.

(** The body of [with tab1:].  The RFM table is assigned to [rfm] only in
    the branch of a non-empty window; the Key Insights block follows the
    [if]/[else] and reads [rfm] in both cases. *)
Definition tab1 (d : Dataset) (filtered : list Row) : result Tab1 :=
  rfm_var <-
    match filtered with
    | [] => Ok None
    | _ :: _ =>
        t <- build_rfm filtered (merged_order_items filtered d) ;;
        Ok (Some t)
    end ;;
  match rfm_var with
  | None => Raise (NameError "rfm")
  | Some rfm =>
      si <- tab1_key_insights rfm ;;
      Ok {| t1_rfm := rfm;
            t1_segment_summary := fst si;
            t1_findings := snd si |}
  end.

(** ** Tab 2: temporal summaries and Key Insights *)

Definition by_day_name (r : Row) : option string :=
  Some (day_name (order_purchase_timestamp r)).

Definition by_hour (r : Row) : option Z :=
  Some (hour (order_purchase_timestamp r)).

Definition by_month (r : Row) : option (Z * Z) :=
  Some (year_month (date (order_purchase_timestamp r))).

(** [groupby(day_name).size().reindex([Monday .. Sunday]).reset_index()] *)
Definition daily_summary (filtered : list Row) : list (string * option Z) :=
  reindex weekday_names (size_by by_day_name filtered).

Definition hourly_summary (filtered : list Row) : list (Z * Z) :=
  size_by by_hour filtered.

Definition monthly_summary (filtered : list Row) : list ((Z * Z) * Z) :=
  size_by by_month filtered.

Definition day_type (r : Row) : string :=
  if 5 <=? dayofweek (order_purchase_timestamp r) then "Weekend"
  else "Weekday".

Definition day_type_summary (filtered : list Row) : list (string * Z) :=
  size_by (fun r => Some (day_type r)) filtered.

Definition day_type_total (label : string) (summary : list (string * Z))
  : result Z :=
  values0 (map snd (filter (fun g => String.eqb (fst g) label) summary)).

(** The last two rows of a frame: [iloc[-2]] and [iloc[-1]]. *)
Definition last_two {R : Type} (l : list R) : option (R * R) :=
  match rev l with
  | z :: y :: _ => Some (y, z)
  | _ => None
  end.

Definition tab2_key_insights (filtered : list Row) : result (list Finding) :=
  let daily := daily_summary filtered in
  i <- idxmax (map snd daily) ;;
  peak_day <- loc daily i ;;
  let hourly := hourly_summary filtered in
  j <- idxmax (map (fun h => Some (snd h)) hourly) ;;
  peak_hour <- loc hourly j ;;
  let summary := day_type_summary filtered in
  weekend <- day_type_total "Weekend" summary ;;
  weekday <- day_type_total "Weekday" summary ;;
  Ok ([PeakTransactionDay (fst peak_day) (snd peak_day);
       PeakOperatingHour (fst peak_hour) (snd peak_hour);
       if weekday <? weekend then WeekendDominantBehavior
       else WeekdayDominantBehavior]
      ++ match last_two (monthly_summary filtered) with
         | Some (prev, last) =>
             [if 0 <? snd last - snd prev then PositiveMomentum
              else DemandSlowdownSignal]
         | None => []
         end).

Record Tab2 : Type := {
  (* the three charts, drawn for a non-empty window only *)
  t2_charts :
    option (list (string * option Z) * list (Z * Z) * list ((Z * Z) * Z));
  t2_daily_summary : list (string * option Z);
  t2_hourly_summary : list (Z * Z);
  t2_monthly_summary : list ((Z * Z) * Z);
  t2_findings : list Finding
}.

Definition tab2 (filtered : list Row) : result Tab2 :=
  let charts :=
    match filtered with
    | [] => None
    | _ :: _ =>
        Some (daily_summary filtered, hourly_summary filtered,
              monthly_summary filtered)
    end in
  f <- tab2_key_insights filtered ;;
  Ok {| t2_charts := charts;
        t2_daily_summary := daily_summary filtered;
        t2_hourly_summary := hourly_summary filtered;
        t2_monthly_summary := monthly_summary filtered;
        t2_findings := f |}.

(** ** Tab 3: category overview *)

Module CategorySummary.
Record t : Type := {
  product_category_name : string;
  revenue : Z;
  total_orders : Z;
  product_count : Z;
  AOV : Ratio
}.
End CategorySummary.

(** [rows.groupby('product_category_name').agg(revenue=sum,
    total_orders=nunique of order_id, product_count=nunique of product_id)],
    then the [AOV] column. *)
Definition category_summary (rows : list Row) : list CategorySummary.t :=
  map (fun g =>
         let revenue := nansum (map revenue (snd g)) in
         let total_orders := nunique (map (fun r => Some (order_id r)) (snd g)) in
         {| CategorySummary.product_category_name := fst g;
            CategorySummary.revenue := revenue;
            CategorySummary.total_orders := total_orders;
            CategorySummary.product_count := nunique (map product_id (snd g));
            CategorySummary.AOV := {| num := revenue; den := total_orders |} |})
      (groupby product_category_name rows).

Definition tab3_key_insights (summary : list CategorySummary.t)
  : result (list Finding) :=
  let total_revenue := sumZ (map CategorySummary.revenue summary) in
  top_cat <-
    iloc0 (sort_values
             (fun y x => CategorySummary.revenue x <? CategorySummary.revenue y)
             summary) ;;
  low_product_cat <-
    iloc0 (sort_values
             (fun y x =>
                CategorySummary.product_count y <? CategorySummary.product_count x)
             summary) ;;
  high_aov_cat <-
    iloc0 (sort_values
             (fun y x => ratio_ltb (CategorySummary.AOV x) (CategorySummary.AOV y))
             summary) ;;
  Ok [RevenueDriver (CategorySummary.product_category_name top_cat)
        {| num := CategorySummary.revenue top_cat; den := total_revenue |};
      PortfolioConcentration
        (CategorySummary.product_category_name low_product_cat);
      HighValueTransactions
        (CategorySummary.product_category_name high_aov_cat)].

Record Tab3 : Type := {
  t3_category_summary : list CategorySummary.t;
  t3_findings : list Finding
}.

(** The body of [with tab3:].  It reads [orders_full], not
    [filtered_orders].  The four charts and the top-10 table of the first
    branch only display [category_summary]. *)
Definition tab3 (full : list Row) : result Tab3 :=
  let category_summary_var :=
    match full with
    | [] => None
    | _ :: _ => Some (category_summary full)
    end in
  match category_summary_var with
  | None => Raise (NameError "category_summary")
  | Some summary =>
      f <- tab3_key_insights summary ;;
      Ok {| t3_category_summary := summary; t3_findings := f |}
  end.

(** ** Tab 4: geographic analysis *)

Module GeoSummary.
Record t : Type := {
  customer_state : string;
  total_revenue : Z;
  total_orders : Z;
  total_customers : Z
}.

Definition revenue_per_order (g : t) : Ratio :=
  {| num := total_revenue g; den := total_orders g |}.
End GeoSummary.

Definition geo_summary (filtered : list Row) : list GeoSummary.t :=
  map (fun g =>
         {| GeoSummary.customer_state := fst g;
            GeoSummary.total_revenue := nansum (map revenue (snd g));
            GeoSummary.total_orders :=
              nunique (map (fun r => Some (order_id r)) (snd g));
            GeoSummary.total_customers :=
              nunique (map customer_unique_id (snd g)) |})
      (groupby customer_state filtered).

Definition tab4_key_insights (geo : list GeoSummary.t)
  : result (list Finding) :=
  let total_revenue := sumZ (map GeoSummary.total_revenue geo) in
  let total_orders := sumZ (map GeoSummary.total_orders geo) in
  top_revenue_state <-
    iloc0 (sort_values
             (fun y x => GeoSummary.total_revenue x <? GeoSummary.total_revenue y)
             geo) ;;
  top_order_state <-
    iloc0 (sort_values
             (fun y x => GeoSummary.total_orders x <? GeoSummary.total_orders y)
             geo) ;;
  high_value_state <-
    iloc0 (sort_values
             (fun y x =>
                ratio_ltb (GeoSummary.revenue_per_order x)
                          (GeoSummary.revenue_per_order y))
             geo) ;;
  Ok [RevenueStronghold (GeoSummary.customer_state top_revenue_state)
        {| num := GeoSummary.total_revenue top_revenue_state;
           den := total_revenue |};
      TransactionHotspot (GeoSummary.customer_state top_order_state)
        {| num := GeoSummary.total_orders top_order_state;
           den := total_orders |};
      BehavioralGapAcrossRegions
        (GeoSummary.customer_state high_value_state)].

Record Tab4 : Type := {
  t4_geo_summary : list GeoSummary.t;
  t4_findings : list Finding
}.

Definition tab4 (filtered : list Row) : result Tab4 :=
  geo_summary_var <-
    match filtered with
    | [] => Ok None
    | _ :: _ =>
        let geo := geo_summary filtered in
        _ <- idxmax (map (fun g => Some (GeoSummary.total_revenue g)) geo) ;;
        _ <- idxmax (map (fun g => Some (GeoSummary.total_orders g)) geo) ;;
        Ok (Some geo)
    end ;;
  match geo_summary_var with
  | None => Raise (NameError "geo_summary")
  | Some geo =>
      f <- tab4_key_insights geo ;;
      Ok {| t4_geo_summary := geo; t4_findings := f |}
  end.

(** ** The script *)

Record Output : Type := {
  enriched_rows : list Row;
  out_tab1 : Tab1;
  out_tab2 : Tab2;
  out_tab3 : Tab3;
  out_tab4 : Tab4
}.

Definition findings (o : Output) : list Finding :=
  t1_findings (out_tab1 o) ++ t2_findings (out_tab2 o)
  ++ t3_findings (out_tab3 o) ++ t4_findings (out_tab4 o).

(** One run of the script for the two sidebar dates.  [st.stop()] ends the
    run when the start date is after the end date; an exception in a tab
    ends it there. *)
Definition app (d : Dataset) (start_date end_date : Z) : result Output :=
  let full := orders_full d in
  if end_date <? start_date then Raise StopException
  else
    let filtered := filtered_orders full start_date end_date in
    t1 <- tab1 d filtered ;;
    t2 <- tab2 filtered ;;
    t3 <- tab3 full ;;
    t4 <- tab4 filtered ;;
    Ok {| enriched_rows := filtered;
          out_tab1 := t1;
          out_tab2 := t2;
          out_tab3 := t3;
          out_tab4 := t4 |}.

(** ** The decision table and the bin sizes as the specification words them *)

(** The priority table of the segmentation rule: the first row whose
    condition holds gives the segment, and no row gives the last segment. *)
Definition priority_table : list ((Z -> Z -> Z -> bool) * string) :=
  [ (fun r f m => (3 <=? r) && (3 <=? f) && (3 <=? m), "Champions");
    (fun r f m => (3 <=? r) && (2 <=? f), "Loyal Customers");
    (fun r f m => 3 <=? r, "Potential Loyalists");
    (fun r f m => r =? 2, "Need Attention") ].

Fixpoint first_match (table : list ((Z -> Z -> Z -> bool) * string))
    (r f m : Z) : string :=
  match table with
  | [] => "Lost Customers"
  | (cond, segment) :: tl =>
      if cond r f m then segment else first_match tl r f m
  end.

(** Bin sizes when the customers left over after an even split go to the
    earliest bins: bin [k] of [n] customers. *)
Definition earliest_bins_size (n k : Z) : Z :=
  n / 4 + (if k <=? n mod 4 then 1 else 0).

(** Bin sizes of the quartile binning of the ranks [1 .. n]: the customers
    left over go to bin 1, then bin 4, then bin 2. *)
Definition leftover_goes_to (j k : Z) : bool :=
  ((1 <=? j) && (k =? 1)) || ((2 <=? j) && (k =? 4)) || ((3 <=? j) && (k =? 2)).

Definition quartile_bin_size (n k : Z) : Z :=
  n / 4 + (if leftover_goes_to (n mod 4) k then 1 else 0).

(** The score of rank [r] among [n] ranks: one more than the number of
    inner bin edges [1 + (n - 1) * k / 4] that lie below [r]. *)
Definition score_of_rank (n r : Z) : Z :=
  if r =? 1 then 1
  else 1 + (if (n - 1) * 1 <? 4 * (r - 1) then 1 else 0)
         + (if (n - 1) * 2 <? 4 * (r - 1) then 1 else 0)
         + (if (n - 1) * 3 <? 4 * (r - 1) then 1 else 0).

(** The ranks [1 .. n]. *)
Definition ranks_upto (n : nat) : list Z := map Z.of_nat (seq 1 n).

(** The number of ranks among [1 .. n] whose score is at most [k]. *)
Definition ranks_upto_score (n k : Z) : Z :=
  if k <=? 0 then 0
  else if 4 <=? k then n
  else 1 + (n - 1) * k / 4.

(** The number of customers of a score column that got score [k]. *)
Definition bin_count (k : Z) (scores : list Z) : Z :=
  count_if (fun s => s =? k) scores.

(** What quartile-by-rank binning makes of a column [col]: one score in
    [1 .. 4] per cell; bin [k] holds [quartile_bin_size n k] cells, which is
    the floor or the ceiling of [n / 4]; a cell with a smaller value, or with
    the same value and an earlier position, never gets a higher score. *)
Definition quartile_scored (col scores : list Z) : Prop :=
  let n := Z.of_nat (List.length col) in
  List.length scores = List.length col
  /\ Forall (fun s => 1 <= s <= 4) scores
  /\ (forall k, 1 <= k <= 4 ->
        bin_count k scores = quartile_bin_size n k
        /\ (bin_count k scores = n / 4 \/ bin_count k scores = (n + 3) / 4))
  /\ (forall i j, (i < List.length col)%nat -> (j < List.length col)%nat ->
        nth i col 0 < nth j col 0
        \/ (nth i col 0 = nth j col 0 /\ (i < j)%nat) ->
        nth i scores 0 <= nth j scores 0).

(** The three score columns of a scored RFM table. *)
Definition R_scores (t : list Segmented) : list Z :=
  map (fun r => R_score (scored r)) t.

Definition F_scores (t : list Segmented) : list Z :=
  map (fun r => F_score (scored r)) t.

Definition M_scores (t : list Segmented) : list Z :=
  map (fun r => M_score (scored r)) t.

Definition rfm_metrics (t : list Segmented) : list Rfm :=
  map (fun r => metrics (scored r)) t.

(** The number of distinct customers of a window: the KPI
    [filtered_orders['customer_unique_id'].nunique()]. *)
Definition total_customers (filtered : list Row) : Z :=
  nunique (map customer_unique_id filtered).

(** The revenue of a set of enriched rows, a null price counted as 0. *)
Definition total_revenue (rows : list Row) : Z :=
  sumZ (map (fun r => fillna 0 (revenue r)) rows).

(** The number of rows that the second merge makes of one row of
    [filtered_orders]: one per line item of its order, and one when the
    order has no line item. *)
Definition merge_copies (d : Dataset) (r : Row) : Z :=
  Z.max 1 (Z.of_nat (List.length
                       (filter (fun i => String.eqb (order_id r)
                                                    (OrderItems.order_id i))
                               (order_items d)))).

Definition of_customer (c : string) (r : Row) : bool :=
  has_key c (customer_unique_id r).

Definition has_category (r : Row) : bool :=
  match product_category_name r with
  | Some _ => true
  | None => false
  end.

(** The number of rows of a window that fall on a given day name. *)
Definition transactions_on (day : string) (filtered : list Row) : Z :=
  Z.of_nat (List.length (filter (fun r => has_key day (by_day_name r)) filtered)).

(** ** Sample datasets *)

Definition timestamp (y m d hh mm ss : Z) : Z :=
  days_from_civil y m d * seconds_per_day + hh * 3600 + mm * 60 + ss.

Definition customer (n : string) (state : string) : Customers.t :=
  {| Customers.customer_id := "c" ++ n;
     Customers.customer_unique_id := "u" ++ n;
     Customers.customer_state := state |}.

(** Order [n] of customer [n]. *)
Definition order (n : string) (ts : Z) : Orders.t :=
  {| Orders.order_id := "o" ++ n;
     Orders.customer_id := "c" ++ n;
     Orders.order_purchase_timestamp := ts |}.

Definition item (n : string) (product : string) (price : Z) : OrderItems.t :=
  {| OrderItems.order_id := "o" ++ n;
     OrderItems.product_id := product;
     OrderItems.price := price |}.

Definition catalogue : list Products.t :=
  [ {| Products.product_id := "p1";
       Products.product_category_name := Some "toys" |};
    {| Products.product_id := "p2";
       Products.product_category_name := None |};
    {| Products.product_id := "p3";
       Products.product_category_name := Some "books" |} ].

(** Two customers who both bought on weekdays of January 2017 (Monday the
    2nd and Tuesday the 3rd); the first order has two line items, one of a
    product without a category. *)
Definition weekday_shop : Dataset :=
  {| customers := [customer "1" "SP"; customer "2" "RJ"];
     orders := [order "1" (timestamp 2017 1 2 10 56 33);
                order "2" (timestamp 2017 1 3 21 15 0)];
     order_items := [item "1" "p1" 1000; item "1" "p2" 2000;
                     item "2" "p1" 500];
     products := catalogue |}.

(** Three customers: a Monday and a Saturday order in January 2017 and one
    order in March 2017.  The Monday order has two line items, the second
    of a product without a category. *)
Definition quarter_shop : Dataset :=
  {| customers := [customer "1" "SP"; customer "2" "RJ"; customer "3" "SP"];
     orders := [order "1" (timestamp 2017 1 2 10 0 0);
                order "2" (timestamp 2017 1 7 11 30 0);
                order "3" (timestamp 2017 3 4 9 0 0)];
     order_items := [item "1" "p1" 1000; item "1" "p2" 2000;
                     item "2" "p3" 500; item "3" "p3" 700];
     products := catalogue |}.

(** Two customers who both bought on a weekend of January 2017 (Saturday
    the 7th and Sunday the 8th). *)
Definition weekend_shop : Dataset :=
  {| customers := [customer "1" "SP"; customer "2" "RJ"];
     orders := [order "1" (timestamp 2017 1 7 9 30 0);
                order "2" (timestamp 2017 1 8 18 45 10)];
     order_items := [item "1" "p1" 1000; item "2" "p3" 500];
     products := catalogue |}.

(** One customer with one order of one item. *)
Definition single_customer_shop : Dataset :=
  {| customers := [customer "1" "SP"];
     orders := [order "1" (timestamp 2017 1 2 10 0 0)];
     order_items := [item "1" "p1" 1000];
     products := catalogue |}.

(** Six customers, one order each, on six consecutive days. *)
Definition six_customer_shop : Dataset :=
  {| customers := [customer "1" "SP"; customer "2" "SP"; customer "3" "SP";
                   customer "4" "SP"; customer "5" "SP"; customer "6" "SP"];
     orders := [order "1" (timestamp 2017 1 2 8 0 0);
                order "2" (timestamp 2017 1 3 8 0 0);
                order "3" (timestamp 2017 1 4 8 0 0);
                order "4" (timestamp 2017 1 5 8 0 0);
                order "5" (timestamp 2017 1 6 8 0 0);
                order "6" (timestamp 2017 1 7 8 0 0)];
     order_items := [item "1" "p1" 100; item "2" "p1" 200; item "3" "p1" 300;
                     item "4" "p1" 400; item "5" "p1" 500; item "6" "p1" 600];
     products := catalogue |}.

Definition jan_1_2017 : Z := days_from_civil 2017 1 1.
Definition jan_31_2017 : Z := days_from_civil 2017 1 31.
Definition feb_1_2017 : Z := days_from_civil 2017 2 1.
Definition feb_28_2017 : Z := days_from_civil 2017 2 28.
Definition mar_31_2017 : Z := days_from_civil 2017 3 31.
Definition min_date_allowed : Z := days_from_civil 2016 1 1.
Definition max_date_allowed : Z := days_from_civil 2018 12 31.

(** ** KPI block: the three headline numbers *)

Record Kpi : Type := {
  kpi_total_revenue : Z;
  kpi_total_orders : Z;
  kpi_total_customers : Z
}.

(** The metrics of the KPI row, shown for a non-empty window only: the sum
    of the [revenue] column of the merged frame, and the distinct order and
    customer ids of [filtered_orders]. *)
Definition kpi_summary (filtered : list Row) (d : Dataset) : option Kpi :=
  match filtered with
  | [] => None
  | _ :: _ =>
      Some {| kpi_total_revenue :=
                sumZ (map revenue_filled (merged_order_items filtered d));
              kpi_total_orders :=
                nunique (map (fun r => Some (order_id r)) filtered);
              kpi_total_customers := nunique (map customer_unique_id filtered) |}
  end.

(** The number of line items of an order. *)
Definition items_of_order (d : Dataset) (oid : string) : Z :=
  Z.of_nat (List.length
              (filter (fun i => String.eqb oid (OrderItems.order_id i))
                      (order_items d))).

Definition has_customer (r : Row) : bool :=
  match customer_unique_id r with
  | Some _ => true
  | None => false
  end.

Definition has_state (r : Row) : bool :=
  match customer_state r with
  | Some _ => true
  | None => false
  end.

Definition is_weekend (r : Row) : bool := String.eqb (day_type r) "Weekend".

Definition is_weekday (r : Row) : bool := String.eqb (day_type r) "Weekday".

(** The number of rows that satisfy a test. *)
Definition count_rows {R : Type} (p : R -> bool) (rows : list R) : Z :=
  Z.of_nat (List.length (filter p rows)).

(** What [idxmax_from] returns: the value [v] at position [j] is the
    largest of the best candidate so far and the cells still to scan, and
    it is the earliest such cell unless the candidate is already as
    large. *)
Definition idxmax_post (best : option (nat * Z)) (i : nat)
    (col : list (option Z)) (j : nat) (v : Z) : Prop :=
  (forall k w, nth_error col k = Some (Some w) -> w <= v)
  /\ (forall b bv, best = Some (b, bv) -> bv <= v)
  /\ (best = Some (j, v)
      \/ exists p,
           j = (i + p)%nat
           /\ nth_error col p = Some (Some v)
           /\ (forall b bv, best = Some (b, bv) -> bv < v)
           /\ (forall k w, nth_error col k = Some (Some w) -> w = v ->
                           (p <= k)%nat)).

(** An exception of a tab other than the two that the run can end with
    before or in the first tab. *)
Definition later_error (x : exn) : Prop :=
  x <> StopException /\ x <> NameError "rfm".

Definition is_lost (r : Segmented) : bool :=
  String.eqb (Segment r) "Lost Customers".

Definition is_potential (r : Segmented) : bool :=
  String.eqb (Segment r) "Potential Loyalists"
  || String.eqb (Segment r) "Need Attention".

(** * Properties *)

(** ** Facts about frames *)

Lemma sumZ_app (l1 l2 : list Z) : sumZ (l1 ++ l2) = sumZ l1 + sumZ l2.
Proof.
  induction l1 as [|x l1 IH]; simpl; [reflexivity | rewrite IH; lia].
Qed.

Lemma sumZ_map_add {A : Type} (f g : A -> Z) (l : list A) :
  sumZ (map (fun a => f a + g a) l) = sumZ (map f l) + sumZ (map g l).
Proof.
  induction l as [|a l IH]; simpl; [reflexivity | rewrite IH; lia].
Qed.

Lemma sumZ_map_zero {A : Type} (l : list A) : sumZ (map (fun _ => 0) l) = 0.
Proof.
  induction l as [|a l IH]; simpl; [reflexivity | exact IH].
Qed.

Lemma sumZ_perm (l1 l2 : list Z) : Permutation l1 l2 -> sumZ l1 = sumZ l2.
Proof.
  induction 1; simpl; lia.
Qed.

Lemma nansum_fillna (col : list (option Z)) :
  nansum col = sumZ (map (fillna 0) col).
Proof.
  unfold nansum.
  induction col as [|[v|] col IH]; simpl; [reflexivity | rewrite IH; reflexivity | exact IH].
Qed.

Lemma in_dropna {A : Type} (a : A) (l : list (option A)) :
  In a (dropna l) <-> In (Some a) l.
Proof.
  induction l as [|[b|] l IH]; simpl.
  - tauto.
  - rewrite IH. split; intros [E | E]; auto; left; congruence.
  - rewrite IH. split; [auto | intros [E | E]; [discriminate | assumption]].
Qed.

Lemma filter_all {A : Type} (p : A -> bool) (l : list A) :
  (forall a, In a l -> p a = true) -> filter p l = l.
Proof.
  induction l as [|a l IH]; intros Hall; simpl; [reflexivity |].
  rewrite (Hall a) by now left.
  f_equal. apply IH. intros b Hb. apply Hall. now right.
Qed.

Lemma filter_nil_iff {A : Type} (p : A -> bool) (l : list A) :
  filter p l = [] <-> forall a, In a l -> p a = false.
Proof.
  induction l as [|a l IH]; simpl.
  - split; [intros _ b [] | reflexivity].
  - destruct (p a) eqn:E.
    + split; [discriminate |]. intros Hall.
      specialize (Hall a (or_introl eq_refl)). congruence.
    + rewrite IH. split.
      * intros Hall b [<- | Hb]; auto.
      * intros Hall b Hb. apply Hall. now right.
Qed.

Lemma Forall_string_eqb {A : Type} (f : A -> string) (s : string) (l : list A) :
  forallb (fun a => String.eqb (f a) s) l = true ->
  Forall (fun a => f a = s) l.
Proof.
  rewrite forallb_forall, Forall_forall. intros Hall a Ha.
  apply String.eqb_eq. now apply Hall.
Qed.

Section FrameFacts.
Context {K : Type} `{GroupKey K}.

Lemma key_eqb_refl (k : K) : key_eqb k k = true.
Proof. destruct (key_eqb_spec k k); congruence. Qed.

Lemma key_eqb_eq (x y : K) : key_eqb x y = true <-> x = y.
Proof. destruct (key_eqb_spec x y); split; congruence. Qed.

Lemma key_mem_In (k : K) (l : list K) : key_mem k l = true <-> In k l.
Proof.
  unfold key_mem. rewrite existsb_exists. split.
  - intros [x [Hx E]]. apply key_eqb_eq in E. now subst.
  - intros Hin. exists k. split; [assumption | apply key_eqb_refl].
Qed.

Lemma in_unique_from (x : K) (seen l : list K) :
  In x (unique_from seen l) <-> In x l /\ ~ In x seen.
Proof.
  revert seen. induction l as [|k l IH]; intros seen; simpl.
  - tauto.
  - destruct (key_mem k seen) eqn:E.
    + apply key_mem_In in E. rewrite IH. split.
      * intros [? ?]; auto.
      * intros [[-> | ?] ?]; [contradiction | auto].
    + assert (~ In k seen) as Hk
        by (intros Hin; apply key_mem_In in Hin; congruence).
      simpl. rewrite IH. simpl. split.
      * intros [-> | [? ?]]; auto.
      * intros [[-> | Hin] Hs]; [now left |].
        destruct (key_eqb_spec k x) as [-> | Hne]; [now left | right; tauto].
Qed.

Lemma NoDup_unique_from (seen l : list K) : NoDup (unique_from seen l).
Proof.
  revert seen. induction l as [|k l IH]; intros seen; simpl.
  - constructor.
  - destruct (key_mem k seen); [apply IH |].
    constructor; [| apply IH].
    rewrite in_unique_from. simpl. tauto.
Qed.

Lemma in_unique (x : K) (l : list K) : In x (unique l) <-> In x l.
Proof. unfold unique. rewrite in_unique_from. simpl. tauto. Qed.

Lemma NoDup_unique (l : list K) : NoDup (unique l).
Proof. apply NoDup_unique_from. Qed.

Lemma insert_key_perm (k : K) (l : list K) :
  Permutation (insert_key k l) (k :: l).
Proof.
  induction l as [|x l IH]; simpl; [reflexivity |].
  destruct (key_leb k x); [reflexivity |].
  rewrite IH. apply perm_swap.
Qed.

Lemma sort_keys_perm (l : list K) : Permutation (sort_keys l) l.
Proof.
  induction l as [|x l IH]; simpl; [reflexivity |].
  rewrite insert_key_perm. now constructor.
Qed.

(** The keys of [groupby] are distinct, and they are exactly the non-null
    keys of the frame. *)
Lemma NoDup_group_keys {R : Type} (key : R -> option K) (rows : list R) :
  NoDup (group_keys key rows).
Proof.
  unfold group_keys.
  eapply Permutation_NoDup; [symmetry; apply sort_keys_perm |].
  apply NoDup_unique.
Qed.

Lemma in_group_keys {R : Type} (key : R -> option K) (rows : list R) (k : K) :
  In k (group_keys key rows) <-> exists r, In r rows /\ key r = Some k.
Proof.
  unfold group_keys.
  rewrite (Permutation_in' (eq_refl k) (sort_keys_perm _)).
  rewrite in_unique, in_dropna, in_map_iff.
  split; intros [r [? ?]]; exists r; tauto.
Qed.

Lemma groupby_keys {R : Type} (key : R -> option K) (rows : list R) :
  map fst (groupby key rows) = group_keys key rows.
Proof.
  unfold groupby, group_keys. rewrite map_map. simpl. apply map_id.
Qed.

Lemma length_group_keys {R : Type} (key : R -> option K) (rows : list R) :
  Z.of_nat (List.length (group_keys key rows)) = nunique (map key rows).
Proof.
  unfold group_keys, nunique.
  now rewrite (Permutation_length (sort_keys_perm _)).
Qed.

(** Summing an indicator of one key over distinct keys. *)
Lemma sum_indicator (k0 : K) (c : Z) (keys : list K) :
  NoDup keys ->
  sumZ (map (fun k => if key_eqb k0 k then c else 0) keys)
  = if key_mem k0 keys then c else 0.
Proof.
  induction 1 as [|k keys Hk Hnd IH]; simpl; [reflexivity |].
  rewrite IH.
  destruct (key_eqb_spec k0 k) as [-> | Hne]; simpl.
  - destruct (key_mem k keys) eqn:E; [| lia].
    apply key_mem_In in E. contradiction.
  - reflexivity.
Qed.

(** The groups partition the rows that have a key: a measure summed
    group by group is the measure summed over those rows. *)
Lemma groupby_sum {R : Type} (key : R -> option K) (f : R -> Z)
    (keys : list K) (rows : list R) :
  NoDup keys ->
  (forall r k, In r rows -> key r = Some k -> In k keys) ->
  sumZ (map (fun k => sumZ (map f (filter (fun r => has_key k (key r)) rows)))
            keys)
  = sumZ (map f (filter (fun r => match key r with
                                  | Some _ => true
                                  | None => false
                                  end) rows)).
Proof.
  intros Hnd. induction rows as [|r rows IH]; intros Hin.
  - simpl. apply sumZ_map_zero.
  - assert (forall r' k, In r' rows -> key r' = Some k -> In k keys) as Hin'
      by (intros r' k Hr' Ek; apply (Hin r' k); [right; assumption | assumption]).
    specialize (IH Hin'). simpl.
    destruct (key r) as [k0|] eqn:Ek; simpl.
    + rewrite <- IH.
      assert (key_mem k0 keys = true) as Hm
        by (apply key_mem_In; apply (Hin r k0); [left; reflexivity | assumption]).
      transitivity
        (sumZ (map (fun k =>
                      (if key_eqb k0 k then f r else 0)
                      + sumZ (map f (filter (fun r' => has_key k (key r')) rows)))
                   keys)).
      * f_equal. apply map_ext. intros k.
        destruct (key_eqb k0 k); simpl; lia.
      * rewrite sumZ_map_add, (sum_indicator k0 (f r) keys Hnd), Hm.
        reflexivity.
    + exact IH.
Qed.
End FrameFacts.

(** ** The segment rule *)

(** C1, as the specification gives its first example: scores (3, 3, 1) are
    not Champions, because the monetary score is below 3. *)
Lemma rfm_segment_3_3_1_not_champions :
  rfm_segment
    {| metrics := {| rfm_customer_unique_id := "u1"; recency := 40;
                     frequency := 2; monetary := 1000 |};
       R_score := 3; F_score := 3; M_score := 1 |}
  <> "Champions".
Proof.
  vm_compute. discriminate.
Qed.

(** C1 (amended): the segment depends on the three scores only and is the
    first match of the priority table, for all scores; scores (3, 3, 1) give
    Loyal Customers, (3, 1, 1) Potential Loyalists, (2, 4, 4) Need Attention
    and (1, 4, 4) Lost Customers. *)
Theorem rfm_segment_priority_table :
  (forall row : Scored,
     rfm_segment row
     = first_match priority_table (R_score row) (F_score row) (M_score row))
  /\ (forall x : Rfm,
        rfm_segment {| metrics := x; R_score := 3; F_score := 3; M_score := 1 |}
        = "Loyal Customers"
        /\ rfm_segment {| metrics := x; R_score := 3; F_score := 1; M_score := 1 |}
           = "Potential Loyalists"
        /\ rfm_segment {| metrics := x; R_score := 2; F_score := 4; M_score := 4 |}
           = "Need Attention"
        /\ rfm_segment {| metrics := x; R_score := 1; F_score := 4; M_score := 4 |}
           = "Lost Customers").
Proof.
  split.
  - intros row. unfold rfm_segment, priority_table, first_match.
    destruct (3 <=? R_score row), (3 <=? F_score row), (3 <=? M_score row),
             (2 <=? F_score row), (R_score row =? 2); reflexivity.
  - intros x. repeat split; reflexivity.
Qed.

(** ** The date filter *)

Lemma in_window_spec (s e : Z) (r : Row) :
  in_window s e r = true
  <-> s <= date (order_purchase_timestamp r) <= e.
Proof.
  unfold in_window. rewrite andb_true_iff, !Z.leb_le. tauto.
Qed.

(** C8: for a range with [start_date <= end_date], a row is kept exactly
    when the day of its timestamp lies between the two dates, bounds
    included, whatever its time of day; when every row lies in the range the
    filter returns the rows unchanged. *)
Theorem filtered_orders_keeps_window (full : list Row) (start_date end_date : Z)
    (Hrange : start_date <= end_date) :
  (forall r,
     In r (filtered_orders full start_date end_date)
     <-> In r full
         /\ start_date <= order_purchase_timestamp r / 86400 <= end_date)
  /\ ((forall r, In r full ->
         start_date <= order_purchase_timestamp r / 86400 <= end_date) ->
      filtered_orders full start_date end_date = full).
Proof.
  split.
  - intros r. unfold filtered_orders. rewrite filter_In, in_window_spec.
    reflexivity.
  - intros Hall. apply filter_all. intros r Hr.
    apply in_window_spec. now apply Hall.
Qed.

Lemma filtered_orders_keeps_window_witness :
  jan_1_2017 <= jan_31_2017
  /\ filtered_orders (orders_full weekday_shop) jan_1_2017 jan_31_2017
     = orders_full weekday_shop.
Proof.
  assert (jan_1_2017 <= jan_31_2017) as Hrange by (vm_compute; discriminate).
  split; [exact Hrange |].
  apply (filtered_orders_keeps_window _ _ _ Hrange).
  intros r Hr. vm_compute in Hr.
  repeat (destruct Hr as [<- | Hr]; [vm_compute; split; discriminate |]).
  contradiction.
Defined.

(** ** The category summary *)

Lemma category_summary_revenue (rows : list Row) :
  map CategorySummary.revenue (category_summary rows)
  = map (fun k =>
           sumZ (map (fun r => fillna 0 (revenue r))
                     (filter (fun r => has_key k (product_category_name r)) rows)))
        (group_keys product_category_name rows).
Proof.
  unfold category_summary, groupby, group_keys. rewrite !map_map. simpl.
  apply map_ext. intros k. rewrite nansum_fillna, map_map. reflexivity.
Qed.

(** C4, as stated: in a run whose window spans all the data, the revenue
    column of the category summary sums to 2200 and the revenue of the
    enriched rows to 4200: the line item of the product without a category
    is in no group. *)
Lemma category_summary_drops_null_category :
  exists o,
    app quarter_shop jan_1_2017 mar_31_2017 = Ok o
    /\ enriched_rows o = orders_full quarter_shop
    /\ sumZ (map CategorySummary.revenue (t3_category_summary (out_tab3 o)))
       <> total_revenue (enriched_rows o).
Proof.
  eexists. split; [vm_compute; reflexivity |].
  split; [reflexivity | vm_compute; discriminate].
Qed.

(** C4 (amended): the revenue column of the category summary sums to the
    revenue (a null price counted as 0) of the rows given to the
    aggregation that have a category; rows whose category is null are in
    no group. *)
Theorem category_summary_revenue_partition (rows : list Row) :
  sumZ (map CategorySummary.revenue (category_summary rows))
  = total_revenue (filter has_category rows).
Proof.
  rewrite category_summary_revenue. unfold total_revenue, has_category.
  apply groupby_sum.
  - apply NoDup_group_keys.
  - intros r k Hr Hk. apply in_group_keys. exists r. auto.
Qed.

(** The category summary of a run is the aggregation of [orders_full]. *)
Lemma app_category_summary (d : Dataset) (s e : Z) (o : Output) :
  app d s e = Ok o ->
  t3_category_summary (out_tab3 o) = category_summary (orders_full d).
Proof.
  unfold app. destruct (e <? s); [discriminate |].
  destruct (tab1 d _) as [t1|]; [| discriminate]. simpl.
  destruct (tab2 _) as [t2|]; [| discriminate]. simpl.
  unfold tab3 at 1. destruct (orders_full d) as [|r full] eqn:Efull;
    [discriminate |].
  destruct (tab3_key_insights _) as [f|]; [| discriminate]. simpl.
  destruct (tab4 _) as [t4|]; [| discriminate]. simpl.
  intros [= <-]. reflexivity.
Qed.

(** Two runs over the same data show the same category summary, whatever
    their date ranges. *)
Lemma category_summary_ignores_range (d : Dataset) (s e s' e' : Z)
    (o o' : Output) :
  app d s e = Ok o -> app d s' e' = Ok o' ->
  t3_category_summary (out_tab3 o) = t3_category_summary (out_tab3 o').
Proof.
  intros Ho Ho'.
  now rewrite (app_category_summary _ _ _ _ Ho), (app_category_summary _ _ _ _ Ho').
Qed.

(** C5: with the window January 2017 the March order is filtered out, yet
    the category summary of the run still counts it (books: 1200, two
    orders) where the aggregation of the filtered rows gives books: 500,
    one order. *)
Theorem category_summary_not_filtered :
  exists o,
    app quarter_shop jan_1_2017 jan_31_2017 = Ok o
    /\ enriched_rows o
       = filtered_orders (orders_full quarter_shop) jan_1_2017 jan_31_2017
    /\ enriched_rows o <> orders_full quarter_shop
    /\ t3_category_summary (out_tab3 o) = category_summary (orders_full quarter_shop)
    /\ t3_category_summary (out_tab3 o) <> category_summary (enriched_rows o)
    /\ map (fun c => (CategorySummary.product_category_name c,
                      CategorySummary.revenue c, CategorySummary.total_orders c))
           (t3_category_summary (out_tab3 o))
       = [("books", 1200, 2); ("toys", 1000, 1)]
    /\ map (fun c => (CategorySummary.product_category_name c,
                      CategorySummary.revenue c, CategorySummary.total_orders c))
           (category_summary (enriched_rows o))
       = [("books", 500, 1); ("toys", 1000, 1)].
Proof.
  eexists. split; [vm_compute; reflexivity |].
  repeat split; try reflexivity; vm_compute; discriminate.
Qed.

(** ** The monetary column *)

Lemma sumZ_repeat_map {A : Type} (f : A -> Z) (v : Z) (l : list A) :
  (forall a, In a l -> f a = v) ->
  sumZ (map f l) = Z.of_nat (List.length l) * v.
Proof.
  induction l as [|a l IH]; intros Hall; [reflexivity |].
  simpl map. simpl sumZ. rewrite (Hall a) by now left.
  rewrite IH by (intros b Hb; apply Hall; now right).
  simpl List.length. lia.
Qed.

(** The rows that the second merge makes of one row [r]. *)
Lemma merged_block (d : Dataset) (r : Row) :
  exists block,
    merged_order_items [r] d = block
    /\ Z.of_nat (List.length block) = merge_copies d r
    /\ forall m, In m block ->
         base m = r /\ revenue_filled m = fillna 0 (price r).
Proof.
  eexists. split; [reflexivity |].
  unfold merged_order_items, merge_copies, merge_left. simpl flat_map.
  rewrite app_nil_r. unfold has_key. simpl key_eqb.
  destruct (filter _ (order_items d)) as [|i ms].
  - simpl. split; [reflexivity |]. intros m [<- | []]. split; reflexivity.
  - rewrite length_map. simpl List.length. rewrite length_map.
    split; [lia |].
    intros m Hm. apply in_map_iff in Hm. destruct Hm as [x [<- Hx]].
    destruct Hx as [<- | Hx]; [split; reflexivity |].
    apply in_map_iff in Hx. destruct Hx as [i' [<- _]]. split; reflexivity.
Qed.

Lemma merged_order_items_cons (r : Row) (rows : list Row) (d : Dataset) :
  merged_order_items (r :: rows) d
  = merged_order_items [r] d ++ merged_order_items rows d.
Proof.
  unfold merged_order_items, merge_left. simpl flat_map.
  rewrite app_nil_r. apply map_app.
Qed.

(** What the RFM block sums: every revenue of the window, once per line
    item of its order. *)
Lemma merged_revenue (p : Row -> bool) (filtered : list Row) (d : Dataset) :
  sumZ (map revenue_filled
            (filter (fun m => p (base m)) (merged_order_items filtered d)))
  = sumZ (map (fun r => merge_copies d r * fillna 0 (price r))
              (filter p filtered)).
Proof.
  induction filtered as [|r rows IH]; [reflexivity |].
  rewrite merged_order_items_cons, filter_app, map_app, sumZ_app, IH.
  destruct (merged_block d r) as [block [-> [Hlen Hblock]]].
  simpl filter. destruct (p r) eqn:Ep.
  - rewrite filter_all by (intros m Hm; now rewrite (proj1 (Hblock m Hm))).
    rewrite (sumZ_repeat_map _ (fillna 0 (price r)))
      by (intros m Hm; apply Hblock; exact Hm).
    simpl map. simpl sumZ. rewrite Hlen. reflexivity.
  - replace (filter (fun m => p (base m)) block) with (@nil MergedRow).
    + reflexivity.
    + symmetry. apply filter_nil_iff. intros m Hm.
      now rewrite (proj1 (Hblock m Hm)).
Qed.

(** The monetary value of every row of the RFM table. *)
Lemma rfm_monetary (snapshot : Z) (filtered : list Row) (d : Dataset) (x : Rfm) :
  In x (rfm_agg snapshot (merged_order_items filtered d)) ->
  monetary x
  = sumZ (map (fun r => merge_copies d r * fillna 0 (price r))
              (filter (of_customer (rfm_customer_unique_id x)) filtered)).
Proof.
  unfold rfm_agg, groupby. rewrite map_map. intros Hx.
  apply in_map_iff in Hx. destruct Hx as [k [<- _]]. simpl.
  apply (merged_revenue (fun r => has_key k (customer_unique_id r))).
Qed.

Lemma orders_full_revenue (d : Dataset) (r : Row) :
  In r (orders_full d) -> revenue r = price r.
Proof.
  unfold orders_full. intros Hr. apply in_map_iff in Hr.
  destruct Hr as [[[[o c] i] q] [<- _]]. reflexivity.
Qed.

(** Where no order of the window has more than one line item, the monetary
    value is the revenue of the customer's rows. *)
Lemma rfm_monetary_single_items (d : Dataset) (start_date end_date : Z) (x : Rfm) :
  let filtered := filtered_orders (orders_full d) start_date end_date in
  (forall r, In r filtered -> merge_copies d r = 1) ->
  In x (rfm_agg (snapshot_date filtered) (merged_order_items filtered d)) ->
  monetary x
  = total_revenue (filter (of_customer (rfm_customer_unique_id x)) filtered).
Proof.
  intros filtered Hone Hx. rewrite (rfm_monetary _ _ _ _ Hx).
  unfold total_revenue. f_equal. apply map_ext_in. intros r Hr.
  apply filter_In in Hr. destruct Hr as [Hr _].
  rewrite (Hone r Hr).
  assert (In r (orders_full d)) as Hfull
    by (unfold filtered, filtered_orders in Hr; apply filter_In in Hr; tauto).
  rewrite (orders_full_revenue d r Hfull). lia.
Qed.

(** C3: the first customer of the January window has one order of two line
    items, priced 1000 and 2000.  The customer's enriched rows carry a
    revenue of 3000; the RFM table reports a monetary value of 6000, each
    line item being counted once per line item of its order after the second
    merge with the item table. *)
Theorem monetary_counts_items_twice :
  exists o,
    app quarter_shop jan_1_2017 jan_31_2017 = Ok o
    /\ map (fun r => (rfm_customer_unique_id (metrics (scored r)),
                      monetary (metrics (scored r))))
           (t1_rfm (out_tab1 o))
       = [("u1", 6000); ("u2", 500)]
    /\ total_revenue (filter (of_customer "u1") (enriched_rows o)) = 3000
    /\ map revenue (filter (of_customer "u1") (enriched_rows o))
       = [Some 1000; Some 2000].
Proof.
  eexists. split; [vm_compute; reflexivity |].
  repeat split; reflexivity.
Qed.

(** ** The empty window *)

Lemma app_empty_window (d : Dataset) (s e : Z) :
  s <= e ->
  filtered_orders (orders_full d) s e = [] ->
  app d s e = Raise (NameError "rfm").
Proof.
  intros Hse Hempty. unfold app.
  destruct (Z.ltb_spec e s) as [Hlt | _]; [lia |].
  rewrite Hempty. reflexivity.
Qed.

(** C6: all orders are in January 2017 and the window is February 2017.
    The filtered rows are empty, and the run ends in tab 1 with a NameError:
    the Key Insights block reads [rfm], which only the branch of a non-empty
    window assigns.  No summary and no list of findings is produced; the
    temporal and the geographic tab would raise on the empty window as
    well. *)
Theorem empty_window_raises :
  Forall (fun o => jan_1_2017 <= date (Orders.order_purchase_timestamp o)
                   <= jan_31_2017)
         (orders weekday_shop)
  /\ filtered_orders (orders_full weekday_shop) feb_1_2017 feb_28_2017 = []
  /\ tab1 weekday_shop [] = Raise (NameError "rfm")
  /\ raises (tab2 [])
  /\ raises (tab4 [])
  /\ app weekday_shop feb_1_2017 feb_28_2017 = Raise (NameError "rfm").
Proof.
  split; [repeat constructor; vm_compute; discriminate |].
  split; [reflexivity |].
  split; [reflexivity |].
  split; [eexists; reflexivity |].
  split; [eexists; reflexivity | reflexivity].
Qed.

(** ** The day-of-week summary *)

Lemma lookup_keyed {V : Type} (g : string -> V) (k : string) (keys : list string) :
  lookup k (map (fun k' => (k', g k')) keys)
  = if key_mem k keys then Some (g k) else None.
Proof.
  induction keys as [|x keys IH]; simpl; [reflexivity |].
  rewrite (String.eqb_sym x k).
  destruct (String.eqb_spec k x) as [-> | Hne]; simpl; [reflexivity | exact IH].
Qed.

Lemma size_by_keyed {R : Type} (key : R -> option string) (rows : list R) :
  size_by key rows
  = map (fun k =>
           (k, Z.of_nat (List.length (filter (fun r => has_key k (key r)) rows))))
        (group_keys key rows).
Proof.
  unfold size_by, groupby, group_keys. rewrite map_map. reflexivity.
Qed.

(** A label the grouped series has carries its count; a label it does not
    have is missing, and that is the case exactly when no row has the key. *)
Lemma lookup_size_by {R : Type} (key : R -> option string) (rows : list R)
    (k : string) :
  lookup k (size_by key rows)
  = let c := Z.of_nat (List.length (filter (fun r => has_key k (key r)) rows)) in
    if c =? 0 then None else Some c.
Proof.
  rewrite size_by_keyed, lookup_keyed. cbv zeta.
  destruct (key_mem k (group_keys key rows)) eqn:Ek.
  - apply key_mem_In, in_group_keys in Ek. destruct Ek as [r [Hr Hk]].
    destruct (filter _ rows) as [|x l] eqn:Ef.
    + rewrite filter_nil_iff in Ef. specialize (Ef r Hr).
      rewrite Hk in Ef. unfold has_key in Ef.
      rewrite key_eqb_refl in Ef. discriminate.
    + reflexivity.
  - destruct (filter _ rows) as [|x l] eqn:Ef; [reflexivity |].
    assert (In x (filter (fun r => has_key k (key r)) rows)) as Hx
      by (rewrite Ef; now left).
    apply filter_In in Hx. destruct Hx as [Hx Hkx].
    destruct (key x) as [k'|] eqn:Ekx; [| discriminate].
    unfold has_key in Hkx. apply key_eqb_eq in Hkx. subst k'.
    assert (In k (group_keys key rows)) as Hin
      by (apply in_group_keys; exists x; auto).
    apply key_mem_In in Hin. congruence.
Qed.

Lemma daily_summary_counts (filtered : list Row) :
  daily_summary filtered
  = map (fun day =>
           (day,
            if transactions_on day filtered =? 0 then None
            else Some (transactions_on day filtered)))
        weekday_names.
Proof.
  unfold daily_summary, reindex. apply map_ext. intros day.
  rewrite lookup_size_by. reflexivity.
Qed.

(** C7, as stated: in the run over January 2017 no transaction falls on a
    Tuesday, and the Tuesday row of the day-of-week summary carries a
    missing count, not the count 0. *)
Lemma daily_summary_tuesday_is_missing :
  exists o,
    app quarter_shop jan_1_2017 jan_31_2017 = Ok o
    /\ transactions_on "Tuesday" (enriched_rows o) = 0
    /\ lookup "Tuesday" (t2_daily_summary (out_tab2 o)) = Some None
    /\ lookup "Tuesday" (t2_daily_summary (out_tab2 o)) <> Some (Some 0).
Proof.
  eexists. split; [vm_compute; reflexivity |].
  repeat split; try reflexivity. vm_compute. discriminate.
Qed.

(** C7 (amended): the day-of-week summary has one row for each of the seven
    weekday names, Monday to Sunday in that order, whatever days occur in the
    window; a day with transactions carries their number and a day without
    any carries a missing count. *)
Theorem daily_summary_seven_days (filtered : list Row) :
  map fst (daily_summary filtered)
  = ["Monday"; "Tuesday"; "Wednesday"; "Thursday"; "Friday"; "Saturday";
     "Sunday"]
  /\ daily_summary filtered
     = map (fun day =>
              (day,
               if transactions_on day filtered =? 0 then None
               else Some (transactions_on day filtered)))
           weekday_names.
Proof.
  split.
  - unfold daily_summary, reindex. rewrite map_map. reflexivity.
  - apply daily_summary_counts.
Qed.

(** ** Ranks *)

Lemma count_if_cons (p : Z -> bool) (x : Z) (l : list Z) :
  count_if p (x :: l) = (if p x then 1 else 0) + count_if p l.
Proof.
  unfold count_if. simpl. destruct (p x); simpl List.length; lia.
Qed.

Lemma count_if_nil (p : Z -> bool) : count_if p [] = 0.
Proof. reflexivity. Qed.

Lemma count_if_app (p : Z -> bool) (l1 l2 : list Z) :
  count_if p (l1 ++ l2) = count_if p l1 + count_if p l2.
Proof.
  induction l1 as [|x l1 IH]; [reflexivity |].
  rewrite <- app_comm_cons, !count_if_cons, IH. lia.
Qed.

Lemma count_if_bounds (p : Z -> bool) (l : list Z) :
  0 <= count_if p l <= Z.of_nat (List.length l).
Proof.
  induction l as [|x l IH]; [unfold count_if; simpl; lia |].
  rewrite count_if_cons. simpl List.length. destruct (p x); lia.
Qed.

Lemma count_if_ext_in (p q : Z -> bool) (l : list Z) :
  (forall x, In x l -> p x = q x) -> count_if p l = count_if q l.
Proof.
  induction l as [|x l IH]; intros Hpq; [reflexivity |].
  rewrite !count_if_cons, (Hpq x) by now left.
  rewrite IH; [reflexivity |]. intros y Hy. apply Hpq. now right.
Qed.

Lemma count_if_perm (p : Z -> bool) (l1 l2 : list Z) :
  Permutation l1 l2 -> count_if p l1 = count_if p l2.
Proof.
  induction 1; rewrite ?count_if_cons; lia.
Qed.

Lemma count_if_map (p : Z -> bool) (f : Z -> Z) (l : list Z) :
  count_if p (map f l) = count_if (fun x => p (f x)) l.
Proof.
  induction l as [|x l IH]; [reflexivity |].
  simpl map. rewrite !count_if_cons, IH. reflexivity.
Qed.

(** The values below [v] and the values equal to [v] are all below any
    larger value. *)
Lemma count_lt_eq_le (v w : Z) (l : list Z) :
  v < w ->
  count_if (fun x => x <? v) l + count_if (fun x => x =? v) l
  <= count_if (fun x => x <? w) l.
Proof.
  intros Hvw. induction l as [|x l IH]; [unfold count_if; simpl; lia |].
  rewrite !count_if_cons.
  destruct (Z.ltb_spec x v), (Z.eqb_spec x v), (Z.ltb_spec x w); lia.
Qed.

Lemma count_lt_eq_length (v : Z) (l : list Z) :
  count_if (fun x => x <? v) l + count_if (fun x => x =? v) l
  <= Z.of_nat (List.length l).
Proof.
  induction l as [|x l IH]; [unfold count_if; simpl; lia |].
  rewrite !count_if_cons. simpl List.length.
  destruct (Z.ltb_spec x v), (Z.eqb_spec x v); lia.
Qed.

Lemma count_firstn_succ (p : Z -> bool) (l : list Z) (i : nat) :
  (i < List.length l)%nat ->
  count_if p (firstn (S i) l)
  = count_if p (firstn i l) + (if p (nth i l 0) then 1 else 0).
Proof.
  revert i. induction l as [|x l IH]; intros i Hi; simpl in Hi; [lia |].
  destruct i as [|i].
  - simpl. rewrite count_if_cons, !count_if_nil. lia.
  - change (firstn (S (S i)) (x :: l)) with (x :: firstn (S i) l).
    change (firstn (S i) (x :: l)) with (x :: firstn i l).
    rewrite !count_if_cons, IH by lia. simpl nth. lia.
Qed.

Lemma count_firstn_mono (p : Z -> bool) (l : list Z) (i j : nat) :
  (i <= j)%nat -> count_if p (firstn i l) <= count_if p (firstn j l).
Proof.
  intros Hij. induction Hij as [|j Hij IH]; [lia |].
  destruct (Nat.lt_ge_cases j (List.length l)) as [Hj | Hj].
  - rewrite count_firstn_succ by assumption. destruct (p _); lia.
  - rewrite (@firstn_all2 _ (S j) l) by lia.
    rewrite (@firstn_all2 _ j l) in IH by lia. exact IH.
Qed.

Lemma count_firstn_le (p : Z -> bool) (l : list Z) (i : nat) :
  count_if p (firstn i l) <= count_if p l.
Proof.
  destruct (Nat.le_ge_cases i (List.length l)) as [Hi | Hi].
  - rewrite <- (firstn_all l) at 2. now apply count_firstn_mono.
  - rewrite firstn_all2 by assumption. lia.
Qed.

Lemma length_rank_from (seen all rest : list Z) :
  List.length (rank_from seen all rest) = List.length rest.
Proof.
  revert seen. induction rest as [|v rest IH]; intros seen; simpl;
    [reflexivity | now rewrite IH].
Qed.

Lemma nth_rank_from (seen all rest : list Z) (i : nat) :
  (i < List.length rest)%nat ->
  nth i (rank_from seen all rest) 0
  = 1 + count_if (fun w => w <? nth i rest 0) all
      + count_if (fun w => w =? nth i rest 0) seen
      + count_if (fun w => w =? nth i rest 0) (firstn i rest).
Proof.
  revert seen i. induction rest as [|v rest IH]; intros seen i Hi;
    simpl in Hi; [lia |].
  destruct i as [|i].
  - simpl. rewrite count_if_nil. lia.
  - simpl rank_from. simpl nth. rewrite IH by lia.
    change (firstn (S i) (v :: rest)) with (v :: firstn i rest).
    rewrite !count_if_cons. lia.
Qed.

Lemma length_rank_first (col : list Z) :
  List.length (rank_first col) = List.length col.
Proof. apply length_rank_from. Qed.

(** The rank of the cell at position [i]. *)
Lemma nth_rank_first (col : list Z) (i : nat) :
  (i < List.length col)%nat ->
  nth i (rank_first col) 0
  = 1 + count_if (fun w => w <? nth i col 0) col
      + count_if (fun w => w =? nth i col 0) (firstn i col).
Proof.
  intros Hi. unfold rank_first. rewrite nth_rank_from by assumption.
  rewrite count_if_nil. lia.
Qed.

(** A smaller value has a smaller rank, and of two equal values the one
    that occurs first has the smaller rank. *)
Lemma rank_first_order (col : list Z) (i j : nat) :
  (i < List.length col)%nat -> (j < List.length col)%nat ->
  nth i col 0 < nth j col 0 \/ (nth i col 0 = nth j col 0 /\ (i < j)%nat) ->
  nth i (rank_first col) 0 < nth j (rank_first col) 0.
Proof.
  intros Hi Hj Hord. rewrite !nth_rank_first by assumption.
  set (v := nth i col 0) in *. set (w := nth j col 0) in *.
  pose proof (count_if_bounds (fun x => x =? w) (firstn j col)) as Hb.
  destruct Hord as [Hlt | [Heq Hij]].
  - pose proof (count_lt_eq_le v w col Hlt) as H1.
    pose proof (count_firstn_le (fun x => x =? v) col (S i)) as H2.
    rewrite count_firstn_succ in H2 by assumption.
    fold v in H2. rewrite Z.eqb_refl in H2. lia.
  - rewrite <- Heq in *.
    pose proof (count_firstn_mono (fun x => x =? v) col (S i) j Hij) as H1.
    rewrite count_firstn_succ in H1 by assumption.
    fold v in H1. rewrite Z.eqb_refl in H1. lia.
Qed.

Lemma rank_first_range (col : list Z) (i : nat) :
  (i < List.length col)%nat ->
  1 <= nth i (rank_first col) 0 <= Z.of_nat (List.length col).
Proof.
  intros Hi. rewrite nth_rank_first by assumption.
  set (v := nth i col 0).
  pose proof (count_if_bounds (fun x => x <? v) col).
  pose proof (count_if_bounds (fun x => x =? v) (firstn i col)).
  pose proof (count_lt_eq_length v col) as H1.
  pose proof (count_firstn_le (fun x => x =? v) col (S i)) as H2.
  rewrite count_firstn_succ in H2 by assumption.
  fold v in H2. rewrite Z.eqb_refl in H2. lia.
Qed.

Lemma NoDup_rank_first (col : list Z) : NoDup (rank_first col).
Proof.
  apply (NoDup_nth _ 0). rewrite length_rank_first. intros i j Hi Hj Heq.
  destruct (Nat.lt_trichotomy i j) as [Hij | [Hij | Hij]]; [| assumption |].
  - exfalso.
    destruct (Z.lt_trichotomy (nth i col 0) (nth j col 0)) as [Hv | [Hv | Hv]].
    + pose proof (rank_first_order col i j Hi Hj (or_introl Hv)). lia.
    + pose proof (rank_first_order col i j Hi Hj (or_intror (conj Hv Hij))). lia.
    + pose proof (rank_first_order col j i Hj Hi (or_introl Hv)). lia.
  - exfalso.
    destruct (Z.lt_trichotomy (nth i col 0) (nth j col 0)) as [Hv | [Hv | Hv]].
    + pose proof (rank_first_order col i j Hi Hj (or_introl Hv)). lia.
    + pose proof (rank_first_order col j i Hj Hi
                    (or_intror (conj (eq_sym Hv) Hij))). lia.
    + pose proof (rank_first_order col j i Hj Hi (or_introl Hv)). lia.
Qed.

Lemma in_ranks_upto (n : nat) (r : Z) :
  In r (ranks_upto n) <-> 1 <= r <= Z.of_nat n.
Proof.
  unfold ranks_upto. rewrite in_map_iff. split.
  - intros [k [<- Hk]]. apply in_seq in Hk. lia.
  - intros Hr. exists (Z.to_nat r). split; [lia | apply in_seq; lia].
Qed.

(** The ranks of a column of [n] cells are the numbers [1 .. n], each
    once. *)
Lemma rank_first_perm (col : list Z) :
  Permutation (rank_first col) (ranks_upto (List.length col)).
Proof.
  apply NoDup_Permutation_bis.
  - apply NoDup_rank_first.
  - unfold ranks_upto.
    rewrite length_map, length_seq, length_rank_first. lia.
  - intros r Hr. apply (In_nth _ _ 0) in Hr. destruct Hr as [i [Hi <-]].
    rewrite length_rank_first in Hi. apply in_ranks_upto.
    now apply rank_first_range.
Qed.

(** ** Quartile bins of ranks *)

Lemma insert_key_sorted (k : Z) (l : list Z) :
  StronglySorted Z.le l -> StronglySorted Z.le (insert_key k l).
Proof.
  induction 1 as [|x l Hs IH Hx]; simpl.
  - repeat constructor.
  - destruct (Z.leb_spec k x) as [Hle | Hgt].
    + constructor; [now constructor |].
      constructor; [assumption |].
      eapply Forall_impl; [| exact Hx]. intros y Hy. simpl in Hy. lia.
    + constructor; [exact IH |].
      eapply Permutation_Forall; [symmetry; apply insert_key_perm |].
      constructor; [lia | assumption].
Qed.

Lemma sort_keys_sorted (l : list Z) : StronglySorted Z.le (sort_keys l).
Proof.
  induction l as [|x l IH]; simpl; [constructor | now apply insert_key_sorted].
Qed.

(** A sorted column that holds consecutive numbers, each once, lists them
    in order. *)
Lemma sorted_consecutive (n a : nat) (l : list Z) :
  StronglySorted Z.le l ->
  Permutation l (map Z.of_nat (seq a n)) ->
  l = map Z.of_nat (seq a n).
Proof.
  revert a l. induction n as [|n IH]; intros a l Hs Hp; simpl in *.
  - now apply Permutation_sym, Permutation_nil in Hp.
  - destruct l as [|x l].
    + apply Permutation_nil in Hp. discriminate.
    + inversion Hs as [|? ? Hs' Hx]; subst.
      assert (x = Z.of_nat a) as ->.
      { assert (In x (Z.of_nat a :: map Z.of_nat (seq (S a) n))) as Hin
          by (eapply Permutation_in; [exact Hp | now left]).
        assert (In (Z.of_nat a) (x :: l)) as Hin'
          by (eapply Permutation_in; [symmetry; exact Hp | now left]).
        assert (Z.of_nat a <= x) as H1.
        { destruct Hin as [<- | Hin]; [lia |].
          apply in_map_iff in Hin. destruct Hin as [k [<- Hk]].
          apply in_seq in Hk. lia. }
        destruct Hin' as [-> | Hin']; [reflexivity |].
        rewrite Forall_forall in Hx. specialize (Hx _ Hin'). lia. }
      f_equal. apply IH; [assumption |].
      eapply Permutation_cons_inv. exact Hp.
Qed.

Lemma sort_rank_first (col : list Z) :
  sort_keys (rank_first col) = ranks_upto (List.length col).
Proof.
  apply sorted_consecutive; [apply sort_keys_sorted |].
  rewrite sort_keys_perm. apply rank_first_perm.
Qed.

Lemma length_ranks_upto (n : nat) : List.length (ranks_upto n) = n.
Proof. unfold ranks_upto. now rewrite length_map, length_seq. Qed.

Lemma nth_ranks_upto (n i : nat) :
  (i < n)%nat -> nth i (ranks_upto n) 0 = Z.of_nat i + 1.
Proof.
  intros Hi. unfold ranks_upto. change 0 with (Z.of_nat 0).
  rewrite map_nth, seq_nth by assumption. lia.
Qed.

(** The bin edges of the ranks [1 .. n] lie at [1 + (n - 1) * k / 4]. *)
Lemma quantile4_ranks (n : nat) (k : Z) :
  (1 <= n)%nat -> 0 <= k <= 4 ->
  quantile4 (ranks_upto n) k = 4 + (Z.of_nat n - 1) * k.
Proof.
  intros Hn Hk. unfold quantile4. rewrite length_ranks_upto.
  set (h := (Z.of_nat n - 1) * k).
  assert (0 <= h <= 4 * (Z.of_nat n - 1)) as Hh by (unfold h; nia).
  assert (0 <= h / 4 <= Z.of_nat n - 1) as Hlo
    by (split; [apply Z.div_pos; lia | apply Z.div_le_upper_bound; lia]).
  pose proof (Z.div_mod h 4 ltac:(lia)) as Hdm.
  pose proof (Z.mod_pos_bound h 4 ltac:(lia)) as Hm.
  rewrite !nth_ranks_upto by lia. rewrite !Z2Nat.id by lia.
  destruct (Z.min_spec (h / 4 + 1) (Z.of_nat n - 1)) as [[Hlt ->] | [Hge ->]].
  - lia.
  - assert (h / 4 = Z.of_nat n - 2 \/ h / 4 = Z.of_nat n - 1) as [E | E]
      by lia; rewrite E in *; lia.
Qed.

Lemma bin_edges4_rank_first (col : list Z) :
  col <> [] ->
  let m := Z.of_nat (List.length col) - 1 in
  bin_edges4 (rank_first col) = [4; 4 + m; 4 + m * 2; 4 + m * 3; 4 + m * 4].
Proof.
  intros Hne m. unfold bin_edges4. rewrite sort_rank_first.
  assert (1 <= List.length col)%nat
    by (destruct col; [congruence | simpl; lia]).
  simpl map. rewrite !quantile4_ranks by lia.
  subst m. repeat (f_equal; try lia).
Qed.

Lemma unique_from_NoDup (seen l : list Z) :
  NoDup l -> (forall x, In x l -> ~ In x seen) -> unique_from seen l = l.
Proof.
  intros Hnd. revert seen. induction Hnd as [|x l Hx Hnd IH]; intros seen Hs;
    simpl; [reflexivity |].
  destruct (key_mem x seen) eqn:E.
  - apply key_mem_In in E. exfalso. apply (Hs x); [now left | assumption].
  - f_equal. apply IH. intros y Hy [<- | Hin]; [contradiction |].
    apply (Hs y); [now right | assumption].
Qed.

Lemma unique_NoDup (l : list Z) : NoDup l -> unique l = l.
Proof.
  intros Hnd. apply unique_from_NoDup; [assumption | intros x _ []].
Qed.

Lemma rank_first_singleton (v : Z) : rank_first [v] = [1].
Proof.
  pose proof (rank_first_perm [v]) as Hp.
  now apply Permutation_sym, Permutation_length_1_inv in Hp.
Qed.

(** A column of one cell cannot be cut into quartiles: the five bin edges
    coincide. *)
Lemma score_column_singleton (v : Z) :
  score_column [v] = Raise (ValueError "Bin edges must be unique").
Proof.
  unfold score_column. rewrite rank_first_singleton. reflexivity.
Qed.

Lemma score_column_nil :
  score_column [] = Raise (ValueError "Bin edges must be unique").
Proof. reflexivity. Qed.

Lemma bin_id_rank (m r : Z) :
  1 <= m -> 1 <= r <= m + 1 ->
  bin_id [4; 4 + m; 4 + m * 2; 4 + m * 3; 4 + m * 4] r - 1 + 1
  = score_of_rank (m + 1) r.
Proof.
  intros Hm Hr. unfold bin_id, score_of_rank. simpl hd.
  replace (m + 1 - 1) with m by lia.
  rewrite !count_if_cons, count_if_nil.
  destruct (Z.eqb_spec (4 * r) 4), (Z.eqb_spec r 1); try lia.
  repeat match goal with
         | |- context [?a <? ?b] => destruct (Z.ltb_spec a b)
         end; lia.
Qed.

(** The scores of a column of at least two cells: each cell gets the score
    of its rank. *)
Lemma score_column_ranks (col : list Z) :
  (2 <= List.length col)%nat ->
  score_column col
  = Ok (map (score_of_rank (Z.of_nat (List.length col))) (rank_first col)).
Proof.
  intros Hn. unfold score_column, qcut.
  assert (col <> []) as Hne by (destruct col; [simpl in Hn; lia | congruence]).
  destruct (rank_first col) as [|r0 rs] eqn:Er.
  { apply (f_equal (@List.length Z)) in Er.
    rewrite length_rank_first in Er. simpl in Er. lia. }
  rewrite <- Er. rewrite (bin_edges4_rank_first col Hne). cbv zeta.
  set (m := Z.of_nat (List.length col) - 1).
  assert (1 <= m) as Hm by (unfold m; lia).
  rewrite unique_NoDup.
  2:{ repeat (apply NoDup_cons;
              [cbn [In]; intros Hin;
               repeat (destruct Hin as [Hin | Hin]; [lia |]); exact Hin |]).
      apply NoDup_nil. }
  rewrite Nat.ltb_irrefl. unfold bind. f_equal. rewrite map_map.
  apply map_ext_in. intros r Hr.
  assert (1 <= r <= m + 1) as Hrange.
  { apply (Permutation_in _ (rank_first_perm col)) in Hr.
    apply in_ranks_upto in Hr. unfold m. lia. }
  cbv beta. rewrite (bin_id_rank m r Hm Hrange). f_equal. unfold m. lia.
Qed.

(** ** Sizes of the quartile bins *)

Lemma score_of_rank_range (n r : Z) : 1 <= score_of_rank n r <= 4.
Proof.
  unfold score_of_rank.
  destruct (r =? 1); [lia |].
  repeat match goal with
         | |- context [?a <? ?b] => destruct (Z.ltb_spec a b)
         end; lia.
Qed.

Lemma score_le_rank (n r k : Z) :
  1 <= n -> 1 <= r <= n -> 0 <= k <= 4 ->
  (score_of_rank n r <=? k) = (r <=? ranks_upto_score n k).
Proof.
  intros Hn Hr Hk.
  unfold score_of_rank, ranks_upto_score.
  destruct (Z.leb_spec k 0), (Z.leb_spec 4 k), (Z.eqb_spec r 1);
    repeat match goal with
           | |- context [?a <? ?b] => destruct (Z.ltb_spec a b)
           end;
    match goal with
    | |- (?a <=? ?b) = (?c <=? ?d) =>
        destruct (Z.leb_spec a b), (Z.leb_spec c d)
    end;
    try reflexivity; exfalso; try lia;
    assert (k = 1 \/ k = 2 \/ k = 3) as [-> | [-> | ->]] by lia;
    Z.div_mod_to_equations; lia.
Qed.

Lemma count_le_ranks_upto (n : nat) (c : Z) :
  0 <= c <= Z.of_nat n ->
  count_if (fun r => r <=? c) (ranks_upto n) = c.
Proof.
  revert c. induction n as [|n IH]; intros c Hc.
  - unfold ranks_upto. simpl. rewrite count_if_nil. lia.
  - unfold ranks_upto in *. rewrite seq_S, map_app, count_if_app.
    change (map Z.of_nat [(1 + n)%nat]) with [Z.of_nat (1 + n)].
    rewrite count_if_cons, count_if_nil.
    destruct (Z.leb_spec (Z.of_nat (1 + n)) c) as [Hle | Hgt].
    + assert (c = Z.of_nat n + 1) as -> by lia.
      rewrite (count_if_ext_in _ (fun r => r <=? Z.of_nat n)).
      * rewrite IH by lia. lia.
      * intros x Hx. apply in_map_iff in Hx. destruct Hx as [i [<- Hi]].
        apply in_seq in Hi.
        destruct (Z.leb_spec (Z.of_nat i) (Z.of_nat n + 1)),
                 (Z.leb_spec (Z.of_nat i) (Z.of_nat n)); lia.
    + rewrite IH by lia. lia.
Qed.

Lemma count_score_le (n : nat) (k : Z) :
  (1 <= n)%nat -> 0 <= k <= 4 ->
  count_if (fun r => score_of_rank (Z.of_nat n) r <=? k) (ranks_upto n)
  = ranks_upto_score (Z.of_nat n) k.
Proof.
  intros Hn Hk.
  rewrite (count_if_ext_in _ (fun r => r <=? ranks_upto_score (Z.of_nat n) k)).
  - apply count_le_ranks_upto.
    unfold ranks_upto_score.
    destruct (Z.leb_spec k 0); [lia |].
    destruct (Z.leb_spec 4 k); [lia |].
    assert (k = 1 \/ k = 2 \/ k = 3) as [-> | [-> | ->]] by lia;
      Z.div_mod_to_equations; lia.
  - intros r Hr. apply in_ranks_upto in Hr. apply score_le_rank; lia.
Qed.

Lemma count_eq_as_difference (f : Z -> Z) (k : Z) (l : list Z) :
  count_if (fun x => f x =? k) l
  = count_if (fun x => f x <=? k) l - count_if (fun x => f x <=? k - 1) l.
Proof.
  induction l as [|x l IH]; [reflexivity |].
  rewrite !count_if_cons, IH.
  destruct (Z.eqb_spec (f x) k), (Z.leb_spec (f x) k),
           (Z.leb_spec (f x) (k - 1)); lia.
Qed.

Lemma quartile_bin_size_difference (n k : Z) :
  1 <= n -> 1 <= k <= 4 ->
  quartile_bin_size n k = ranks_upto_score n k - ranks_upto_score n (k - 1).
Proof.
  intros Hn Hk.
  unfold quartile_bin_size, leftover_goes_to, ranks_upto_score.
  repeat match goal with
         | |- context [?a <=? ?b] => destruct (Z.leb_spec a b)
         | |- context [?a =? ?b] => destruct (Z.eqb_spec a b)
         end;
    cbn [andb orb]; try lia;
    assert (k = 1 \/ k = 2 \/ k = 3 \/ k = 4) as [-> | [-> | [-> | ->]]] by lia;
    Z.div_mod_to_equations; lia.
Qed.

(** Every bin of the quartile binning of [n >= 2] ranks holds
    [quartile_bin_size n k] of them. *)
Lemma bin_count_scores (col : list Z) (k : Z) :
  (2 <= List.length col)%nat -> 1 <= k <= 4 ->
  bin_count k (map (score_of_rank (Z.of_nat (List.length col))) (rank_first col))
  = quartile_bin_size (Z.of_nat (List.length col)) k.
Proof.
  intros Hn Hk. unfold bin_count.
  rewrite count_if_map, (count_if_perm _ _ _ (rank_first_perm col)).
  rewrite (count_eq_as_difference (score_of_rank _) k).
  rewrite !count_score_le by lia.
  symmetry. apply quartile_bin_size_difference; lia.
Qed.

(** A bin holds the whole part of a quarter of the customers, or one more
    when the division leaves a remainder. *)
Lemma quartile_bin_size_floor_ceil (n k : Z) :
  quartile_bin_size n k = n / 4
  \/ (n mod 4 <> 0 /\ quartile_bin_size n k = n / 4 + 1).
Proof.
  unfold quartile_bin_size, leftover_goes_to.
  destruct (Z.leb_spec 1 (n mod 4)), (Z.leb_spec 2 (n mod 4)),
           (Z.leb_spec 3 (n mod 4)), (k =? 1), (k =? 4), (k =? 2);
    simpl; try (left; lia); right; split; lia.
Qed.

(** ** Scores of a column *)

Lemma score_of_rank_mono (n r r' : Z) :
  1 <= r <= r' -> score_of_rank n r <= score_of_rank n r'.
Proof.
  intros Hr. unfold score_of_rank.
  destruct (Z.eqb_spec r 1), (Z.eqb_spec r' 1);
    repeat match goal with
           | |- context [?a <? ?b] => destruct (Z.ltb_spec a b)
           end; lia.
Qed.

Lemma quartile_bin_size_ceiling (n k : Z) :
  quartile_bin_size n k = n / 4 \/ quartile_bin_size n k = (n + 3) / 4.
Proof.
  destruct (quartile_bin_size_floor_ceil n k) as [E | [Hm E]];
    [left; exact E | right].
  rewrite E. Z.div_mod_to_equations. lia.
Qed.

Lemma nth_map_in_range (f : Z -> Z) (l : list Z) (i : nat) :
  (i < List.length l)%nat -> nth i (map f l) 0 = f (nth i l 0).
Proof.
  intros Hi. rewrite (nth_indep _ 0 (f 0)) by now rewrite length_map.
  apply map_nth.
Qed.

Lemma score_column_quartile_scored (col : list Z) :
  (2 <= List.length col)%nat ->
  exists scores,
    score_column col = Ok scores
    /\ scores = map (score_of_rank (Z.of_nat (List.length col))) (rank_first col)
    /\ quartile_scored col scores.
Proof.
  intros Hn. eexists. split; [now apply score_column_ranks |].
  split; [reflexivity |].
  unfold quartile_scored. cbv zeta.
  split; [now rewrite length_map, length_rank_first |].
  split; [apply Forall_forall; intros s Hs; apply in_map_iff in Hs;
          destruct Hs as [r [<- _]]; apply score_of_rank_range |].
  split.
  - intros k Hk. rewrite bin_count_scores by assumption.
    split; [reflexivity | apply quartile_bin_size_ceiling].
  - intros i j Hi Hj Hord.
    pose proof (rank_first_order col i j Hi Hj Hord) as Hlt.
    pose proof (rank_first_range col i Hi) as Hri.
    rewrite !nth_map_in_range by now rewrite length_rank_first.
    apply score_of_rank_mono. lia.
Qed.

(** ** Scores of the RFM table *)

Lemma add_scores_columns (t : list Rfm) (r f m : list Z) :
  List.length r = List.length t ->
  List.length f = List.length t ->
  List.length m = List.length t ->
  map metrics (add_scores t r f m) = t
  /\ map R_score (add_scores t r f m) = r
  /\ map F_score (add_scores t r f m) = f
  /\ map M_score (add_scores t r f m) = m.
Proof.
  revert r f m. induction t as [|x t IH]; intros r f m Hr Hf Hm.
  - destruct r, f, m; try discriminate. repeat split.
  - destruct r as [|r0 r], f as [|f0 f], m as [|m0 m]; try discriminate.
    simpl in Hr, Hf, Hm.
    destruct (IH r f m) as [E1 [E2 [E3 E4]]]; try lia.
    simpl. rewrite E1, E2, E3, E4. repeat split.
Qed.

Lemma with_scores_small (t : list Rfm) :
  (List.length t < 2)%nat ->
  with_scores t = Raise (ValueError "Bin edges must be unique").
Proof.
  intros Hn. destruct t as [|x [|y t]]; [| | simpl in Hn; lia].
  - reflexivity.
  - unfold with_scores. simpl map. now rewrite score_column_singleton.
Qed.

(** For a table of at least two customers the three score columns are the
    quartile scores of the recency, frequency and monetary columns. *)
Lemma with_scores_quartiles (t : list Rfm) :
  (2 <= List.length t)%nat ->
  exists s,
    with_scores t = Ok s
    /\ map metrics s = t
    /\ map R_score s
       = map (score_of_rank (Z.of_nat (List.length t)))
             (rank_first (map recency t))
    /\ map F_score s
       = map (score_of_rank (Z.of_nat (List.length t)))
             (rank_first (map frequency t))
    /\ map M_score s
       = map (score_of_rank (Z.of_nat (List.length t)))
             (rank_first (map monetary t))
    /\ quartile_scored (map recency t) (map R_score s)
    /\ quartile_scored (map frequency t) (map F_score s)
    /\ quartile_scored (map monetary t) (map M_score s).
Proof.
  intros Hn. unfold with_scores.
  destruct (score_column_quartile_scored (map recency t)) as [r [Er [Dr Qr]]];
    [now rewrite length_map |].
  destruct (score_column_quartile_scored (map frequency t)) as [f [Ef [Df Qf]]];
    [now rewrite length_map |].
  destruct (score_column_quartile_scored (map monetary t)) as [m [Em [Dm Qm]]];
    [now rewrite length_map |].
  rewrite Er, Ef, Em. simpl bind. eexists. split; [reflexivity |].
  rewrite length_map in Dr, Df, Dm.
  destruct (add_scores_columns t r f m) as [E1 [E2 [E3 E4]]].
  - rewrite Dr, length_map, length_rank_first. apply length_map.
  - rewrite Df, length_map, length_rank_first. apply length_map.
  - rewrite Dm, length_map, length_rank_first. apply length_map.
  - rewrite E1, E2, E3, E4.
    exact (conj eq_refl (conj Dr (conj Df (conj Dm (conj Qr (conj Qf Qm)))))).
Qed.

(** ** The customers of a window *)

Lemma in_merge_left_fst {K : Type} `{GroupKey K} {L R : Type}
    (lkey : L -> option K) (rkey : R -> K) (left : list L) (right : list R)
    (a : L) :
  In a (map fst (merge_left lkey rkey left right)) <-> In a left.
Proof.
  unfold merge_left. induction left as [|l left IH]; simpl; [tauto |].
  rewrite map_app, in_app_iff, IH.
  assert (In a (map fst
                  match filter (fun r => has_key (rkey r) (lkey l)) right with
                  | [] => [(l, None)]
                  | r :: ms => map (fun r' => (l, Some r')) (r :: ms)
                  end) <-> l = a) as ->; [| tauto].
  destruct (filter _ right) as [|r ms]; simpl; [tauto |].
  rewrite map_map. simpl. split; [| now left].
  intros [E | Hin]; [assumption |].
  apply in_map_iff in Hin. now destruct Hin as [? [E _]].
Qed.

Lemma length_unique_same_members {K : Type} `{GroupKey K} (l l' : list K) :
  (forall x, In x l <-> In x l') ->
  List.length (unique l) = List.length (unique l').
Proof.
  intros Hsame. apply Permutation_length.
  apply NoDup_Permutation; try apply NoDup_unique.
  intros x. rewrite !in_unique. apply Hsame.
Qed.

(** The second merge repeats rows but adds no customer and loses none. *)
Lemma merged_customers (filtered : list Row) (d : Dataset) :
  nunique (map (fun r => customer_unique_id (base r))
               (merged_order_items filtered d))
  = total_customers filtered.
Proof.
  unfold total_customers, nunique. f_equal.
  apply length_unique_same_members. intros x.
  rewrite !in_dropna. unfold merged_order_items. rewrite map_map. simpl.
  rewrite <- (map_map fst customer_unique_id), !in_map_iff.
  split; intros [r [E Hr]]; exists r; (split; [exact E |]).
  - now apply in_merge_left_fst in Hr.
  - now apply in_merge_left_fst.
Qed.

(** The RFM table has one row per distinct customer of the window. *)
Lemma length_rfm_agg (snapshot : Z) (filtered : list Row) (d : Dataset) :
  Z.of_nat (List.length (rfm_agg snapshot (merged_order_items filtered d)))
  = total_customers filtered.
Proof.
  unfold rfm_agg. rewrite length_map.
  rewrite <- (length_map fst), groupby_keys, length_group_keys.
  apply merged_customers.
Qed.

Lemma with_segment_columns (s : list Scored) :
  List.length (with_segment s) = List.length s
  /\ rfm_metrics (with_segment s) = map metrics s
  /\ R_scores (with_segment s) = map R_score s
  /\ F_scores (with_segment s) = map F_score s
  /\ M_scores (with_segment s) = map M_score s.
Proof.
  unfold rfm_metrics, R_scores, F_scores, M_scores, with_segment.
  rewrite length_map, !map_map.
  repeat split; apply map_ext; reflexivity.
Qed.

Lemma build_rfm_small (filtered : list Row) (d : Dataset) :
  total_customers filtered < 2 ->
  build_rfm filtered (merged_order_items filtered d)
  = Raise (ValueError "Bin edges must be unique").
Proof.
  intros Hn. unfold build_rfm.
  rewrite with_scores_small; [reflexivity |].
  rewrite <- (length_rfm_agg (snapshot_date filtered) filtered d) in Hn. lia.
Qed.

Lemma build_rfm_quartiles (filtered : list Row) (d : Dataset) :
  2 <= total_customers filtered ->
  exists t,
    build_rfm filtered (merged_order_items filtered d) = Ok t
    /\ Z.of_nat (List.length t) = total_customers filtered
    /\ rfm_metrics t
       = rfm_agg (snapshot_date filtered) (merged_order_items filtered d)
    /\ R_scores t
       = map (score_of_rank (total_customers filtered))
             (rank_first (map recency (rfm_metrics t)))
    /\ F_scores t
       = map (score_of_rank (total_customers filtered))
             (rank_first (map frequency (rfm_metrics t)))
    /\ M_scores t
       = map (score_of_rank (total_customers filtered))
             (rank_first (map monetary (rfm_metrics t)))
    /\ quartile_scored (map recency (rfm_metrics t)) (R_scores t)
    /\ quartile_scored (map frequency (rfm_metrics t)) (F_scores t)
    /\ quartile_scored (map monetary (rfm_metrics t)) (M_scores t).
Proof.
  intros Hn. unfold build_rfm.
  pose proof (length_rfm_agg (snapshot_date filtered) filtered d) as Hlen.
  set (t0 := rfm_agg (snapshot_date filtered) (merged_order_items filtered d))
    in *.
  destruct (with_scores_quartiles t0) as [s [Es [Et [Er [Ef [Em [Qr [Qf Qm]]]]]]]];
    [lia |].
  rewrite Es. simpl bind. eexists. split; [reflexivity |].
  destruct (with_segment_columns s) as [Hl [E1 [E2 [E3 E4]]]].
  rewrite Hl, E1, E2, E3, E4.
  assert (List.length s = List.length t0) as Hs
    by (rewrite <- Et, length_map; reflexivity).
  rewrite Hs, Et, <- Hlen.
  exact (conj eq_refl (conj eq_refl (conj Er (conj Ef (conj Em
           (conj Qr (conj Qf Qm))))))).
Qed.

(** ** Quartile bins of a window *)

(** C2, as stated: a window of six customers.  Two customers are left over
    after an even split; they are in bins 1 and 4, so bin 2 holds one
    customer and bin 4 two, not the two and one of "extras to the earliest
    bins". *)
Lemma six_customers_extras_not_in_earliest_bins :
  exists o,
    app six_customer_shop jan_1_2017 jan_31_2017 = Ok o
    /\ total_customers (enriched_rows o) = 6
    /\ R_scores (t1_rfm (out_tab1 o)) = [4; 4; 3; 2; 1; 1]
    /\ map (fun k => bin_count k (R_scores (t1_rfm (out_tab1 o)))) [1; 2; 3; 4]
       = [2; 1; 1; 2]
    /\ map (earliest_bins_size 6) [1; 2; 3; 4] = [2; 2; 1; 1]
    /\ ~ (forall k, 1 <= k <= 4 ->
            bin_count k (R_scores (t1_rfm (out_tab1 o)))
            = earliest_bins_size (total_customers (enriched_rows o)) k).
Proof.
  eexists. split; [vm_compute; reflexivity |].
  repeat split; try reflexivity.
  intros Hall. specialize (Hall 2 ltac:(lia)). vm_compute in Hall.
  discriminate.
Qed.

(** C2 (amended): for a window of [n >= 4] customers the RFM block
    completes, with one row per customer, and each of the three score
    columns is the quartile binning of its metric: scores in [1 .. 4]; bin
    [k] holds [n / 4] customers plus one if it takes a leftover customer,
    the leftover customers going to bin 1, then bin 4, then bin 2, so that
    every bin holds the floor or the ceiling of [n / 4]; of two customers
    the one with the smaller value, or with the same value and the earlier
    row, never gets the higher score. *)
Theorem quartile_bins_of_window (d : Dataset) (filtered : list Row) :
  4 <= total_customers filtered ->
  exists t,
    build_rfm filtered (merged_order_items filtered d) = Ok t
    /\ Z.of_nat (List.length t) = total_customers filtered
    /\ quartile_scored (map recency (rfm_metrics t)) (R_scores t)
    /\ quartile_scored (map frequency (rfm_metrics t)) (F_scores t)
    /\ quartile_scored (map monetary (rfm_metrics t)) (M_scores t)
    /\ (forall k, 1 <= k <= 4 ->
          let n := total_customers filtered in
          let size :=
            n / 4
            + (if ((1 <=? n mod 4) && (k =? 1))
                  || ((2 <=? n mod 4) && (k =? 4))
                  || ((3 <=? n mod 4) && (k =? 2))
               then 1 else 0) in
          bin_count k (R_scores t) = size
          /\ bin_count k (F_scores t) = size
          /\ bin_count k (M_scores t) = size).
Proof.
  intros Hn.
  destruct (build_rfm_quartiles filtered d) as
    [t [Et [Hlen [_ [_ [_ [_ [Qr [Qf Qm]]]]]]]]]; [lia |].
  exists t. repeat (split; [assumption |]).
  intros k Hk. cbv zeta.
  assert (forall col : list Z, List.length col = List.length t ->
            Z.of_nat (List.length col) = total_customers filtered) as Hcol
    by (intros col ->; exact Hlen).
  destruct Qr as [_ [_ [Br _]]], Qf as [_ [_ [Bf _]]], Qm as [_ [_ [Bm _]]].
  cbv zeta in Br, Bf, Bm.
  unfold rfm_metrics in Br, Bf, Bm.
  rewrite Hcol in Br, Bf, Bm by now rewrite !length_map.
  repeat split; [apply Br | apply Bf | apply Bm]; assumption.
Qed.

Lemma quartile_bins_of_window_witness :
  4 <= total_customers (orders_full six_customer_shop)
  /\ exists t,
       build_rfm (orders_full six_customer_shop)
                 (merged_order_items (orders_full six_customer_shop)
                                     six_customer_shop) = Ok t
       /\ bin_count 1 (R_scores t) = 2.
Proof.
  assert (4 <= total_customers (orders_full six_customer_shop)) as Hn
    by (vm_compute; discriminate).
  split; [exact Hn |].
  destruct (quartile_bins_of_window six_customer_shop _ Hn)
    as [t [Et [_ [_ [_ [_ Hbins]]]]]].
  exists t. split; [exact Et |].
  exact (proj1 (Hbins 1 ltac:(lia))).
Defined.

(** ** Fewer than four customers *)

(** C9, as stated: a non-empty window with a single customer.  The five bin
    edges of the one rank coincide and the binning raises a ValueError, which
    ends the run. *)
Lemma single_customer_binning_raises :
  filtered_orders (orders_full single_customer_shop) jan_1_2017 jan_31_2017 <> []
  /\ total_customers
       (filtered_orders (orders_full single_customer_shop) jan_1_2017 jan_31_2017)
     = 1
  /\ score_column [1] = Raise (ValueError "Bin edges must be unique")
  /\ app single_customer_shop jan_1_2017 jan_31_2017
     = Raise (ValueError "Bin edges must be unique").
Proof.
  split; [vm_compute; discriminate |].
  repeat split; reflexivity.
Qed.

Lemma scores_of_two_or_three (n : nat) (ranks : list Z) :
  Permutation ranks (ranks_upto n) ->
  (n = 2%nat ->
   Permutation (map (score_of_rank (Z.of_nat n)) ranks) [1; 4])
  /\ (n = 3%nat ->
      Permutation (map (score_of_rank (Z.of_nat n)) ranks) [1; 2; 4]).
Proof.
  intros Hp. split; intros ->.
  - exact (Permutation_map (score_of_rank 2) Hp).
  - exact (Permutation_map (score_of_rank 3) Hp).
Qed.

(** C9 (amended): the code has no fallback of its own.  A window with two
    or three customers is binned without a fault by the quartile rule
    itself, which gives the scores 1 and 4, or 1, 2 and 4, by rank of each
    metric; a window with a single customer (or with none that has a
    customer id) makes the binning raise a ValueError. *)
Theorem binning_below_four_customers (d : Dataset) (filtered : list Row) :
  (total_customers filtered < 2 ->
   build_rfm filtered (merged_order_items filtered d)
   = Raise (ValueError "Bin edges must be unique"))
  /\ (total_customers filtered = 2 \/ total_customers filtered = 3 ->
      exists t,
        build_rfm filtered (merged_order_items filtered d) = Ok t
        /\ Z.of_nat (List.length t) = total_customers filtered
        /\ quartile_scored (map recency (rfm_metrics t)) (R_scores t)
        /\ quartile_scored (map frequency (rfm_metrics t)) (F_scores t)
        /\ quartile_scored (map monetary (rfm_metrics t)) (M_scores t)
        /\ let expected :=
             if total_customers filtered =? 2 then [1; 4] else [1; 2; 4] in
           Permutation (R_scores t) expected
           /\ Permutation (F_scores t) expected
           /\ Permutation (M_scores t) expected).
Proof.
  split; [apply build_rfm_small |].
  intros Hn.
  destruct (build_rfm_quartiles filtered d) as
    [t [Et [Hlen [_ [Er [Ef [Em [Qr [Qf Qm]]]]]]]]]; [lia |].
  exists t. repeat (split; [assumption |]).
  cbv zeta. rewrite Er, Ef, Em, <- Hlen.
  assert (forall col : list Z, List.length col = List.length t ->
            Permutation
              (map (score_of_rank (Z.of_nat (List.length t))) (rank_first col))
              (if Z.of_nat (List.length t) =? 2 then [1; 4] else [1; 2; 4]))
    as Hcol.
  { intros col Hc.
    pose proof (rank_first_perm col) as Hp. rewrite Hc in Hp.
    destruct (scores_of_two_or_three _ _ Hp) as [H2 H3].
    destruct Hn as [Hn | Hn]; rewrite <- Hlen in Hn.
    - replace (Z.of_nat (List.length t) =? 2) with true
        by (symmetry; apply Z.eqb_eq; exact Hn).
      apply H2. lia.
    - replace (Z.of_nat (List.length t) =? 2) with false
        by (symmetry; apply Z.eqb_neq; lia).
      apply H3. lia. }
  unfold rfm_metrics.
  repeat split; apply Hcol; now rewrite !length_map.
Qed.

Lemma binning_below_four_customers_witness :
  (total_customers (orders_full single_customer_shop) < 2
   /\ build_rfm (orders_full single_customer_shop)
                (merged_order_items (orders_full single_customer_shop)
                                    single_customer_shop)
      = Raise (ValueError "Bin edges must be unique"))
  /\ ((total_customers (orders_full weekday_shop) = 2
       \/ total_customers (orders_full weekday_shop) = 3)
      /\ exists t,
           build_rfm (orders_full weekday_shop)
                     (merged_order_items (orders_full weekday_shop)
                                         weekday_shop) = Ok t
           /\ Z.of_nat (List.length t)
              = total_customers (orders_full weekday_shop)).
Proof.
  assert (total_customers (orders_full single_customer_shop) < 2) as H1
    by (vm_compute; reflexivity).
  assert (total_customers (orders_full weekday_shop) = 2
          \/ total_customers (orders_full weekday_shop) = 3) as H2
    by (left; vm_compute; reflexivity).
  split.
  - split; [exact H1 |].
    exact (proj1 (binning_below_four_customers single_customer_shop _) H1).
  - split; [exact H2 |].
    destruct (proj2 (binning_below_four_customers weekday_shop _) H2)
      as [t [Et [Hlen _]]].
    exists t. split; [exact Et | exact Hlen].
Defined.

(** ** Windows of one day type *)

Lemma idxmax_from_some (col : list (option Z)) :
  forall (best : option (nat * Z)) (i : nat),
    (best <> None \/ exists v, In (Some v) col) ->
    (forall b v, best = Some (b, v) -> (b < i)%nat) ->
    exists j v,
      idxmax_from best i col = Some (j, v) /\ (j < i + List.length col)%nat.
Proof.
  induction col as [|[v|] col IH]; intros best i Hsome Hbest.
  - destruct best as [[b v]|].
    + exists b, v. split; [reflexivity |]. specialize (Hbest b v eq_refl). lia.
    + destruct Hsome as [Hne | [v []]]. congruence.
  - assert (exists j w,
              idxmax_from (Some (i, v)) (S i) col = Some (j, w)
              /\ (j < S i + List.length col)%nat) as Hnew.
    { apply IH; [left; discriminate |]. intros b w [= <- <-]. lia. }
    simpl. destruct best as [[b bv]|]; [| simpl List.length;
      destruct Hnew as [j [w [E Hj]]]; exists j, w; split; [exact E | lia]].
    destruct (bv <? v).
    + destruct Hnew as [j [w [E Hj]]]. exists j, w. split; [exact E | lia].
    + destruct (IH (Some (b, bv)) (S i)) as [j [w [E Hj]]].
      * left. discriminate.
      * intros b' v' [= <- <-]. specialize (Hbest b bv eq_refl). lia.
      * exists j, w. split; [exact E | lia].
  - simpl. destruct (IH best (S i)) as [j [w [E Hj]]].
    + destruct Hsome as [Hne | [v [Hv | Hv]]];
        [now left | discriminate | right; now exists v].
    + intros b v Hb. specialize (Hbest b v Hb). lia.
    + exists j, w. split; [exact E | lia].
Qed.

(** [idxmax] finds a position of the column as soon as one cell is not
    missing. *)
Lemma idxmax_ok (col : list (option Z)) (v : Z) :
  In (Some v) col ->
  exists j, idxmax col = Ok j /\ (j < List.length col)%nat.
Proof.
  intros Hv. unfold idxmax.
  destruct (idxmax_from_some col None 0) as [j [w [E Hj]]].
  - right. now exists v.
  - discriminate.
  - rewrite E. exists j. split; [reflexivity | lia].
Qed.

Lemma loc_ok {R : Type} (l : list R) (i : nat) :
  (i < List.length l)%nat -> exists x, loc l i = Ok x.
Proof.
  intros Hi. unfold loc. destruct (nth_error l i) as [x|] eqn:E.
  - now exists x.
  - apply nth_error_None in E. lia.
Qed.

Lemma day_name_in_weekday_names (ts : Z) : In (day_name ts) weekday_names.
Proof.
  unfold day_name. apply nth_In. unfold dayofweek. simpl List.length.
  pose proof (Z.mod_pos_bound (date ts + 3) 7 ltac:(lia)). lia.
Qed.

(** In a non-empty window the two [idxmax] lookups of the temporal Key
    Insights succeed. *)
Lemma daily_peak_ok (filtered : list Row) :
  filtered <> [] ->
  exists i peak_day,
    idxmax (map snd (daily_summary filtered)) = Ok i
    /\ loc (daily_summary filtered) i = Ok peak_day.
Proof.
  intros Hne. destruct filtered as [|r0 rows]; [congruence |].
  set (filtered := r0 :: rows).
  set (day := day_name (order_purchase_timestamp r0)).
  assert (transactions_on day filtered <> 0) as Hcount.
  { unfold transactions_on.
    destruct (filter _ filtered) as [|x l] eqn:Ef; [| simpl List.length; lia].
    rewrite filter_nil_iff in Ef. specialize (Ef r0 (or_introl eq_refl)).
    unfold by_day_name, has_key in Ef. fold day in Ef.
    rewrite key_eqb_refl in Ef. discriminate. }
  assert (In (Some (transactions_on day filtered))
             (map snd (daily_summary filtered))) as Hin.
  { rewrite daily_summary_counts, map_map. simpl snd.
    apply in_map_iff. exists day. split; [| apply day_name_in_weekday_names].
    destruct (Z.eqb_spec (transactions_on day filtered) 0); congruence. }
  destruct (idxmax_ok _ _ Hin) as [i [Ei Hi]].
  rewrite length_map in Hi.
  destruct (loc_ok (daily_summary filtered) i Hi) as [x Ex].
  now exists i, x.
Qed.

Lemma hourly_peak_ok (filtered : list Row) :
  filtered <> [] ->
  exists j peak_hour,
    idxmax (map (fun h => Some (snd h)) (hourly_summary filtered)) = Ok j
    /\ loc (hourly_summary filtered) j = Ok peak_hour.
Proof.
  intros Hne. destruct filtered as [|r0 rows]; [congruence |].
  set (filtered := r0 :: rows).
  assert (In (hour (order_purchase_timestamp r0)) (group_keys by_hour filtered))
    as Hk by (apply in_group_keys; exists r0; split; [now left | reflexivity]).
  unfold hourly_summary, size_by, groupby. rewrite !map_map. simpl.
  destruct (group_keys by_hour filtered) as [|k keys] eqn:Ek; [destruct Hk |].
  destruct (idxmax_ok
              (map (fun x => Some (Z.of_nat (List.length
                      (filter (fun r => has_key x (by_hour r)) filtered))))
                   (k :: keys))
              (Z.of_nat (List.length
                 (filter (fun r => has_key k (by_hour r)) filtered))))
    as [j [Ej Hj]]; [now left |].
  rewrite length_map in Hj.
  destruct (loc_ok
              (map (fun x => (x, Z.of_nat (List.length
                      (filter (fun r => has_key x (by_hour r)) filtered))))
                   (k :: keys)) j) as [x Ex]; [now rewrite length_map |].
  now exists j, x.
Qed.

Lemma day_type_total_absent (label : string) (filtered : list Row) :
  (forall r, In r filtered -> day_type r <> label) ->
  day_type_total label (day_type_summary filtered)
  = Raise (IndexError "index 0 is out of bounds for axis 0 with size 0").
Proof.
  intros Hall. unfold day_type_total.
  replace (filter (fun g => String.eqb (fst g) label) (day_type_summary filtered))
    with (@nil (string * Z)); [reflexivity |].
  symmetry. apply filter_nil_iff. intros g Hg.
  apply String.eqb_neq. intros E.
  assert (In (fst g) (group_keys (fun r => Some (day_type r)) filtered)) as Hk.
  { unfold day_type_summary in Hg. rewrite size_by_keyed in Hg.
    apply in_map_iff in Hg. destruct Hg as [k [<- Hk]]. exact Hk. }
  apply in_group_keys in Hk. destruct Hk as [r [Hr [= Hd]]].
  apply (Hall r Hr). congruence.
Qed.

Lemma day_type_total_present (label : string) (filtered : list Row) :
  (exists r, In r filtered /\ day_type r = label) ->
  exists n, day_type_total label (day_type_summary filtered) = Ok n.
Proof.
  intros [r [Hr Hd]]. unfold day_type_total.
  destruct (filter _ (day_type_summary filtered)) as [|g gs] eqn:Ef.
  - exfalso. rewrite filter_nil_iff in Ef.
    assert (In label (group_keys (fun r => Some (day_type r)) filtered)) as Hk
      by (apply in_group_keys; exists r; split; [assumption | congruence]).
    unfold day_type_summary in Ef. rewrite size_by_keyed in Ef.
    specialize (Ef (label, Z.of_nat (List.length
                      (filter (fun r' => has_key label (Some (day_type r')))
                              filtered)))).
    simpl in Ef. rewrite String.eqb_refl in Ef.
    assert (true = false) by (apply Ef; apply in_map_iff; now exists label).
    discriminate.
  - simpl. now exists (snd g).
Qed.

(** The weekend-versus-weekday comparison needs both kinds of day: in a
    non-empty window that has only weekdays, or only weekend days, the
    temporal Key Insights end with an IndexError. *)
Lemma tab2_key_insights_one_day_type (filtered : list Row) (label : string) :
  filtered <> [] ->
  label = "Weekday" \/ label = "Weekend" ->
  (forall r, In r filtered -> day_type r = label) ->
  tab2_key_insights filtered
  = Raise (IndexError "index 0 is out of bounds for axis 0 with size 0").
Proof.
  intros Hne Hlabel Hall. unfold tab2_key_insights.
  destruct (daily_peak_ok filtered Hne) as [i [pd [Ei Epd]]].
  destruct (hourly_peak_ok filtered Hne) as [j [ph [Ej Eph]]].
  rewrite Ei. simpl bind. rewrite Epd. simpl bind.
  rewrite Ej. simpl bind. rewrite Eph. simpl bind.
  destruct Hlabel as [-> | ->].
  - rewrite (day_type_total_absent "Weekend"); [reflexivity |].
    intros r Hr. rewrite (Hall r Hr). discriminate.
  - destruct (day_type_total_present "Weekend" filtered) as [n En].
    { destruct filtered as [|r0 rows]; [congruence |].
      exists r0. split; [now left | apply Hall; now left]. }
    rewrite En. simpl bind.
    rewrite (day_type_total_absent "Weekday"); [reflexivity |].
    intros r Hr. rewrite (Hall r Hr). discriminate.
Qed.

(** C10: a window of two customers whose transactions fall on a Monday and
    a Tuesday, and one whose transactions fall on a Saturday and a Sunday.
    In both the segmentation tab completes; the temporal Key Insights then
    fail with an IndexError on the first element of an empty array of
    totals (the weekend totals in the first window, the weekday totals in
    the second), and so does the run. *)
Theorem one_day_type_window_raises :
  let out_of_bounds :=
    IndexError "index 0 is out of bounds for axis 0 with size 0" in
  (exists (d : Dataset) (start_date end_date : Z),
     let filtered := filtered_orders (orders_full d) start_date end_date in
     min_date_allowed <= start_date <= end_date
     /\ end_date <= max_date_allowed
     /\ filtered <> []
     /\ Forall (fun r => day_type r = "Weekday") filtered
     /\ (exists t1, tab1 d filtered = Ok t1)
     /\ day_type_total "Weekend" (day_type_summary filtered)
        = Raise out_of_bounds
     /\ tab2_key_insights filtered = Raise out_of_bounds
     /\ app d start_date end_date = Raise out_of_bounds)
  /\ (exists (d : Dataset) (start_date end_date : Z),
        let filtered := filtered_orders (orders_full d) start_date end_date in
        min_date_allowed <= start_date <= end_date
        /\ end_date <= max_date_allowed
        /\ filtered <> []
        /\ Forall (fun r => day_type r = "Weekend") filtered
        /\ (exists t1, tab1 d filtered = Ok t1)
        /\ (exists n,
              day_type_total "Weekend" (day_type_summary filtered) = Ok n)
        /\ day_type_total "Weekday" (day_type_summary filtered)
           = Raise out_of_bounds
        /\ tab2_key_insights filtered = Raise out_of_bounds
        /\ app d start_date end_date = Raise out_of_bounds).
Proof.
  cbv zeta. split.
  - exists weekday_shop, jan_1_2017, jan_31_2017.
    split; [vm_compute; split; discriminate |].
    split; [vm_compute; discriminate |].
    split; [vm_compute; discriminate |].
    assert (Forall (fun r => day_type r = "Weekday")
              (filtered_orders (orders_full weekday_shop) jan_1_2017 jan_31_2017))
      as Hall by (apply Forall_string_eqb; vm_compute; reflexivity).
    split; [exact Hall |].
    split; [eexists; vm_compute; reflexivity |].
    split; [reflexivity |].
    split; [| reflexivity].
    apply (tab2_key_insights_one_day_type _ "Weekday").
    + vm_compute. discriminate.
    + now left.
    + apply Forall_forall. exact Hall.
  - exists weekend_shop, jan_1_2017, jan_31_2017.
    split; [vm_compute; split; discriminate |].
    split; [vm_compute; discriminate |].
    split; [vm_compute; discriminate |].
    assert (Forall (fun r => day_type r = "Weekend")
              (filtered_orders (orders_full weekend_shop) jan_1_2017 jan_31_2017))
      as Hall by (apply Forall_string_eqb; vm_compute; reflexivity).
    split; [exact Hall |].
    split; [eexists; vm_compute; reflexivity |].
    split; [eexists; vm_compute; reflexivity |].
    split; [reflexivity |].
    split; [| reflexivity].
    apply (tab2_key_insights_one_day_type _ "Weekend").
    + vm_compute. discriminate.
    + now right.
    + apply Forall_forall. exact Hall.
Qed.

(** * Further properties of the script *)

Lemma sumZ_cons (x : Z) (l : list Z) : sumZ (x :: l) = x + sumZ l.
Proof. reflexivity. Qed.

(** ** The left joins *)

Section MergeFacts.
Context {K : Type} `{GroupKey K} {L R : Type}.
Variables (lkey : L -> option K) (rkey : R -> K).

Lemma has_key_true (k : K) (o : option K) :
  has_key k o = true <-> o = Some k.
Proof.
  destruct o as [k'|]; simpl; [| split; discriminate].
  rewrite key_eqb_eq. split; congruence.
Qed.

Lemma has_key_false (k : K) (o : option K) :
  has_key k o = false <-> o <> Some k.
Proof.
  rewrite <- has_key_true. destruct (has_key k o); split; congruence.
Qed.

(** Membership in a left join: the left row is a row of the left frame;
    the right part is a right row of the same key, or nothing when no right
    row has the key. *)
Lemma in_merge_left (left : list L) (right : list R) (l : L) (o : option R) :
  In (l, o) (merge_left lkey rkey left right)
  <-> In l left
      /\ match o with
         | Some r => In r right /\ lkey l = Some (rkey r)
         | None => forall r, In r right -> lkey l <> Some (rkey r)
         end.
Proof.
  unfold merge_left. rewrite in_flat_map.
  assert (forall l',
            In (l, o)
               match filter (fun r => has_key (rkey r) (lkey l')) right with
               | [] => [(l', None)]
               | r :: ms => map (fun r' => (l', Some r')) (r :: ms)
               end
            <-> l' = l
                /\ match o with
                   | Some r => In r right /\ lkey l = Some (rkey r)
                   | None => forall r, In r right -> lkey l <> Some (rkey r)
                   end) as Hblock.
  { intros l'.
    destruct (filter (fun r => has_key (rkey r) (lkey l')) right)
      as [|r0 ms] eqn:Ef.
    - rewrite filter_nil_iff in Ef. simpl. split.
      + intros [[= -> <-] | []]. split; [reflexivity |].
        intros r Hr. apply has_key_false. now apply Ef.
      + intros [-> Ho]. destruct o as [r|]; [| now left].
        destruct Ho as [Hr Hk]. apply has_key_true in Hk.
        rewrite (Ef r Hr) in Hk. discriminate.
    - rewrite <- Ef, in_map_iff. split.
      + intros [r [[= -> <-] Hr]]. apply filter_In in Hr.
        destruct Hr as [Hr Hk]. apply has_key_true in Hk. auto.
      + intros [-> Ho]. destruct o as [r|].
        * destruct Ho as [Hr Hk]. exists r. split; [reflexivity |].
          apply filter_In. split; [assumption | now apply has_key_true].
        * exfalso.
          assert (In r0 (filter (fun r => has_key (rkey r) (lkey l)) right))
            as Hr0 by (rewrite Ef; now left).
          apply filter_In in Hr0. destruct Hr0 as [Hr0 Hk].
          apply has_key_true in Hk. exact (Ho r0 Hr0 Hk). }
  split.
  - intros [l' [Hl' Hin]]. apply Hblock in Hin. destruct Hin as [-> Ho]. auto.
  - intros [Hl Ho]. exists l. split; [assumption |]. apply Hblock. auto.
Qed.

Lemma length_merge_left (left : list L) (right : list R) :
  Z.of_nat (List.length (merge_left lkey rkey left right))
  = sumZ (map (fun l =>
                 Z.max 1 (Z.of_nat (List.length
                            (filter (fun r => has_key (rkey r) (lkey l)) right))))
              left).
Proof.
  unfold merge_left.
  set (block := fun l =>
         match filter (fun r => has_key (rkey r) (lkey l)) right with
         | [] => [(l, @None R)]
         | r :: ms => map (fun r' => (l, Some r')) (r :: ms)
         end).
  set (copies := fun l =>
         Z.max 1 (Z.of_nat (List.length
                    (filter (fun r => has_key (rkey r) (lkey l)) right)))).
  assert (forall l, Z.of_nat (List.length (block l)) = copies l) as Hblock.
  { intros l. unfold block, copies.
    destruct (filter _ right) as [|r ms]; [reflexivity |].
    rewrite length_map. cbn [List.length]. lia. }
  induction left as [|l left IH]; [reflexivity |].
  change (flat_map block (l :: left)) with (block l ++ flat_map block left).
  change (map copies (l :: left)) with (copies l :: map copies left).
  change (sumZ (copies l :: map copies left))
    with (copies l + sumZ (map copies left)).
  rewrite length_app, Nat2Z.inj_add, IH, Hblock. reflexivity.
Qed.

(** With distinct keys on the right, at most one right row matches. *)
Lemma matches_unique_key (right : list R) (o : option K) :
  NoDup (map rkey right) ->
  (List.length (filter (fun r => has_key (rkey r) o) right) <= 1)%nat.
Proof.
  induction right as [|r right IH]; intros Hnd; simpl; [lia |].
  inversion Hnd as [|? ? Hr Hnd']; subst.
  destruct (has_key (rkey r) o) eqn:Ek; [| now apply IH].
  apply has_key_true in Ek. subst o. simpl.
  match goal with
  | |- context [filter ?p right] => replace (filter p right) with (@nil R)
  end; [simpl; lia |].
  symmetry. apply filter_nil_iff. intros r' Hr'. cbn [has_key].
  destruct (key_eqb_spec (rkey r) (rkey r')) as [E | _]; [| reflexivity].
  exfalso. apply Hr. rewrite E. now apply in_map.
Qed.

Lemma length_merge_left_unique (left : list L) (right : list R) :
  NoDup (map rkey right) ->
  List.length (merge_left lkey rkey left right) = List.length left.
Proof.
  intros Hnd. apply Nat2Z.inj. rewrite length_merge_left.
  induction left as [|l left IH]; [reflexivity |].
  cbn [map List.length]. rewrite sumZ_cons, IH.
  pose proof (matches_unique_key right (lkey l) Hnd). lia.
Qed.
End MergeFacts.

Lemma map_fst_merge_left_unique {K : Type} `{GroupKey K} {L R : Type}
    (lkey : L -> option K) (rkey : R -> K) (left : list L) (right : list R) :
  NoDup (map rkey right) ->
  map fst (merge_left lkey rkey left right) = left.
Proof.
  intros Hnd. unfold merge_left.
  induction left as [|l left IH]; [reflexivity |].
  cbn [flat_map]. rewrite map_app, IH.
  pose proof (matches_unique_key rkey right (lkey l) Hnd) as Hone.
  destruct (filter _ right) as [|r [|r' ms]]; [reflexivity | reflexivity |].
  simpl in Hone. lia.
Qed.

Lemma NoDup_by_unique {K : Type} `{GroupKey K} (l : list K) :
  unique l = l -> NoDup l.
Proof. intros <-. apply NoDup_unique. Qed.

(** ** The master dataset *)

Lemma order_id_make_row
    (x : ((Orders.t * option Customers.t) * option OrderItems.t)
         * option Products.t) :
  order_id (make_row x) = Orders.order_id (fst (fst (fst x))).
Proof. destruct x as [[[o c] i] p]. reflexivity. Qed.

Lemma with_products_orders (d : Dataset) (o : Orders.t) :
  In o (orders d)
  <-> exists x, In x (with_products d) /\ fst (fst (fst x)) = o.
Proof.
  split.
  - intros Ho.
    apply (in_merge_left_fst (fun o => Some (Orders.customer_id o))
             Customers.customer_id _ (customers d)) in Ho.
    fold (orders_customers d) in Ho.
    apply in_map_iff in Ho. destruct Ho as [oc [Eoc Hoc]].
    apply (in_merge_left_fst (fun oc => Some (Orders.order_id (fst oc)))
             OrderItems.order_id _ (order_items d)) in Hoc.
    fold (with_items d) in Hoc.
    apply in_map_iff in Hoc. destruct Hoc as [oci [Eoci Hoci]].
    apply (in_merge_left_fst
             (fun oci => option_map OrderItems.product_id (snd oci))
             Products.product_id _ (products d)) in Hoci.
    fold (with_products d) in Hoci.
    apply in_map_iff in Hoci. destruct Hoci as [x [Ex Hx]].
    exists x. split; [exact Hx | now rewrite Ex, Eoci].
  - intros [x [Hx <-]].
    apply (in_map fst) in Hx. unfold with_products in Hx.
    apply in_merge_left_fst in Hx.
    apply (in_map fst) in Hx. unfold with_items in Hx.
    apply in_merge_left_fst in Hx.
    apply (in_map fst) in Hx. unfold orders_customers in Hx.
    now apply in_merge_left_fst in Hx.
Qed.

(** X1: the left joins lose no order and invent none: the order ids of
    [orders_full] are exactly the order ids of the order table. *)
Theorem orders_full_keeps_every_order (d : Dataset) (oid : string) :
  In oid (map order_id (orders_full d))
  <-> In oid (map Orders.order_id (orders d)).
Proof.
  unfold orders_full. rewrite map_map, !in_map_iff. split.
  - intros [x [E Hx]]. rewrite order_id_make_row in E.
    exists (fst (fst (fst x))). split; [exact E |].
    apply with_products_orders. now exists x.
  - intros [o [E Ho]]. apply with_products_orders in Ho.
    destruct Ho as [x [Hx Ex]]. exists x. split; [| exact Hx].
    now rewrite order_id_make_row, Ex.
Qed.

(** X2: every row of [orders_full] is either a line item of its order, from
    which it takes its price, product and revenue, or the single row of an
    order without line items, whose price, product, category and revenue are
    all null. *)
Theorem orders_full_rows_are_line_items (d : Dataset) :
  Forall
    (fun r =>
       match price r with
       | Some p =>
           exists i,
             In i (order_items d)
             /\ OrderItems.order_id i = order_id r
             /\ OrderItems.price i = p
             /\ product_id r = Some (OrderItems.product_id i)
             /\ revenue r = Some p
       | None =>
           items_of_order d (order_id r) = 0
           /\ product_id r = None
           /\ product_category_name r = None
           /\ revenue r = None
       end)
    (orders_full d).
Proof.
  apply Forall_forall. intros r Hr. unfold orders_full in Hr.
  apply in_map_iff in Hr. destruct Hr as [[[[o c] i] p] [<- Hx]].
  unfold with_products in Hx. apply in_merge_left in Hx.
  destruct Hx as [Hoci Hp]. unfold with_items in Hoci.
  apply in_merge_left in Hoci. destruct Hoci as [_ Hi].
  destruct i as [it|]; simpl.
  - destruct Hi as [Hit [= Hid]]. exists it. repeat split; auto.
  - assert (items_of_order d (Orders.order_id o) = 0) as Hzero.
    { unfold items_of_order.
      replace (filter (fun i => String.eqb (Orders.order_id o)
                                            (OrderItems.order_id i))
                      (order_items d))
        with (@nil OrderItems.t); [reflexivity |].
      symmetry. apply filter_nil_iff. intros it Hit.
      apply String.eqb_neq. intros E. apply (Hi it Hit). simpl. now rewrite E. }
    destruct p as [q|]; [| repeat split; assumption].
    destruct Hp as [_ Hk]. discriminate.
Qed.

(** X3: when customer ids and product ids are distinct in their tables,
    [orders_full] has one row per line item of every order and one row for
    every order without line items. *)
Theorem orders_full_row_count (d : Dataset) :
  NoDup (map Customers.customer_id (customers d)) ->
  NoDup (map Products.product_id (products d)) ->
  Z.of_nat (List.length (orders_full d))
  = sumZ (map (fun o => Z.max 1 (items_of_order d (Orders.order_id o)))
              (orders d)).
Proof.
  intros Hc Hp. unfold orders_full, with_products.
  rewrite length_map, (length_merge_left_unique _ _ _ _ Hp).
  unfold with_items. rewrite length_merge_left.
  rewrite <- (map_fst_merge_left_unique
                (fun o => Some (Orders.customer_id o)) Customers.customer_id
                (orders d) (customers d) Hc).
  fold (orders_customers d). rewrite map_map. reflexivity.
Qed.

Lemma orders_full_row_count_witness :
  NoDup (map Customers.customer_id (customers quarter_shop))
  /\ NoDup (map Products.product_id (products quarter_shop))
  /\ Z.of_nat (List.length (orders_full quarter_shop)) = 4.
Proof.
  assert (NoDup (map Customers.customer_id (customers quarter_shop))) as Hc
    by (apply NoDup_by_unique; reflexivity).
  assert (NoDup (map Products.product_id (products quarter_shop))) as Hp
    by (apply NoDup_by_unique; reflexivity).
  split; [exact Hc |]. split; [exact Hp |].
  rewrite (orders_full_row_count quarter_shop Hc Hp). reflexivity.
Defined.

(** ** The date filter, once more *)

Lemma filter_filter {A : Type} (p q : A -> bool) (l : list A) :
  filter p (filter q l) = filter (fun a => q a && p a) l.
Proof.
  induction l as [|a l IH]; [reflexivity |].
  simpl. destruct (q a); simpl; [destruct (p a) |]; now rewrite IH.
Qed.

(** X4: filtering a window that is already filtered selects the
    intersection of the two date ranges; in particular a narrower range
    never brings back a row. *)
Theorem filtered_orders_compose (full : list Row) (s e s' e' : Z) :
  filtered_orders (filtered_orders full s e) s' e'
  = filtered_orders full (Z.max s s') (Z.min e e').
Proof.
  unfold filtered_orders. rewrite filter_filter.
  apply filter_ext. intros r. unfold in_window.
  destruct (Z.leb_spec s (date (order_purchase_timestamp r))),
           (Z.leb_spec (date (order_purchase_timestamp r)) e),
           (Z.leb_spec s' (date (order_purchase_timestamp r))),
           (Z.leb_spec (date (order_purchase_timestamp r)) e'),
           (Z.leb_spec (Z.max s s') (date (order_purchase_timestamp r))),
           (Z.leb_spec (date (order_purchase_timestamp r)) (Z.min e e'));
    simpl; try reflexivity; lia.
Qed.

(** ** Sorting and extremal rows *)

Lemma insert_row_perm {R : Type} (before : R -> R -> bool) (x : R) (l : list R) :
  Permutation (insert_row before x l) (x :: l).
Proof.
  induction l as [|y l IH]; simpl; [reflexivity |].
  destruct (before y x); [| reflexivity].
  rewrite IH. apply perm_swap.
Qed.

Lemma sort_values_perm {R : Type} (before : R -> R -> bool) (l : list R) :
  Permutation (sort_values before l) l.
Proof.
  induction l as [|x l IH]; simpl; [reflexivity |].
  rewrite insert_row_perm. now constructor.
Qed.

Lemma iloc0_sort_values_ok {R : Type} (before : R -> R -> bool) (l : list R) :
  l <> [] -> exists x, iloc0 (sort_values before l) = Ok x /\ In x l.
Proof.
  intros Hne. destruct (sort_values before l) as [|x s] eqn:Es.
  - apply (f_equal (@List.length R)) in Es.
    rewrite (Permutation_length (sort_values_perm before l)) in Es.
    destruct l; [congruence | discriminate].
  - exists x. split; [reflexivity |].
    apply (Permutation_in _ (sort_values_perm before l)).
    rewrite Es. now left.
Qed.

Lemma insert_row_descending {R : Type} (m : R -> Z) (x : R) (l : list R) :
  StronglySorted (fun a b => m b <= m a) l ->
  StronglySorted (fun a b => m b <= m a)
                 (insert_row (fun y x' => m x' <? m y) x l).
Proof.
  induction 1 as [|y l Hs IH Hy]; simpl; [repeat constructor |].
  destruct (Z.ltb_spec (m x) (m y)) as [Hlt | Hge].
  - constructor; [exact IH |].
    eapply Permutation_Forall; [symmetry; apply insert_row_perm |].
    constructor; [lia | assumption].
  - constructor; [now constructor |].
    constructor; [assumption |].
    eapply Forall_impl; [| exact Hy]. intros z Hz. simpl in Hz. lia.
Qed.

(** The first row of a frame sorted by a descending measure has the
    largest measure of the frame. *)
Lemma iloc0_descending_max {R : Type} (m : R -> Z) (l : list R) (x : R) :
  iloc0 (sort_values (fun y x' => m x' <? m y) l) = Ok x ->
  In x l /\ forall y, In y l -> m y <= m x.
Proof.
  intros Hx.
  assert (StronglySorted (fun a b => m b <= m a)
            (sort_values (fun y x' => m x' <? m y) l)) as Hs.
  { clear Hx. induction l as [|a l IH]; simpl; [constructor |].
    now apply insert_row_descending. }
  pose proof (sort_values_perm (fun y x' => m x' <? m y) l) as Hp.
  destruct (sort_values _ l) as [|x0 s]; [discriminate |].
  injection Hx as ->.
  split; [apply (Permutation_in _ Hp); now left |].
  intros y Hy. apply (Permutation_in _ (Permutation_sym Hp)) in Hy.
  inversion Hs as [|? ? _ Hall]; subst.
  destruct Hy as [<- | Hy]; [lia |].
  rewrite Forall_forall in Hall. now apply Hall.
Qed.

(** ** Groups *)

Section GroupFacts.
Context {K : Type} `{GroupKey K} {R : Type}.
Variable key : R -> option K.

Lemma in_groupby (rows : list R) (k : K) (g : list R) :
  In (k, g) (groupby key rows)
  <-> In k (group_keys key rows)
      /\ g = filter (fun r => has_key k (key r)) rows.
Proof.
  unfold groupby. rewrite in_map_iff. split.
  - intros [k' [[= <- <-] Hk]]. auto.
  - intros [Hk ->]. now exists k.
Qed.

(** No group is empty. *)
Lemma group_not_empty (rows : list R) (k : K) :
  In k (group_keys key rows) ->
  exists r, In r (filter (fun r => has_key k (key r)) rows) /\ key r = Some k.
Proof.
  intros Hk. apply in_group_keys in Hk. destruct Hk as [r [Hr Ek]].
  exists r. split; [| assumption].
  apply filter_In. split; [assumption |]. now apply has_key_true.
Qed.

Lemma group_keys_nil_iff (rows : list R) :
  group_keys key rows = [] <-> forall r, In r rows -> key r = None.
Proof.
  split.
  - intros Hnil r Hr. destruct (key r) as [k|] eqn:Ek; [| reflexivity].
    assert (In k (group_keys key rows)) as Hk
      by (apply in_group_keys; now exists r).
    rewrite Hnil in Hk. destruct Hk.
  - intros Hall. destruct (group_keys key rows) as [|k ks] eqn:Ek;
      [reflexivity |].
    assert (In k (group_keys key rows)) as Hk by (rewrite Ek; now left).
    apply in_group_keys in Hk. destruct Hk as [r [Hr Er]].
    rewrite (Hall r Hr) in Er. discriminate.
Qed.

(** A measure summed over all groups is the measure summed over the rows
    that have a key. *)
Lemma groupby_total (f : R -> Z) (rows : list R) :
  sumZ (map (fun g => sumZ (map f (snd g))) (groupby key rows))
  = sumZ (map f (filter (fun r => match key r with
                                  | Some _ => true
                                  | None => false
                                  end) rows)).
Proof.
  unfold groupby. rewrite map_map. simpl.
  apply groupby_sum; [apply NoDup_group_keys |].
  intros r k Hr Hk. apply in_group_keys. now exists r.
Qed.
End GroupFacts.

Lemma nunique_pos {K : Type} `{GroupKey K} (col : list (option K)) (k : K) :
  In (Some k) col -> 1 <= nunique col.
Proof.
  intros Hk. unfold nunique.
  assert (In k (unique (dropna col))) as Hin
    by (apply in_unique, in_dropna; exact Hk).
  destruct (unique (dropna col)); [destruct Hin | simpl List.length; lia].
Qed.

Lemma sumZ_map_const_one {A : Type} (l : list A) :
  sumZ (map (fun _ => 1) l) = Z.of_nat (List.length l).
Proof.
  induction l as [|a l IH]; [reflexivity |].
  cbn [map List.length]. rewrite sumZ_cons, IH. lia.
Qed.

(** ** The RFM table *)

Lemma fold_left_max_spec (tl : list Z) (x : Z) :
  In (fold_left Z.max tl x) (x :: tl)
  /\ forall y, In y (x :: tl) -> y <= fold_left Z.max tl x.
Proof.
  revert x. induction tl as [|z tl IH]; intros x; simpl.
  - split; [now left | intros y [<- | []]; lia].
  - destruct (IH (Z.max x z)) as [Hin Hmax]. split.
    + destruct Hin as [E | Hin]; [| right; now right].
      rewrite <- E. destruct (Z.max_spec x z) as [[_ ->] | [_ ->]];
        [right; now left | now left].
    + intros y [E | [E | Hy]].
      * specialize (Hmax (Z.max x z) (or_introl eq_refl)). lia.
      * specialize (Hmax (Z.max x z) (or_introl eq_refl)). lia.
      * apply Hmax. now right.
Qed.

Lemma series_max_ge (col : list Z) (y : Z) : In y col -> y <= series_max col.
Proof.
  destruct col as [|x tl]; [intros [] |]. intros Hy.
  now apply (proj2 (fold_left_max_spec tl x)).
Qed.

Lemma series_max_in (col : list Z) : col <> [] -> In (series_max col) col.
Proof.
  destruct col as [|x tl]; [congruence |]. intros _.
  apply (proj1 (fold_left_max_spec tl x)).
Qed.

Lemma in_merged_order_items (filtered : list Row) (d : Dataset) (m : MergedRow) :
  In m (merged_order_items filtered d) ->
  In (base m) filtered /\ revenue_filled m = fillna 0 (price (base m)).
Proof.
  unfold merged_order_items. intros Hm. apply in_map_iff in Hm.
  destruct Hm as [x [<- Hx]]. split; [| reflexivity].
  simpl. apply (in_map fst) in Hx. now apply in_merge_left_fst in Hx.
Qed.

Lemma merged_covers_rows (filtered : list Row) (d : Dataset) (r : Row) :
  In r filtered -> exists m, In m (merged_order_items filtered d) /\ base m = r.
Proof.
  intros Hr.
  apply (in_merge_left_fst (fun r => Some (order_id r)) OrderItems.order_id
           _ (order_items d)) in Hr.
  apply in_map_iff in Hr. destruct Hr as [x [Ex Hx]].
  eexists. split; [unfold merged_order_items; apply in_map; exact Hx |].
  exact Ex.
Qed.

(** The rows of the RFM table, one per group key. *)
Lemma in_rfm_agg (snapshot : Z) (merged : list MergedRow) (x : Rfm) :
  In x (rfm_agg snapshot merged)
  <-> exists k,
        In k (group_keys (fun r => customer_unique_id (base r)) merged)
        /\ x = {| rfm_customer_unique_id := k;
                  recency :=
                    (snapshot
                     - series_max
                         (map (fun r => order_purchase_timestamp (base r))
                              (filter (fun r => has_key k (customer_unique_id (base r)))
                                      merged)))
                    / seconds_per_day;
                  frequency :=
                    nunique (map (fun r => Some (order_id (base r)))
                                 (filter (fun r => has_key k (customer_unique_id (base r)))
                                         merged));
                  monetary :=
                    sumZ (map revenue_filled
                              (filter (fun r => has_key k (customer_unique_id (base r)))
                                      merged)) |}.
Proof.
  unfold rfm_agg, groupby. rewrite map_map, in_map_iff. simpl.
  split; intros [k [E Hk]]; exists k; split; auto.
Qed.

Lemma rfm_agg_customers (snapshot : Z) (merged : list MergedRow) :
  map rfm_customer_unique_id (rfm_agg snapshot merged)
  = group_keys (fun r => customer_unique_id (base r)) merged.
Proof.
  unfold rfm_agg, groupby. rewrite !map_map. simpl. apply map_id.
Qed.

(** X5: the RFM table has exactly one row for every customer id that
    occurs in the window; rows without a customer id contribute none. *)
Theorem rfm_one_row_per_customer (filtered : list Row) (d : Dataset) :
  let rfm := rfm_agg (snapshot_date filtered) (merged_order_items filtered d) in
  NoDup (map rfm_customer_unique_id rfm)
  /\ forall c,
       In c (map rfm_customer_unique_id rfm)
       <-> In (Some c) (map customer_unique_id filtered).
Proof.
  cbv zeta. rewrite rfm_agg_customers. split; [apply NoDup_group_keys |].
  intros c. rewrite in_group_keys, in_map_iff. split.
  - intros [m [Hm Ec]]. apply in_merged_order_items in Hm.
    exists (base m). split; [exact Ec | apply Hm].
  - intros [r [Ec Hr]].
    destruct (merged_covers_rows filtered d r Hr) as [m [Hm Eb]].
    exists m. split; [exact Hm | now rewrite Eb].
Qed.

(** X6: every recency of the RFM table is at least one day, because the
    snapshot instant is one day after the latest purchase of the window. *)
Theorem rfm_recency_at_least_one (filtered : list Row) (d : Dataset) :
  Forall (fun x => 1 <= recency x)
         (rfm_agg (snapshot_date filtered) (merged_order_items filtered d)).
Proof.
  apply Forall_forall. intros x Hx. apply in_rfm_agg in Hx.
  destruct Hx as [k [Hk ->]]. simpl.
  destruct (group_not_empty _ _ _ Hk) as [m [Hm _]].
  set (group := filter _ (merged_order_items filtered d)) in *.
  set (stamps := map (fun r => order_purchase_timestamp (base r)) group).
  assert (stamps <> []) as Hne
    by (unfold stamps; destruct group; [destruct Hm | discriminate]).
  pose proof (series_max_in stamps Hne) as Hin.
  unfold stamps at 2 in Hin. apply in_map_iff in Hin.
  destruct Hin as [m' [E Hm']].
  unfold group in Hm'. apply filter_In in Hm'. destruct Hm' as [Hm' _].
  apply in_merged_order_items in Hm'. destruct Hm' as [Hbase _].
  assert (series_max stamps
          <= series_max (map order_purchase_timestamp filtered)) as Hle.
  { rewrite <- E. apply series_max_ge. now apply in_map. }
  unfold snapshot_date, seconds_per_day.
  apply Z.div_le_lower_bound; lia.
Qed.

(** X7: the frequency of a customer is the number of distinct orders of the
    customer's rows in the window, and it is at least 1: the rows that the
    second merge repeats do not change it. *)
Theorem rfm_frequency_counts_orders (filtered : list Row) (d : Dataset) :
  Forall
    (fun x =>
       1 <= frequency x
       /\ frequency x
          = nunique (map (fun r => Some (order_id r))
                         (filter (of_customer (rfm_customer_unique_id x))
                                 filtered)))
    (rfm_agg (snapshot_date filtered) (merged_order_items filtered d)).
Proof.
  apply Forall_forall. intros x Hx. apply in_rfm_agg in Hx.
  destruct Hx as [k [Hk ->]]. simpl.
  destruct (group_not_empty _ _ _ Hk) as [m [Hm _]].
  split.
  - apply (nunique_pos _ (order_id (base m))).
    apply in_map_iff. now exists m.
  - unfold nunique. f_equal. apply length_unique_same_members. intros oid.
    rewrite !in_dropna, !in_map_iff. unfold of_customer. split.
    + intros [m' [E Hm']]. apply filter_In in Hm'. destruct Hm' as [Hm' Hc].
      apply in_merged_order_items in Hm'.
      exists (base m'). split; [exact E |].
      apply filter_In. split; [apply Hm' | exact Hc].
    + intros [r [E Hr]]. apply filter_In in Hr. destruct Hr as [Hr Hc].
      destruct (merged_covers_rows filtered d r Hr) as [m' [Hm' Eb]].
      exists m'. split; [now rewrite Eb |].
      apply filter_In. split; [exact Hm' | now rewrite Eb].
Qed.

(** X8: the monetary column of the RFM table adds up to the revenue of the
    rows of the window that have a customer id, each counted once per line
    item of its order; this is the total revenue of the segmentation Key
    Insights. *)
Theorem rfm_monetary_total (filtered : list Row) (d : Dataset) :
  sumZ (map monetary
            (rfm_agg (snapshot_date filtered) (merged_order_items filtered d)))
  = sumZ (map (fun r => merge_copies d r * fillna 0 (price r))
              (filter has_customer filtered)).
Proof.
  unfold rfm_agg. rewrite map_map. simpl.
  rewrite (groupby_total (fun r => customer_unique_id (base r)) revenue_filled).
  apply (merged_revenue has_customer).
Qed.

Lemma dropna_map_some {A B : Type} (f : A -> B) (l : list A) :
  dropna (map (fun a => Some (f a)) l) = map f l.
Proof.
  induction l as [|a l IH]; [reflexivity | simpl; now rewrite IH].
Qed.

(** X9: the Total Revenue KPI adds every revenue of the window once per
    line item of its order; the Total Orders and Total Customers KPIs count
    distinct ids of the window, and no KPI is shown for an empty window. *)
Theorem kpi_summary_values (filtered : list Row) (d : Dataset) :
  kpi_summary filtered d
  = match filtered with
    | [] => None
    | _ :: _ =>
        Some {| kpi_total_revenue :=
                  sumZ (map (fun r => merge_copies d r * fillna 0 (price r))
                            filtered);
                kpi_total_orders :=
                  Z.of_nat (List.length (unique (map order_id filtered)));
                kpi_total_customers := total_customers filtered |}
    end.
Proof.
  destruct filtered as [|r rows]; [reflexivity |].
  unfold kpi_summary. f_equal. f_equal.
  - pose proof (merged_revenue (fun _ => true) (r :: rows) d) as Hm.
    cbv beta in Hm. rewrite !filter_all in Hm by reflexivity. exact Hm.
  - unfold nunique. now rewrite dropna_map_some.
Qed.

Lemma rfm_monetary_single_items_witness :
  let filtered :=
    filtered_orders (orders_full six_customer_shop) jan_1_2017 jan_31_2017 in
  let x := {| rfm_customer_unique_id := "u1"; recency := 6; frequency := 1;
              monetary := 100 |} in
  (forall r, In r filtered -> merge_copies six_customer_shop r = 1)
  /\ In x (rfm_agg (snapshot_date filtered)
                   (merged_order_items filtered six_customer_shop))
  /\ monetary x = total_revenue (filter (of_customer "u1") filtered).
Proof.
  cbv zeta.
  assert (forall r,
            In r (filtered_orders (orders_full six_customer_shop)
                                  jan_1_2017 jan_31_2017) ->
            merge_copies six_customer_shop r = 1) as Hone.
  { intros r Hr. vm_compute in Hr.
    repeat (destruct Hr as [<- | Hr]; [reflexivity |]). destruct Hr. }
  assert (In {| rfm_customer_unique_id := "u1"; recency := 6; frequency := 1;
                monetary := 100 |}
             (rfm_agg (snapshot_date
                         (filtered_orders (orders_full six_customer_shop)
                                          jan_1_2017 jan_31_2017))
                      (merged_order_items
                         (filtered_orders (orders_full six_customer_shop)
                                          jan_1_2017 jan_31_2017)
                         six_customer_shop))) as Hin
    by (vm_compute; left; reflexivity).
  split; [exact Hone |]. split; [exact Hin |].
  exact (rfm_monetary_single_items six_customer_shop jan_1_2017 jan_31_2017
           _ Hone Hin).
Defined.

(** ** Scores and segments *)

Lemma score_column_ok_length (col scores : list Z) :
  score_column col = Ok scores -> (2 <= List.length col)%nat.
Proof.
  intros Hok. destruct col as [|v [|w col]]; [| | simpl; lia].
  - rewrite score_column_nil in Hok. discriminate.
  - rewrite score_column_singleton in Hok. discriminate.
Qed.

Lemma bin_count_pos_in (k : Z) (scores : list Z) :
  1 <= bin_count k scores -> In k scores.
Proof.
  unfold bin_count. induction scores as [|s scores IH]; intros Hc.
  - rewrite count_if_nil in Hc. lia.
  - rewrite count_if_cons in Hc.
    destruct (Z.eqb_spec s k) as [-> | _]; [now left | right; apply IH; lia].
Qed.

(** X10: the quartile scores run with the values, so on the recency column
    they run against recentness.  In a column that can be scored, a cell
    whose value is strictly below every other one gets score 1 and a cell
    whose value is strictly above every other one gets score 4: the customer
    who bought most recently has the lowest R score, the customer who bought
    longest ago the highest. *)
Theorem score_column_extremes (col scores : list Z) (i : nat) :
  score_column col = Ok scores ->
  (i < List.length col)%nat ->
  ((forall j, (j < List.length col)%nat -> j <> i -> nth i col 0 < nth j col 0) ->
   nth i scores 0 = 1)
  /\ ((forall j, (j < List.length col)%nat -> j <> i -> nth j col 0 < nth i col 0) ->
      nth i scores 0 = 4).
Proof.
  intros Hok Hi.
  pose proof (score_column_ok_length _ _ Hok) as Hn.
  destruct (score_column_quartile_scored col Hn) as [s [Es [_ Q]]].
  rewrite Es in Hok. injection Hok as <-.
  destruct Q as [Hlen [Hrange [Hbins Hord]]]. cbv zeta in Hbins.
  assert (1 <= nth i s 0 <= 4) as Hsi.
  { rewrite Forall_forall in Hrange. apply Hrange, nth_In. lia. }
  assert (forall k, 1 <= k <= 4 -> k = 1 \/ k = 4 ->
            exists j, (j < List.length col)%nat /\ nth j s 0 = k) as Hex.
  { intros k Hk Hk14.
    destruct (Hbins k Hk) as [Hsize _].
    assert (1 <= bin_count k s) as Hpos.
    { rewrite Hsize. unfold quartile_bin_size, leftover_goes_to.
      assert (2 <= Z.of_nat (List.length col)) as Hn' by lia.
      destruct Hk14 as [-> | ->];
        repeat match goal with
               | |- context [?a <=? ?b] => destruct (Z.leb_spec a b)
               end; cbn [andb orb Z.eqb Pos.eqb];
        Z.div_mod_to_equations; lia. }
    apply bin_count_pos_in, (In_nth _ _ 0) in Hpos.
    destruct Hpos as [j [Hj Ej]]. exists j. split; [lia | exact Ej]. }
  split; intros Hext.
  - destruct (Hex 1 ltac:(lia) (or_introl eq_refl)) as [j [Hj Ej]].
    destruct (Nat.eq_dec j i) as [-> | Hne]; [exact Ej |].
    pose proof (Hord i j Hi Hj (or_introl (Hext j Hj Hne))). lia.
  - destruct (Hex 4 ltac:(lia) (or_intror eq_refl)) as [j [Hj Ej]].
    destruct (Nat.eq_dec j i) as [-> | Hne]; [exact Ej |].
    pose proof (Hord j i Hj Hi (or_introl (Hext j Hj Hne))). lia.
Qed.

Lemma score_column_extremes_witness :
  score_column [6; 5; 4; 3; 2; 1] = Ok [4; 4; 3; 2; 1; 1]
  /\ (5 < List.length [6; 5; 4; 3; 2; 1])%nat
  /\ nth 5 [4; 4; 3; 2; 1; 1] 0 = 1.
Proof.
  assert (score_column [6; 5; 4; 3; 2; 1] = Ok [4; 4; 3; 2; 1; 1]) as Hok
    by reflexivity.
  assert (5 < List.length [6; 5; 4; 3; 2; 1])%nat as Hi by (simpl; lia).
  split; [exact Hok |]. split; [exact Hi |].
  apply (proj1 (score_column_extremes _ _ 5%nat Hok Hi)).
  intros j Hj Hne. simpl in Hj.
  destruct j as [|[|[|[|[|[|j]]]]]]; simpl; try lia.
Defined.

(** X11: the condition of each segment, read off the decision list: the
    segment is one of the five names; it is Lost Customers exactly when the
    R score is not 2 and below 3, and Need Attention exactly when the R score
    is 2, whatever the F and M scores; the three other segments split the
    customers with an R score of 3 or more. *)
Theorem rfm_segment_conditions (row : Scored) :
  In (rfm_segment row)
     ["Champions"; "Loyal Customers"; "Potential Loyalists"; "Need Attention";
      "Lost Customers"]
  /\ (rfm_segment row = "Champions"
      <-> 3 <= R_score row /\ 3 <= F_score row /\ 3 <= M_score row)
  /\ (rfm_segment row = "Loyal Customers"
      <-> 3 <= R_score row /\ 2 <= F_score row
          /\ ~ (3 <= F_score row /\ 3 <= M_score row))
  /\ (rfm_segment row = "Potential Loyalists"
      <-> 3 <= R_score row /\ F_score row < 2)
  /\ (rfm_segment row = "Need Attention" <-> R_score row = 2)
  /\ (rfm_segment row = "Lost Customers" <-> R_score row < 2).
Proof.
  unfold rfm_segment.
  destruct (Z.leb_spec 3 (R_score row)), (Z.leb_spec 3 (F_score row)),
           (Z.leb_spec 3 (M_score row)), (Z.leb_spec 2 (F_score row)),
           (Z.eqb_spec (R_score row) 2); cbn [andb];
    (split; [cbn [In]; tauto |]);
    repeat split; intros; try discriminate; try lia; try reflexivity;
    try tauto.
Qed.

(** ** The segmentation Key Insights *)

Lemma filter_true {A : Type} (l : list A) : filter (fun _ => true) l = l.
Proof. now apply filter_all. Qed.

Lemma segment_summary_rows (rfm : list Segmented) :
  segment_summary rfm
  = map (fun k =>
           let group := filter (fun r => has_key k (Some (Segment r))) rfm in
           {| SegmentSummary.Segment := k;
              SegmentSummary.customers := Z.of_nat (List.length group);
              SegmentSummary.revenue :=
                sumZ (map (fun r => monetary (metrics (scored r))) group);
              SegmentSummary.customer_pct :=
                {| num := Z.of_nat (List.length group);
                   den := Z.of_nat (List.length rfm) |};
              SegmentSummary.revenue_pct :=
                {| num := sumZ (map (fun r => monetary (metrics (scored r))) group);
                   den := sumZ (map (fun r => monetary (metrics (scored r))) rfm) |} |})
        (group_keys (fun r => Some (Segment r)) rfm).
Proof.
  unfold segment_summary, groupby. rewrite map_map. reflexivity.
Qed.

(** X12: the segment summary splits the RFM table: its segments are
    distinct and none is empty, its customer counts add up to the number of
    customers and its revenues to the total monetary value, so the customer
    and revenue percentages each add up to 100. *)
Theorem segment_summary_partition (rfm : list Segmented) :
  let summary := segment_summary rfm in
  NoDup (map SegmentSummary.Segment summary)
  /\ Forall (fun s => 1 <= SegmentSummary.customers s) summary
  /\ sumZ (map SegmentSummary.customers summary) = Z.of_nat (List.length rfm)
  /\ sumZ (map SegmentSummary.revenue summary)
     = sumZ (map (fun r => monetary (metrics (scored r))) rfm).
Proof.
  cbv zeta. rewrite segment_summary_rows. rewrite !map_map. cbv zeta. simpl.
  split; [rewrite map_id; apply NoDup_group_keys |].
  split.
  - apply Forall_forall. intros s Hs. apply in_map_iff in Hs.
    destruct Hs as [k [<- Hk]]. simpl.
    destruct (group_not_empty _ _ _ Hk) as [r [Hr _]].
    destruct (filter _ rfm); [destruct Hr | simpl List.length; lia].
  - split.
    + rewrite <- (sumZ_map_const_one rfm).
      rewrite <- (filter_true rfm) at 2.
      rewrite <- (groupby_sum (fun r => Some (Segment r)) (fun _ => 1)
                    (group_keys (fun r => Some (Segment r)) rfm) rfm).
      * f_equal. apply map_ext. intros k. now rewrite sumZ_map_const_one.
      * apply NoDup_group_keys.
      * intros r k Hr Hk. apply in_group_keys. now exists r.
    + rewrite <- (filter_true rfm) at 2.
      refine (groupby_sum (fun r => Some (Segment r))
                (fun r => monetary (metrics (scored r)))
                (group_keys (fun r => Some (Segment r)) rfm) rfm
                (NoDup_group_keys _ _) _).
      intros r k Hr Hk. apply in_group_keys. now exists r.
Qed.

Lemma segment_summary_not_empty (rfm : list Segmented) :
  rfm <> [] -> segment_summary rfm <> [].
Proof.
  intros Hne Hnil. rewrite segment_summary_rows in Hnil.
  apply map_eq_nil in Hnil.
  rewrite (group_keys_nil_iff (fun r => Some (Segment r))) in Hnil.
  destruct rfm as [|r rfm]; [congruence |].
  specialize (Hnil r (or_introl eq_refl)). discriminate.
Qed.

Lemma tab1_key_insights_ok (rfm : list Segmented) :
  rfm <> [] -> exists si, tab1_key_insights rfm = Ok si.
Proof.
  intros Hne. unfold tab1_key_insights.
  destruct (iloc0_sort_values_ok
              (fun y x => SegmentSummary.revenue x <? SegmentSummary.revenue y)
              (segment_summary rfm) (segment_summary_not_empty rfm Hne))
    as [top [Etop _]].
  rewrite Etop. simpl bind. eexists. reflexivity.
Qed.

(** The three outcomes of the segmentation tab. *)
Lemma tab1_cases (d : Dataset) (filtered : list Row) :
  (filtered = [] /\ tab1 d filtered = Raise (NameError "rfm"))
  \/ (filtered <> [] /\ total_customers filtered < 2
      /\ tab1 d filtered = Raise (ValueError "Bin edges must be unique"))
  \/ (filtered <> [] /\ 2 <= total_customers filtered
      /\ exists t, tab1 d filtered = Ok t).
Proof.
  destruct filtered as [|r rows]; [left; split; reflexivity | right].
  set (filtered := r :: rows).
  assert (filtered <> []) as Hne by discriminate.
  destruct (Z.lt_ge_cases (total_customers filtered) 2) as [Hlt | Hge].
  - left. split; [exact Hne |]. split; [exact Hlt |].
    unfold tab1, filtered. fold filtered.
    now rewrite (build_rfm_small filtered d Hlt).
  - right. split; [exact Hne |]. split; [exact Hge |].
    destruct (build_rfm_quartiles filtered d Hge) as [t [Et [Hlen _]]].
    unfold tab1, filtered. fold filtered. rewrite Et. simpl bind.
    destruct (tab1_key_insights_ok t) as [si Esi].
    { intros ->. simpl in Hlen. lia. }
    rewrite Esi. simpl bind. eexists. reflexivity.
Qed.

Lemma total_customers_nil : total_customers [] = 0.
Proof. reflexivity. Qed.

(** X13: the segmentation tab completes exactly when the window has at
    least two distinct customers.  On an empty window it ends with a
    NameError on [rfm]; on a non-empty window with fewer than two customers
    it ends with the ValueError of the quartile binning. *)
Theorem tab1_outcome (d : Dataset) (filtered : list Row) :
  ((exists t, tab1 d filtered = Ok t) <-> 2 <= total_customers filtered)
  /\ (tab1 d filtered = Raise (NameError "rfm") <-> filtered = [])
  /\ (tab1 d filtered = Raise (ValueError "Bin edges must be unique")
      <-> filtered <> [] /\ total_customers filtered < 2).
Proof.
  pose proof total_customers_nil as Hnil.
  destruct (tab1_cases d filtered)
    as [[He E] | [[Hne [Hlt E]] | [Hne [Hge [t E]]]]];
    try subst filtered; rewrite E;
    (split; [| split]); split;
    first [ intros [t' Ht']; discriminate
          | intros [Hne' Hlt']; first [congruence | lia]
          | intros _; first [reflexivity | now exists t | split; assumption]
          | intros Habs; first [discriminate | lia | congruence] ].
Qed.

(** X14: the Revenue Concentration finding names a segment of the summary
    with the largest revenue, with that segment's own shares. *)
Theorem top_segment_has_largest_revenue
    (rfm : list Segmented) (summary : list SegmentSummary.t)
    (fs : list Finding) :
  tab1_key_insights rfm = Ok (summary, fs) ->
  summary = segment_summary rfm
  /\ exists top rest,
       fs = RevenueConcentration (SegmentSummary.Segment top)
              (SegmentSummary.revenue_pct top)
              (SegmentSummary.customer_pct top) :: rest
       /\ In top summary
       /\ forall s, In s summary ->
            SegmentSummary.revenue s <= SegmentSummary.revenue top.
Proof.
  unfold tab1_key_insights.
  destruct (iloc0 _) as [top|] eqn:Etop; [| discriminate].
  simpl bind. intros [= <- <-]. split; [reflexivity |].
  apply iloc0_descending_max in Etop. destruct Etop as [Hin Hmax].
  exists top. eexists. split; [reflexivity |]. split; assumption.
Qed.

Lemma top_segment_has_largest_revenue_witness :
  exists t summary fs,
    build_rfm (orders_full weekday_shop)
              (merged_order_items (orders_full weekday_shop) weekday_shop)
    = Ok t
    /\ tab1_key_insights t = Ok (summary, fs)
    /\ summary = segment_summary t.
Proof.
  eexists. eexists. eexists.
  split; [vm_compute; reflexivity |].
  assert (forall t s f,
            tab1_key_insights t = Ok (s, f) ->
            tab1_key_insights t = Ok (s, f) /\ s = segment_summary t) as Hw
    by (intros t s f Ht; split;
        [exact Ht | exact (proj1 (top_segment_has_largest_revenue t s f Ht))]).
  apply Hw. vm_compute. reflexivity.
Defined.

(** ** The temporal summaries *)

(** When every row has a key, the group sizes add up to the number of
    rows. *)
Lemma count_partition {K : Type} `{GroupKey K} {R : Type}
    (key : R -> option K) (keys : list K) (rows : list R) :
  NoDup keys ->
  (forall r k, In r rows -> key r = Some k -> In k keys) ->
  (forall r, In r rows -> key r <> None) ->
  sumZ (map (fun k =>
               Z.of_nat (List.length (filter (fun r => has_key k (key r)) rows)))
            keys)
  = Z.of_nat (List.length rows).
Proof.
  intros Hnd Hcover Hkey.
  rewrite <- (sumZ_map_const_one rows).
  transitivity
    (sumZ (map (fun _ : R => 1)
               (filter (fun r => match key r with
                                 | Some _ => true
                                 | None => false
                                 end) rows))).
  - rewrite <- (groupby_sum key (fun _ => 1) keys rows Hnd Hcover).
    f_equal. apply map_ext. intros k. now rewrite sumZ_map_const_one.
  - rewrite filter_all; [reflexivity |].
    intros r Hr. specialize (Hkey r Hr). now destruct (key r).
Qed.

Lemma NoDup_weekday_names : NoDup weekday_names.
Proof. apply NoDup_by_unique. reflexivity. Qed.

(** X15: every transaction of the window is counted on exactly one of the
    seven days: the counts of the day-of-week summary, missing counts left
    out, add up to the number of rows of the window. *)
Theorem daily_summary_total (filtered : list Row) :
  nansum (map snd (daily_summary filtered)) = Z.of_nat (List.length filtered).
Proof.
  rewrite daily_summary_counts, map_map, nansum_fillna, map_map. cbn [snd].
  rewrite (map_ext _ (fun day => transactions_on day filtered)).
  2:{ intros day. destruct (Z.eqb_spec (transactions_on day filtered) 0) as [E|_];
      [now rewrite E | reflexivity]. }
  unfold transactions_on. apply count_partition.
  - apply NoDup_weekday_names.
  - intros r k _ [= <-]. apply day_name_in_weekday_names.
  - intros r _. discriminate.
Qed.

Lemma hour_range (ts : Z) : 0 <= hour ts <= 23.
Proof.
  unfold hour, seconds_per_day.
  pose proof (Z.mod_pos_bound ts 86400 ltac:(lia)) as Hm.
  split; [apply Z.div_pos; lia |].
  apply Z.lt_succ_r. apply Z.div_lt_upper_bound; lia.
Qed.

Lemma sorted_NoDup_strict (l : list Z) :
  StronglySorted Z.le l -> NoDup l -> StronglySorted Z.lt l.
Proof.
  induction 1 as [|x l Hs IH Hx]; intros Hnd; [constructor |].
  inversion Hnd as [|? ? Hnot Hnd']; subst.
  constructor; [now apply IH |].
  rewrite Forall_forall in *. intros y Hy.
  specialize (Hx y Hy). assert (x <> y) by (intros ->; contradiction). lia.
Qed.

Lemma size_by_keyed_Z {R : Type} (key : R -> option Z) (rows : list R) :
  size_by key rows
  = map (fun k =>
           (k, Z.of_nat (List.length (filter (fun r => has_key k (key r)) rows))))
        (group_keys key rows).
Proof.
  unfold size_by, groupby. rewrite map_map. reflexivity.
Qed.

(** X16: the hourly summary lists the hours that occur in the window, each
    once, in increasing order and between 0 and 23, with a count of at least
    1; the counts add up to the number of rows of the window. *)
Theorem hourly_summary_shape (filtered : list Row) :
  StronglySorted Z.lt (map fst (hourly_summary filtered))
  /\ Forall (fun h => 0 <= fst h <= 23 /\ 1 <= snd h) (hourly_summary filtered)
  /\ (forall h, In h (map fst (hourly_summary filtered))
                <-> exists r, In r filtered /\ hour (order_purchase_timestamp r) = h)
  /\ sumZ (map snd (hourly_summary filtered)) = Z.of_nat (List.length filtered).
Proof.
  unfold hourly_summary. rewrite size_by_keyed_Z, !map_map. cbn [fst snd].
  rewrite map_id.
  split.
  { apply sorted_NoDup_strict; [apply sort_keys_sorted | apply NoDup_group_keys]. }
  split.
  { apply Forall_forall. intros h Hh. apply in_map_iff in Hh.
    destruct Hh as [k [<- Hk]]. cbn [fst snd].
    destruct (group_not_empty _ _ _ Hk) as [r [Hr Ek]].
    injection Ek as <-. split; [apply hour_range |].
    destruct (filter _ filtered); [destruct Hr | simpl List.length; lia]. }
  split.
  { intros h. rewrite in_group_keys. split.
    - intros [r [Hr [= E]]]. now exists r.
    - intros [r [Hr E]]. exists r. split; [exact Hr |]. unfold by_hour.
      now rewrite E. }
  apply count_partition.
  - apply NoDup_group_keys.
  - intros r k Hr Hk. apply in_group_keys. now exists r.
  - intros r _. discriminate.
Qed.

(** ** The temporal Key Insights *)

Lemma day_type_values (r : Row) :
  day_type r = "Weekday" \/ day_type r = "Weekend".
Proof.
  unfold day_type. destruct (5 <=? dayofweek _); [now right | now left].
Qed.

Lemma is_weekend_not_weekday (r : Row) : is_weekend r = negb (is_weekday r).
Proof.
  unfold is_weekend, is_weekday.
  destruct (day_type_values r) as [-> | ->]; reflexivity.
Qed.

Lemma filter_keyed (g : string -> Z) (label : string) (keys : list string) :
  NoDup keys ->
  filter (fun x => String.eqb (fst x) label) (map (fun k => (k, g k)) keys)
  = if key_mem label keys then [(label, g label)] else [].
Proof.
  induction 1 as [|k keys Hk Hnd IH]; [reflexivity |].
  cbn [map filter fst key_mem existsb]. rewrite IH. fold (key_mem label keys).
  cbn [key_eqb string_key]. rewrite (String.eqb_sym label k).
  destruct (String.eqb_spec k label) as [-> | Hne]; cbn [orb]; [| reflexivity].
  destruct (key_mem label keys) eqn:E; [| reflexivity].
  apply key_mem_In in E. contradiction.
Qed.

(** The total that the Key Insights read for one day type: the number of
    rows of that type, or an IndexError when there is none. *)
Lemma day_type_total_value (label : string) (filtered : list Row) :
  day_type_total label (day_type_summary filtered)
  = if existsb (fun r => String.eqb (day_type r) label) filtered
    then Ok (count_rows (fun r => String.eqb (day_type r) label) filtered)
    else Raise (IndexError "index 0 is out of bounds for axis 0 with size 0").
Proof.
  destruct (existsb _ filtered) eqn:Eex.
  - apply existsb_exists in Eex. destruct Eex as [r [Hr E]].
    apply String.eqb_eq in E.
    unfold day_type_total, day_type_summary. rewrite size_by_keyed.
    rewrite filter_keyed by apply NoDup_group_keys.
    assert (In label (group_keys (fun r => Some (day_type r)) filtered)) as Hk
      by (apply in_group_keys; exists r; split; [assumption | now rewrite E]).
    apply key_mem_In in Hk. rewrite Hk. cbn [map snd values0].
    unfold count_rows. reflexivity.
  - apply day_type_total_absent. intros r Hr E.
    assert (existsb (fun r => String.eqb (day_type r) label) filtered = true)
      as Habs by (apply existsb_exists; exists r; split;
                  [assumption | now apply String.eqb_eq]).
    congruence.
Qed.

Lemma idxmax_step_new (best : option (nat * Z)) (i j : nat) (x v : Z)
    (col : list (option Z)) :
  (forall b bv, best = Some (b, bv) -> bv < x) ->
  idxmax_post (Some (i, x)) (S i) col j v ->
  idxmax_post best i (Some x :: col) j v.
Proof.
  intros Hlt [Hmax [Hb Hpos]]. specialize (Hb i x eq_refl).
  split.
  { intros [|k] w Hk; simpl in Hk; [injection Hk as <-; lia |].
    now apply (Hmax k). }
  split; [intros b bv Eb; specialize (Hlt b bv Eb); lia |].
  right. destruct Hpos as [[= <- <-] | [p [-> [Hp [Hltp Hfirst]]]]].
  - exists 0%nat. split; [lia |]. split; [reflexivity |].
    split; [exact Hlt | intros; lia].
  - specialize (Hltp i x eq_refl).
    exists (S p). split; [lia |]. split; [exact Hp |].
    split; [intros b bv Eb; specialize (Hlt b bv Eb); lia |].
    intros [|k] w Hk Ew; simpl in Hk.
    + injection Hk as <-. lia.
    + specialize (Hfirst k w Hk Ew). lia.
Qed.

Lemma idxmax_step_keep (b i j : nat) (bv x v : Z) (col : list (option Z)) :
  x <= bv ->
  idxmax_post (Some (b, bv)) (S i) col j v ->
  idxmax_post (Some (b, bv)) i (Some x :: col) j v.
Proof.
  intros Hge [Hmax [Hb Hpos]]. pose proof (Hb b bv eq_refl) as Hbv.
  split.
  { intros [|k] w Hk; simpl in Hk; [injection Hk as <-; lia |].
    now apply (Hmax k). }
  split; [exact Hb |].
  destruct Hpos as [E | [p [-> [Hp [Hltp Hfirst]]]]]; [now left |].
  right. pose proof (Hltp b bv eq_refl) as Hlt.
  exists (S p). split; [lia |]. split; [exact Hp |].
  split; [exact Hltp |].
  intros [|k] w Hk Ew; simpl in Hk; [injection Hk as <-; lia |].
  specialize (Hfirst k w Hk Ew). lia.
Qed.

Lemma idxmax_step_skip (best : option (nat * Z)) (i j : nat) (v : Z)
    (col : list (option Z)) :
  idxmax_post best (S i) col j v ->
  idxmax_post best i (None :: col) j v.
Proof.
  intros [Hmax [Hb Hpos]].
  split.
  { intros [|k] w Hk; simpl in Hk; [discriminate | now apply (Hmax k)]. }
  split; [exact Hb |].
  destruct Hpos as [E | [p [-> [Hp [Hltp Hfirst]]]]]; [now left |].
  right. exists (S p). split; [lia |]. split; [exact Hp |].
  split; [exact Hltp |].
  intros [|k] w Hk Ew; simpl in Hk; [discriminate |].
  specialize (Hfirst k w Hk Ew). lia.
Qed.

Lemma idxmax_from_spec (col : list (option Z)) :
  forall (best : option (nat * Z)) (i j : nat) (v : Z),
    idxmax_from best i col = Some (j, v) -> idxmax_post best i col j v.
Proof.
  induction col as [|[x|] col IH]; intros best i j v Hres; simpl in Hres.
  - subst best. split; [intros [|k] w Hk; discriminate |].
    split; [intros b bv [= <- <-]; lia | now left].
  - destruct best as [[b bv]|].
    + destruct (Z.ltb_spec bv x) as [Hlt | Hge].
      * apply idxmax_step_new; [| now apply IH].
        intros b' bv' [= <- <-]. exact Hlt.
      * apply idxmax_step_keep; [exact Hge | now apply IH].
    + apply idxmax_step_new; [| now apply IH].
      intros b bv Eb. discriminate.
  - apply idxmax_step_skip. now apply IH.
Qed.

(** [idxmax] returns the position of the first largest cell. *)
Lemma idxmax_spec (col : list (option Z)) (j : nat) :
  idxmax col = Ok j ->
  exists v,
    nth_error col j = Some (Some v)
    /\ forall k w, nth_error col k = Some (Some w) ->
                   w <= v /\ (w = v -> (j <= k)%nat).
Proof.
  unfold idxmax. destruct (idxmax_from None 0 col) as [[j' v]|] eqn:E;
    [| discriminate].
  intros [= ->]. apply idxmax_from_spec in E.
  destruct E as [Hmax [_ [Habs | [p [-> [Hp [_ Hfirst]]]]]]]; [discriminate |].
  exists v. split; [exact Hp |].
  intros k w Hk. split; [now apply (Hmax k) | now apply Hfirst].
Qed.

Lemma existsb_nil_or {A : Type} (p : A -> bool) (l : list A) :
  existsb p l = false <-> forall a, In a l -> p a = false.
Proof.
  induction l as [|a l IH]; simpl.
  - split; [intros _ b [] | reflexivity].
  - rewrite orb_false_iff, IH. split.
    + intros [Ha Hl] b [<- | Hb]; auto.
    + intros Hall. split; [apply Hall; now left |].
      intros b Hb. apply Hall. now right.
Qed.

(** The outcomes of the temporal Key Insights. *)
Lemma tab2_key_insights_cases (filtered : list Row) :
  (filtered = []
   /\ tab2_key_insights filtered
      = Raise (ValueError "attempt to get argmax of an empty sequence"))
  \/ (filtered <> []
      /\ (existsb is_weekday filtered = false
          \/ existsb is_weekend filtered = false)
      /\ tab2_key_insights filtered
         = Raise (IndexError "index 0 is out of bounds for axis 0 with size 0"))
  \/ (existsb is_weekday filtered = true
      /\ existsb is_weekend filtered = true
      /\ exists fs, tab2_key_insights filtered = Ok fs).
Proof.
  destruct filtered as [|r0 rows]; [left; split; reflexivity | right].
  set (filtered := r0 :: rows).
  assert (filtered <> []) as Hne by discriminate.
  destruct (existsb is_weekday filtered) eqn:Ewd,
           (existsb is_weekend filtered) eqn:Ewe.
  - right. repeat split. unfold tab2_key_insights.
    destruct (daily_peak_ok filtered Hne) as [i [pd [Ei Epd]]].
    destruct (hourly_peak_ok filtered Hne) as [j [ph [Ej Eph]]].
    rewrite Ei. simpl bind. rewrite Epd. simpl bind.
    rewrite Ej. simpl bind. rewrite Eph. simpl bind.
    rewrite !day_type_total_value.
    fold is_weekend is_weekday. rewrite Ewd, Ewe. simpl bind.
    eexists. reflexivity.
  - left. split; [exact Hne |]. split; [now right |].
    apply (tab2_key_insights_one_day_type filtered "Weekday" Hne);
      [now left |].
    intros r Hr. rewrite existsb_nil_or in Ewe. specialize (Ewe r Hr).
    unfold is_weekend in Ewe. apply String.eqb_neq in Ewe.
    destruct (day_type_values r); congruence.
  - left. split; [exact Hne |]. split; [now left |].
    apply (tab2_key_insights_one_day_type filtered "Weekend" Hne);
      [now right |].
    intros r Hr. rewrite existsb_nil_or in Ewd. specialize (Ewd r Hr).
    unfold is_weekday in Ewd. apply String.eqb_neq in Ewd.
    destruct (day_type_values r); congruence.
  - exfalso. rewrite existsb_nil_or in Ewd, Ewe.
    specialize (Ewd r0 (or_introl eq_refl)).
    specialize (Ewe r0 (or_introl eq_refl)).
    rewrite is_weekend_not_weekday, Ewd in Ewe. discriminate.
Qed.

Lemma tab2_as_key_insights (filtered : list Row) :
  (forall e, tab2 filtered = Raise e <-> tab2_key_insights filtered = Raise e)
  /\ ((exists t, tab2 filtered = Ok t)
      <-> exists fs, tab2_key_insights filtered = Ok fs).
Proof.
  unfold tab2. destruct (tab2_key_insights filtered) as [fs|e']; simpl bind.
  - split.
    + intros e. split; discriminate.
    + split; intros _; eexists; reflexivity.
  - split.
    + intros e. split; intros [= ->]; reflexivity.
    + split; intros [x Hx]; discriminate.
Qed.


Lemma loc_nth_error {R : Type} (l : list R) (i : nat) (x : R) :
  loc l i = Ok x -> nth_error l i = Some x.
Proof.
  unfold loc. destruct (nth_error l i); [intros [= ->]; reflexivity | discriminate].
Qed.

Lemma transactions_on_nonneg (day : string) (filtered : list Row) :
  0 <= transactions_on day filtered.
Proof. unfold transactions_on. lia. Qed.

Lemma peak_day_spec (filtered : list Row) (i : nat) (pd : string * option Z) :
  idxmax (map snd (daily_summary filtered)) = Ok i ->
  loc (daily_summary filtered) i = Ok pd ->
  exists n,
    snd pd = Some n
    /\ In (fst pd) weekday_names
    /\ n = transactions_on (fst pd) filtered
    /\ forall day, In day weekday_names -> transactions_on day filtered <= n.
Proof.
  intros Hi Hpd. apply idxmax_spec in Hi. destruct Hi as [v [Hv Hmax]].
  apply loc_nth_error in Hpd.
  pose proof (map_nth_error snd _ _ Hpd) as Hsnd.
  rewrite Hv in Hsnd. injection Hsnd as Hsnd.
  exists v. split; [now symmetry |].
  apply nth_error_In in Hpd. rewrite daily_summary_counts in Hpd, Hmax.
  apply in_map_iff in Hpd. destruct Hpd as [day [<- Hday]].
  cbn [fst snd] in *. split; [exact Hday |].
  destruct (Z.eqb_spec (transactions_on day filtered) 0) as [_ | Hnz];
    [discriminate |].
  injection Hsnd as Hsnd. split; [exact Hsnd |].
  intros day' Hday'. apply In_nth_error in Hday'. destruct Hday' as [k Hk].
  pose proof (map_nth_error
                (fun d => (d, if transactions_on d filtered =? 0 then None
                              else Some (transactions_on d filtered)))
                _ _ Hk) as Hk'.
  pose proof (map_nth_error snd _ _ Hk') as Hk''. cbn [snd] in Hk''.
  destruct (Z.eqb_spec (transactions_on day' filtered) 0) as [E | _].
  - rewrite E, Hsnd. apply transactions_on_nonneg.
  - now apply (Hmax k).
Qed.

Lemma peak_hour_spec (filtered : list Row) (j : nat) (ph : Z * Z) :
  idxmax (map (fun h => Some (snd h)) (hourly_summary filtered)) = Ok j ->
  loc (hourly_summary filtered) j = Ok ph ->
  In ph (hourly_summary filtered)
  /\ forall hc, In hc (hourly_summary filtered) -> snd hc <= snd ph.
Proof.
  intros Hj Hph. apply idxmax_spec in Hj. destruct Hj as [v [Hv Hmax]].
  apply loc_nth_error in Hph.
  pose proof (map_nth_error (fun h : Z * Z => Some (snd h)) _ _ Hph) as Hsnd.
  rewrite Hv in Hsnd. injection Hsnd as <-.
  split; [now apply nth_error_In in Hph |].
  intros hc Hhc. apply In_nth_error in Hhc. destruct Hhc as [k Hk].
  pose proof (map_nth_error (fun h : Z * Z => Some (snd h)) _ _ Hk) as Hk'.
  now apply (Hmax k).
Qed.

Lemma last_two_length {R : Type} (l : list R) :
  match last_two l with
  | Some _ => (2 <= List.length l)%nat
  | None => (List.length l < 2)%nat
  end.
Proof.
  unfold last_two. rewrite <- (length_rev l).
  destruct (rev l) as [|z [|y tl]]; simpl; lia.
Qed.



(** ** The category tab *)

Lemma iloc0_sort_values_in {R : Type} (before : R -> R -> bool) (l : list R)
    (x : R) :
  iloc0 (sort_values before l) = Ok x -> In x l.
Proof.
  intros Hx. pose proof (sort_values_perm before l) as Hp.
  destruct (sort_values before l) as [|x0 s]; [discriminate |].
  injection Hx as ->. apply (Permutation_in _ Hp). now left.
Qed.

Lemma insert_row_ascending {R : Type} (m : R -> Z) (x : R) (l : list R) :
  StronglySorted (fun a b => m a <= m b) l ->
  StronglySorted (fun a b => m a <= m b)
                 (insert_row (fun y x' => m y <? m x') x l).
Proof.
  induction 1 as [|y l Hs IH Hy]; simpl; [repeat constructor |].
  destruct (Z.ltb_spec (m y) (m x)) as [Hlt | Hge].
  - constructor; [exact IH |].
    eapply Permutation_Forall; [symmetry; apply insert_row_perm |].
    constructor; [lia | assumption].
  - constructor; [now constructor |].
    constructor; [assumption |].
    eapply Forall_impl; [| exact Hy]. intros z Hz. simpl in Hz. lia.
Qed.

(** The first row of a frame sorted by an ascending measure has the
    smallest measure of the frame. *)
Lemma iloc0_ascending_min {R : Type} (m : R -> Z) (l : list R) (x : R) :
  iloc0 (sort_values (fun y x' => m y <? m x') l) = Ok x ->
  In x l /\ forall y, In y l -> m x <= m y.
Proof.
  intros Hx.
  assert (StronglySorted (fun a b => m a <= m b)
            (sort_values (fun y x' => m y <? m x') l)) as Hs.
  { clear Hx. induction l as [|a l IH]; simpl; [constructor |].
    now apply insert_row_ascending. }
  pose proof (sort_values_perm (fun y x' => m y <? m x') l) as Hp.
  destruct (sort_values _ l) as [|x0 s]; [discriminate |].
  injection Hx as ->.
  split; [apply (Permutation_in _ Hp); now left |].
  intros y Hy. apply (Permutation_in _ (Permutation_sym Hp)) in Hy.
  inversion Hs as [|? ? _ Hall]; subst.
  destruct Hy as [<- | Hy]; [lia |].
  rewrite Forall_forall in Hall. now apply Hall.
Qed.

Lemma category_summary_rows (rows : list Row) :
  category_summary rows
  = map (fun k =>
           let group :=
             filter (fun r => has_key k (product_category_name r)) rows in
           {| CategorySummary.product_category_name := k;
              CategorySummary.revenue := nansum (map revenue group);
              CategorySummary.total_orders :=
                nunique (map (fun r => Some (order_id r)) group);
              CategorySummary.product_count := nunique (map product_id group);
              CategorySummary.AOV :=
                {| num := nansum (map revenue group);
                   den := nunique (map (fun r => Some (order_id r)) group) |} |})
        (group_keys product_category_name rows).
Proof.
  unfold category_summary, groupby. rewrite map_map. reflexivity.
Qed.

Lemma category_summary_nil_iff (rows : list Row) :
  category_summary rows = [] <-> existsb has_category rows = false.
Proof.
  rewrite category_summary_rows, existsb_nil_or. split.
  - intros Hnil. apply map_eq_nil in Hnil.
    rewrite (group_keys_nil_iff product_category_name) in Hnil.
    intros r Hr. unfold has_category. now rewrite (Hnil r Hr).
  - intros Hall. replace (group_keys product_category_name rows)
      with (@nil string); [reflexivity |].
    symmetry. apply group_keys_nil_iff. intros r Hr.
    specialize (Hall r Hr). unfold has_category in Hall.
    now destruct (product_category_name r).
Qed.

(** X19: the category summary has one row per category of the rows it is
    given, and every row counts at least one order: the average order value
    never divides by zero. *)
Theorem category_summary_orders_positive (rows : list Row) :
  NoDup (map CategorySummary.product_category_name (category_summary rows))
  /\ (forall c,
        In c (map CategorySummary.product_category_name (category_summary rows))
        <-> In (Some c) (map product_category_name rows))
  /\ Forall
       (fun c =>
          1 <= CategorySummary.total_orders c
          /\ CategorySummary.AOV c
             = {| num := CategorySummary.revenue c;
                  den := CategorySummary.total_orders c |})
       (category_summary rows).
Proof.
  rewrite category_summary_rows. rewrite map_map. cbv zeta. cbn [CategorySummary.product_category_name].
  rewrite map_id. split; [apply NoDup_group_keys |]. split.
  - intros c. rewrite in_group_keys, in_map_iff.
    split; intros [r [H1 H2]]; exists r; auto.
  - apply Forall_forall. intros c Hc. apply in_map_iff in Hc.
    destruct Hc as [k [<- Hk]]. cbn. split; [| reflexivity].
    destruct (group_not_empty _ _ _ Hk) as [r [Hr _]].
    apply (nunique_pos _ (order_id r)). apply in_map_iff. now exists r.
Qed.

Lemma tab3_key_insights_ok (summary : list CategorySummary.t) :
  summary <> [] -> exists fs, tab3_key_insights summary = Ok fs.
Proof.
  intros Hne. unfold tab3_key_insights.
  destruct (iloc0_sort_values_ok
              (fun y x => CategorySummary.revenue x <? CategorySummary.revenue y)
              summary Hne) as [a [-> _]]. simpl bind.
  destruct (iloc0_sort_values_ok
              (fun y x => CategorySummary.product_count y
                          <? CategorySummary.product_count x)
              summary Hne) as [b [-> _]]. simpl bind.
  destruct (iloc0_sort_values_ok
              (fun y x => ratio_ltb (CategorySummary.AOV x) (CategorySummary.AOV y))
              summary Hne) as [c [-> _]]. simpl bind.
  eexists. reflexivity.
Qed.

Lemma tab3_cases (full : list Row) :
  (full = [] /\ tab3 full = Raise (NameError "category_summary"))
  \/ (full <> [] /\ existsb has_category full = false
      /\ tab3 full
         = Raise (IndexError "single positional indexer is out-of-bounds"))
  \/ (existsb has_category full = true /\ exists t, tab3 full = Ok t).
Proof.
  destruct full as [|r0 rows]; [left; split; reflexivity | right].
  set (full := r0 :: rows).
  destruct (existsb has_category full) eqn:Ec.
  - right. split; [reflexivity |]. unfold tab3, full. fold full.
    destruct (tab3_key_insights_ok (category_summary full)) as [fs Efs].
    { intros Hnil. apply category_summary_nil_iff in Hnil. congruence. }
    rewrite Efs. simpl bind. eexists. reflexivity.
  - left. split; [discriminate |]. split; [reflexivity |].
    unfold tab3, full. fold full.
    apply category_summary_nil_iff in Ec. rewrite Ec. reflexivity.
Qed.

(** X20: the category tab completes exactly when some row of [orders_full]
    has a category.  It ends with a NameError when [orders_full] is empty,
    and with an IndexError when no row has a category.  The date window
    plays no part. *)
Theorem tab3_outcome (full : list Row) :
  ((exists t, tab3 full = Ok t) <-> existsb has_category full = true)
  /\ (tab3 full = Raise (NameError "category_summary") <-> full = [])
  /\ (tab3 full = Raise (IndexError "single positional indexer is out-of-bounds")
      <-> full <> [] /\ existsb has_category full = false).
Proof.
  destruct (tab3_cases full) as [[He E] | [[Hne [Hno E]] | [Hc [t E]]]];
    try subst full; rewrite E;
    (split; [| split]); split; intros Hx;
    try (match type of Hx with
         | ex _ => destruct Hx as [t' Hx]; discriminate Hx
         end);
    try discriminate Hx;
    try reflexivity;
    try (eexists; reflexivity);
    try (subst full);
    cbn [existsb] in *;
    solve [intuition (try discriminate; try congruence)].
Qed.

(** X21: when the category Key Insights complete, the Revenue Driver is a
    category of the summary with the largest revenue, reported with its
    share of the summed revenue, and the Portfolio Concentration finding
    names a category with the smallest number of distinct products. *)
Theorem tab3_findings (summary : list CategorySummary.t) (fs : list Finding) :
  tab3_key_insights summary = Ok fs ->
  exists top low high,
    fs = [RevenueDriver (CategorySummary.product_category_name top)
            {| num := CategorySummary.revenue top;
               den := sumZ (map CategorySummary.revenue summary) |};
          PortfolioConcentration (CategorySummary.product_category_name low);
          HighValueTransactions (CategorySummary.product_category_name high)]
    /\ In top summary /\ In low summary /\ In high summary
    /\ (forall c, In c summary ->
          CategorySummary.revenue c <= CategorySummary.revenue top)
    /\ (forall c, In c summary ->
          CategorySummary.product_count low <= CategorySummary.product_count c).
Proof.
  unfold tab3_key_insights.
  destruct (iloc0 (sort_values
                     (fun y x => CategorySummary.revenue x <? CategorySummary.revenue y)
                     summary)) as [top|] eqn:Etop; [| discriminate].
  simpl bind.
  destruct (iloc0 (sort_values
                     (fun y x => CategorySummary.product_count y
                                 <? CategorySummary.product_count x)
                     summary)) as [low|] eqn:Elow; [| discriminate].
  simpl bind.
  destruct (iloc0 (sort_values
                     (fun y x => ratio_ltb (CategorySummary.AOV x)
                                           (CategorySummary.AOV y))
                     summary)) as [high|] eqn:Ehigh; [| discriminate].
  simpl bind. intros [= <-].
  apply iloc0_descending_max in Etop. destruct Etop as [Htop Hmax].
  apply iloc0_ascending_min in Elow. destruct Elow as [Hlow Hmin].
  apply iloc0_sort_values_in in Ehigh.
  exists top, low, high. split; [reflexivity |].
  repeat (split; [assumption |]). exact Hmin.
Qed.

Lemma tab3_findings_witness :
  exists fs,
    tab3_key_insights (category_summary (orders_full quarter_shop)) = Ok fs
    /\ exists top share rest,
         fs = RevenueDriver (CategorySummary.product_category_name top) share
              :: rest
         /\ In top (category_summary (orders_full quarter_shop)).
Proof.
  assert (exists fs,
            tab3_key_insights (category_summary (orders_full quarter_shop))
            = Ok fs) as [fs Hfs] by (eexists; vm_compute; reflexivity).
  exists fs. split; [exact Hfs |].
  destruct (tab3_findings _ fs Hfs) as [top [low [high [-> [Htop _]]]]].
  exists top. eexists. eexists. split; [reflexivity | exact Htop].
Defined.

(** ** The geographic tab *)

Lemma geo_summary_rows (filtered : list Row) :
  geo_summary filtered
  = map (fun k =>
           let group := filter (fun r => has_key k (customer_state r)) filtered in
           {| GeoSummary.customer_state := k;
              GeoSummary.total_revenue := nansum (map revenue group);
              GeoSummary.total_orders :=
                nunique (map (fun r => Some (order_id r)) group);
              GeoSummary.total_customers :=
                nunique (map customer_unique_id group) |})
        (group_keys customer_state filtered).
Proof.
  unfold geo_summary, groupby. rewrite map_map. reflexivity.
Qed.

Lemma geo_summary_nil_iff (filtered : list Row) :
  geo_summary filtered = [] <-> existsb has_state filtered = false.
Proof.
  rewrite geo_summary_rows, existsb_nil_or. split.
  - intros Hnil. apply map_eq_nil in Hnil.
    rewrite (group_keys_nil_iff customer_state) in Hnil.
    intros r Hr. unfold has_state. now rewrite (Hnil r Hr).
  - intros Hall. replace (group_keys customer_state filtered)
      with (@nil string); [reflexivity |].
    symmetry. apply group_keys_nil_iff. intros r Hr.
    specialize (Hall r Hr). unfold has_state in Hall.
    now destruct (customer_state r).
Qed.


Lemma tab4_key_insights_ok (geo : list GeoSummary.t) :
  geo <> [] -> exists fs, tab4_key_insights geo = Ok fs.
Proof.
  intros Hne. unfold tab4_key_insights.
  destruct (iloc0_sort_values_ok
              (fun y x => GeoSummary.total_revenue x <? GeoSummary.total_revenue y)
              geo Hne) as [a [-> _]]. simpl bind.
  destruct (iloc0_sort_values_ok
              (fun y x => GeoSummary.total_orders x <? GeoSummary.total_orders y)
              geo Hne) as [b [-> _]]. simpl bind.
  destruct (iloc0_sort_values_ok
              (fun y x => ratio_ltb (GeoSummary.revenue_per_order x)
                                    (GeoSummary.revenue_per_order y))
              geo Hne) as [c [-> _]]. simpl bind.
  eexists. reflexivity.
Qed.

Lemma idxmax_map_some_ok {R : Type} (f : R -> Z) (l : list R) :
  l <> [] -> exists j, idxmax (map (fun x => Some (f x)) l) = Ok j.
Proof.
  destruct l as [|x l]; [congruence |]. intros _.
  destruct (idxmax_ok (map (fun x => Some (f x)) (x :: l)) (f x))
    as [j [Ej _]]; [now left | now exists j].
Qed.

Lemma tab4_cases (filtered : list Row) :
  (filtered = [] /\ tab4 filtered = Raise (NameError "geo_summary"))
  \/ (filtered <> [] /\ existsb has_state filtered = false
      /\ tab4 filtered
         = Raise (ValueError "attempt to get argmax of an empty sequence"))
  \/ (existsb has_state filtered = true /\ exists t, tab4 filtered = Ok t).
Proof.
  destruct filtered as [|r0 rows]; [left; split; reflexivity | right].
  set (filtered := r0 :: rows).
  destruct (existsb has_state filtered) eqn:Ec.
  - right. split; [reflexivity |]. unfold tab4, filtered. fold filtered.
    assert (geo_summary filtered <> []) as Hne
      by (intros Hnil; apply geo_summary_nil_iff in Hnil; congruence).
    destruct (idxmax_map_some_ok GeoSummary.total_revenue _ Hne) as [j ->].
    destruct (idxmax_map_some_ok GeoSummary.total_orders _ Hne) as [j' ->].
    simpl bind.
    destruct (tab4_key_insights_ok _ Hne) as [fs ->]. simpl bind.
    eexists. reflexivity.
  - left. split; [discriminate |]. split; [reflexivity |].
    unfold tab4, filtered. fold filtered.
    apply geo_summary_nil_iff in Ec. rewrite Ec. reflexivity.
Qed.

(** X23: the geographic tab completes exactly when some row of the window
    has a customer state.  It ends with a NameError on an empty window, and
    with the ValueError of [idxmax] on a non-empty window in which no order
    found its customer. *)
Theorem tab4_outcome (filtered : list Row) :
  ((exists t, tab4 filtered = Ok t) <-> existsb has_state filtered = true)
  /\ (tab4 filtered = Raise (NameError "geo_summary") <-> filtered = [])
  /\ (tab4 filtered
      = Raise (ValueError "attempt to get argmax of an empty sequence")
      <-> filtered <> [] /\ existsb has_state filtered = false).
Proof.
  destruct (tab4_cases filtered) as [[He E] | [[Hne [Hno E]] | [Hc [t E]]]];
    try subst filtered; rewrite E;
    (split; [| split]); split; intros Hx;
    try (match type of Hx with
         | ex _ => destruct Hx as [t' Hx]; discriminate Hx
         end);
    try discriminate Hx;
    try reflexivity;
    try (eexists; reflexivity);
    try (subst filtered);
    cbn [existsb] in *;
    solve [intuition (try discriminate; try congruence)].
Qed.

(** X24: when the geographic Key Insights complete, the Revenue Stronghold
    is a state of the summary with the largest revenue and the Transaction
    Hotspot a state with the largest number of distinct orders, each
    reported with its share of the summed column. *)
Theorem tab4_findings (geo : list GeoSummary.t) (fs : list Finding) :
  tab4_key_insights geo = Ok fs ->
  exists top_revenue top_orders high,
    fs = [RevenueStronghold (GeoSummary.customer_state top_revenue)
            {| num := GeoSummary.total_revenue top_revenue;
               den := sumZ (map GeoSummary.total_revenue geo) |};
          TransactionHotspot (GeoSummary.customer_state top_orders)
            {| num := GeoSummary.total_orders top_orders;
               den := sumZ (map GeoSummary.total_orders geo) |};
          BehavioralGapAcrossRegions (GeoSummary.customer_state high)]
    /\ In top_revenue geo /\ In top_orders geo /\ In high geo
    /\ (forall g, In g geo ->
          GeoSummary.total_revenue g <= GeoSummary.total_revenue top_revenue)
    /\ (forall g, In g geo ->
          GeoSummary.total_orders g <= GeoSummary.total_orders top_orders).
Proof.
  unfold tab4_key_insights.
  destruct (iloc0 (sort_values
                     (fun y x => GeoSummary.total_revenue x
                                 <? GeoSummary.total_revenue y) geo))
    as [a|] eqn:Ea; [| discriminate]. simpl bind.
  destruct (iloc0 (sort_values
                     (fun y x => GeoSummary.total_orders x
                                 <? GeoSummary.total_orders y) geo))
    as [b|] eqn:Eb; [| discriminate]. simpl bind.
  destruct (iloc0 (sort_values
                     (fun y x => ratio_ltb (GeoSummary.revenue_per_order x)
                                           (GeoSummary.revenue_per_order y)) geo))
    as [c|] eqn:Ec; [| discriminate]. simpl bind. intros [= <-].
  apply iloc0_descending_max in Ea. destruct Ea as [Ha Hamax].
  apply iloc0_descending_max in Eb. destruct Eb as [Hb Hbmax].
  apply iloc0_sort_values_in in Ec.
  exists a, b, c. split; [reflexivity |].
  split; [exact Ha |]. split; [exact Hb |]. split; [exact Ec |].
  split; [exact Hamax | exact Hbmax].
Qed.

Lemma tab4_findings_witness :
  exists fs,
    tab4_key_insights (geo_summary (orders_full quarter_shop)) = Ok fs
    /\ exists top share rest,
         fs = RevenueStronghold (GeoSummary.customer_state top) share :: rest
         /\ In top (geo_summary (orders_full quarter_shop)).
Proof.
  assert (exists fs,
            tab4_key_insights (geo_summary (orders_full quarter_shop)) = Ok fs)
    as [fs Hfs] by (eexists; vm_compute; reflexivity).
  exists fs. split; [exact Hfs |].
  destruct (tab4_findings _ fs Hfs) as [a [b [c [-> [Ha _]]]]].
  exists a. eexists. eexists. split; [reflexivity | exact Ha].
Defined.

(** ** The whole run *)

Lemma tab2_digest (filtered : list Row) :
  ((existsb is_weekday filtered = false \/ existsb is_weekend filtered = false)
   /\ exists x, tab2 filtered = Raise x /\ later_error x)
  \/ (existsb is_weekday filtered = true /\ existsb is_weekend filtered = true
      /\ exists t, tab2 filtered = Ok t).
Proof.
  destruct (tab2_as_key_insights filtered) as [Herr Hok].
  destruct (tab2_key_insights_cases filtered)
    as [[-> E] | [[Hne [Hmiss E]] | [Hwd [Hwe Hfs]]]].
  - left. split; [now left |]. eexists. split; [apply Herr; exact E |].
    split; discriminate.
  - left. split; [exact Hmiss |]. eexists. split; [apply Herr; exact E |].
    split; discriminate.
  - right. split; [exact Hwd |]. split; [exact Hwe |]. now apply Hok.
Qed.

Lemma tab3_digest (full : list Row) :
  (existsb has_category full = false
   /\ exists x, tab3 full = Raise x /\ later_error x)
  \/ (existsb has_category full = true /\ exists t, tab3 full = Ok t).
Proof.
  destruct (tab3_cases full) as [[-> E] | [[Hne [Hno E]] | [Hc Ht]]].
  - left. split; [reflexivity |]. eexists. split; [exact E |].
    split; discriminate.
  - left. split; [exact Hno |]. eexists. split; [exact E |].
    split; discriminate.
  - right. split; assumption.
Qed.

Lemma tab4_digest (filtered : list Row) :
  (existsb has_state filtered = false
   /\ exists x, tab4 filtered = Raise x /\ later_error x)
  \/ (existsb has_state filtered = true /\ exists t, tab4 filtered = Ok t).
Proof.
  destruct (tab4_cases filtered) as [[-> E] | [[Hne [Hno E]] | [Hc Ht]]].
  - left. split; [reflexivity |]. eexists. split; [exact E |].
    split; discriminate.
  - left. split; [exact Hno |]. eexists. split; [exact E |].
    split; discriminate.
  - right. split; assumption.
Qed.

(** The run, tab after tab. *)
Lemma app_cases (d : Dataset) (s e : Z) :
  let full := orders_full d in
  let filtered := filtered_orders full s e in
  (e < s /\ app d s e = Raise StopException)
  \/ (s <= e /\ filtered = [] /\ app d s e = Raise (NameError "rfm"))
  \/ (s <= e /\ filtered <> []
      /\ (total_customers filtered < 2
          \/ existsb is_weekday filtered = false
          \/ existsb is_weekend filtered = false
          \/ existsb has_category full = false
          \/ existsb has_state filtered = false)
      /\ exists x, app d s e = Raise x /\ later_error x)
  \/ (s <= e /\ 2 <= total_customers filtered
      /\ existsb is_weekday filtered = true
      /\ existsb is_weekend filtered = true
      /\ existsb has_category full = true
      /\ existsb has_state filtered = true
      /\ exists o, app d s e = Ok o /\ enriched_rows o = filtered).
Proof.
  cbv zeta. unfold app.
  destruct (Z.ltb_spec e s) as [Hlt | Hge]; [left; split; [lia | reflexivity] |].
  right.
  set (full := orders_full d). set (filtered := filtered_orders full s e).
  destruct (tab1_cases d filtered)
    as [[He E1] | [[Hne [Hn E1]] | [Hne [Hn [t1 E1]]]]].
  - left. rewrite E1. repeat split; assumption.
  - right. left. rewrite E1. split; [lia |]. split; [exact Hne |].
    split; [now left |]. eexists. split; [reflexivity |]. split; discriminate.
  - right. rewrite E1. simpl bind.
    destruct (tab2_digest filtered)
      as [[Hmiss [x [E2 Hx]]] | [Hwd [Hwe [t2 E2]]]]; rewrite E2; simpl bind.
    { left. split; [lia |]. split; [exact Hne |].
      split; [tauto |]. now exists x. }
    destruct (tab3_digest full) as [[Hno [x [E3 Hx]]] | [Hc [t3 E3]]];
      rewrite E3; simpl bind.
    { left. split; [lia |]. split; [exact Hne |].
      split; [tauto |]. now exists x. }
    destruct (tab4_digest filtered) as [[Hno [x [E4 Hx]]] | [Hs [t4 E4]]];
      rewrite E4; simpl bind.
    { left. split; [lia |]. split; [exact Hne |].
      split; [tauto |]. now exists x. }
    right. repeat (split; [first [assumption | lia] |]).
    eexists. split; reflexivity.
Qed.

(** X25: a run completes exactly when the date range is in order, the
    window has at least two customers, a weekday and a weekend transaction
    and a row with a customer state, and [orders_full] has a row with a
    category; the rows it then reports are the filtered rows.  It stops
    silently exactly when the start date is after the end date, and it ends
    with the NameError on [rfm] exactly when the range is in order and the
    window is empty. *)
Theorem app_outcome (d : Dataset) (s e : Z) :
  let full := orders_full d in
  let filtered := filtered_orders full s e in
  ((exists o, app d s e = Ok o)
   <-> s <= e /\ 2 <= total_customers filtered
       /\ existsb is_weekday filtered = true
       /\ existsb is_weekend filtered = true
       /\ existsb has_category full = true
       /\ existsb has_state filtered = true)
  /\ (forall o, app d s e = Ok o -> enriched_rows o = filtered)
  /\ (app d s e = Raise StopException <-> e < s)
  /\ (app d s e = Raise (NameError "rfm") <-> s <= e /\ filtered = []).
Proof.
  cbv zeta. pose proof total_customers_nil as Hnil.
  destruct (app_cases d s e)
    as [[Hlt E] | [[Hle [He E]] | [[Hle [Hne [Hmiss [x [E [Hx1 Hx2]]]]]]
       | [Hle [Hn [Hwd [Hwe [Hc [Hs [o [E Eo]]]]]]]]]]];
    cbv zeta in *; rewrite E;
    (split; [split | split; [| split; split]]).
  all: try (intros o' Ho'; first [discriminate Ho' | injection Ho' as <-; exact Eo]).
  all: intros Hx.
  all: try (match type of Hx with
            | ex _ => destruct Hx as [o' Hx]; discriminate Hx
            end).
  all: try discriminate Hx.
  all: try reflexivity.
  all: try (now exists o).
  all: try lia.
  all: try (rewrite He in *; cbn [existsb] in * ).
  all: try solve [intuition (try discriminate; try congruence; try lia)].
  destruct Hx as [_ Hx]. rewrite Hx, Hnil in Hn. lia.
Qed.

(** ** The monthly summary *)

Section SortedKeys.
Context {K : Type} `{GroupKey K}.
Hypothesis leb_total : forall x y : K, key_leb x y = true \/ key_leb y x = true.
Hypothesis leb_trans :
  forall x y z : K, key_leb x y = true -> key_leb y z = true -> key_leb x z = true.

Lemma insert_key_sorted_by_leb (k : K) (l : list K) :
  StronglySorted (fun a b => key_leb a b = true) l ->
  StronglySorted (fun a b => key_leb a b = true) (insert_key k l).
Proof.
  induction 1 as [|x l Hs IH Hx]; simpl.
  - repeat constructor.
  - destruct (key_leb k x) eqn:Ek.
    + constructor; [now constructor |].
      constructor; [assumption |].
      eapply Forall_impl; [| exact Hx]. intros y Hy. simpl in Hy.
      now apply (leb_trans k x y).
    + constructor; [exact IH |].
      eapply Permutation_Forall; [symmetry; apply insert_key_perm |].
      constructor; [| assumption].
      destruct (leb_total k x) as [Hkx | Hxk]; [congruence | assumption].
Qed.

Lemma sort_keys_sorted_by_leb (l : list K) :
  StronglySorted (fun a b => key_leb a b = true) (sort_keys l).
Proof.
  induction l as [|x l IH]; simpl;
    [constructor | now apply insert_key_sorted_by_leb].
Qed.
End SortedKeys.

Lemma pair_leb_total (p q : Z * Z) : pair_leb p q = true \/ pair_leb q p = true.
Proof.
  unfold pair_leb.
  destruct (Z.ltb_spec (fst p) (fst q)), (Z.ltb_spec (fst q) (fst p)),
           (Z.eqb_spec (fst p) (fst q)), (Z.eqb_spec (fst q) (fst p)),
           (Z.leb_spec (snd p) (snd q)), (Z.leb_spec (snd q) (snd p));
    cbn [andb orb]; try (now left); try (now right); lia.
Qed.

Lemma pair_leb_spec (p q : Z * Z) :
  pair_leb p q = true
  <-> fst p < fst q \/ (fst p = fst q /\ snd p <= snd q).
Proof.
  unfold pair_leb.
  destruct (Z.ltb_spec (fst p) (fst q)), (Z.eqb_spec (fst p) (fst q)),
           (Z.leb_spec (snd p) (snd q)); cbn [andb orb];
    split; intros Hx; try discriminate; try reflexivity; lia.
Qed.

Lemma pair_leb_trans (p q r : Z * Z) :
  pair_leb p q = true -> pair_leb q r = true -> pair_leb p r = true.
Proof.
  rewrite !pair_leb_spec. lia.
Qed.


(** ** The findings of the segmentation tab *)

Lemma filter_map_comm {A B : Type} (p : B -> bool) (f : A -> B) (l : list A) :
  filter p (map f l) = map f (filter (fun a => p (f a)) l).
Proof.
  induction l as [|a l IH]; [reflexivity |].
  simpl. destruct (p (f a)); simpl; now rewrite IH.
Qed.

Lemma count_rows_zero_iff {A : Type} (p : A -> bool) (l : list A) :
  count_rows p l = 0 <-> existsb p l = false.
Proof.
  unfold count_rows. rewrite existsb_nil_or, <- filter_nil_iff.
  destruct (filter p l); simpl; split; intros Hx;
    try reflexivity; try discriminate; lia.
Qed.

(** The customers of the segments picked by a test on the segment name. *)
Lemma segment_summary_selected (q : string -> bool) (rfm : list Segmented) :
  sumZ (map SegmentSummary.customers
            (filter (fun s => q (SegmentSummary.Segment s)) (segment_summary rfm)))
  = count_rows (fun r => q (Segment r)) rfm.
Proof.
  rewrite segment_summary_rows, filter_map_comm, map_map. cbv zeta.
  cbn [SegmentSummary.Segment SegmentSummary.customers].
  set (keys := group_keys (fun r => Some (Segment r)) rfm).
  unfold count_rows.
  rewrite <- (count_partition (fun r => Some (Segment r)) (filter q keys)
                (filter (fun r => q (Segment r)) rfm)).
  - apply f_equal. apply map_ext_in. intros k Hk.
    apply filter_In in Hk. destruct Hk as [_ Hq].
    do 2 f_equal. rewrite filter_filter. apply filter_ext. intros r.
    cbn [has_key key_eqb string_key].
    destruct (String.eqb_spec (Segment r) k) as [-> | _];
      [now rewrite Hq | symmetry; apply andb_false_r].
  - apply NoDup_filter, NoDup_group_keys.
  - intros r k Hr [= <-]. apply filter_In in Hr. destruct Hr as [Hr Hq].
    apply filter_In. split; [| exact Hq].
    apply in_group_keys. now exists r.
  - intros r _. discriminate.
Qed.

Lemma segment_customers_pos (rfm : list Segmented) (s : SegmentSummary.t) :
  In s (segment_summary rfm) -> 1 <= SegmentSummary.customers s.
Proof.
  rewrite segment_summary_rows. intros Hs. apply in_map_iff in Hs.
  destruct Hs as [k [<- Hk]]. cbv zeta. cbn [SegmentSummary.customers].
  destruct (group_not_empty _ _ _ Hk) as [r [Hr _]].
  destruct (filter _ rfm); [destruct Hr | simpl List.length; lia].
Qed.

Lemma sumZ_map_pos {A : Type} (f : A -> Z) (l : list A) :
  l <> [] -> (forall a, In a l -> 1 <= f a) -> 1 <= sumZ (map f l).
Proof.
  intros Hne Hall. destruct l as [|x l]; [congruence |].
  cbn [map]. rewrite sumZ_cons.
  assert (0 <= sumZ (map f l)) as Hl.
  { clear Hne. induction l as [|y l IH]; [simpl; lia |].
    cbn [map]. rewrite sumZ_cons.
    pose proof (Hall y (or_intror (or_introl eq_refl))).
    assert (0 <= sumZ (map f l)); [| lia].
    apply IH. intros a [<- | Ha]; apply Hall; [now left | right; now right]. }
  pose proof (Hall x (or_introl eq_refl)). lia.
Qed.

Lemma segments_selected_nil_iff (q : string -> bool) (rfm : list Segmented) :
  filter (fun s => q (SegmentSummary.Segment s)) (segment_summary rfm) = []
  <-> existsb (fun r => q (Segment r)) rfm = false.
Proof.
  rewrite <- count_rows_zero_iff, <- segment_summary_selected.
  destruct (filter _ (segment_summary rfm)) as [|x l] eqn:Ef.
  - split; reflexivity.
  - split; [discriminate |]. intros Hsum. exfalso.
    assert (1 <= sumZ (map SegmentSummary.customers (x :: l))); [| lia].
    apply sumZ_map_pos; [discriminate |].
    intros y Hy. rewrite <- Ef in Hy. apply filter_In in Hy.
    apply (segment_customers_pos rfm). apply Hy.
Qed.

Lemma segment_summary_row (rfm : list Segmented) (s : SegmentSummary.t) :
  In s (segment_summary rfm) ->
  SegmentSummary.customer_pct s
  = {| num := count_rows
                (fun r => String.eqb (Segment r) (SegmentSummary.Segment s)) rfm;
       den := Z.of_nat (List.length rfm) |}.
Proof.
  rewrite segment_summary_rows. intros Hs. apply in_map_iff in Hs.
  destruct Hs as [k [<- _]]. reflexivity.
Qed.

(** X27: the findings of the segmentation tab.  After the Revenue
    Concentration finding, a Customer Attrition Risk finding appears exactly
    when the table has a Lost Customers row, with the share of those
    customers, and a Growth Opportunity finding appears exactly when it has a
    Potential Loyalists or Need Attention row, with the joint share of the
    two segments. *)
Theorem tab1_findings (rfm : list Segmented) (summary : list SegmentSummary.t)
    (fs : list Finding) :
  tab1_key_insights rfm = Ok (summary, fs) ->
  exists top,
    fs = RevenueConcentration (SegmentSummary.Segment top)
           (SegmentSummary.revenue_pct top) (SegmentSummary.customer_pct top)
         :: (if existsb is_lost rfm
             then [CustomerAttritionRisk
                     {| num := count_rows is_lost rfm;
                        den := Z.of_nat (List.length rfm) |}]
             else [])
         ++ (if existsb is_potential rfm
             then [GrowthOpportunity
                     {| num := count_rows is_potential rfm;
                        den := Z.of_nat (List.length rfm) |}]
             else []).
Proof.
  unfold tab1_key_insights.
  destruct (iloc0 _) as [top|]; [| discriminate]. simpl bind.
  intros [= <- <-]. exists top. cbn [app]. f_equal.
  assert (filter (fun s => String.eqb (SegmentSummary.Segment s)
                                      "Lost Customers")
                 (segment_summary rfm) = []
          <-> existsb is_lost rfm = false) as Hlost
    by exact (segments_selected_nil_iff
                (fun k => String.eqb k "Lost Customers") rfm).
  assert (filter (fun s =>
                    String.eqb (SegmentSummary.Segment s) "Potential Loyalists"
                    || String.eqb (SegmentSummary.Segment s) "Need Attention")
                 (segment_summary rfm) = []
          <-> existsb is_potential rfm = false) as Hpot
    by exact (segments_selected_nil_iff
                (fun k => String.eqb k "Potential Loyalists"
                          || String.eqb k "Need Attention") rfm).
  assert (sumZ (map SegmentSummary.customers
                    (filter (fun s =>
                               String.eqb (SegmentSummary.Segment s)
                                          "Potential Loyalists"
                               || String.eqb (SegmentSummary.Segment s)
                                             "Need Attention")
                            (segment_summary rfm)))
          = count_rows is_potential rfm) as Hsum
    by exact (segment_summary_selected
                (fun k => String.eqb k "Potential Loyalists"
                          || String.eqb k "Need Attention") rfm).
  f_equal.
  - destruct (filter (fun s => String.eqb (SegmentSummary.Segment s)
                                          "Lost Customers")
                     (segment_summary rfm)) as [|s l] eqn:Ef.
    + rewrite (proj1 Hlost eq_refl). reflexivity.
    + destruct (existsb is_lost rfm) eqn:Ex;
        [| pose proof (proj2 Hlost eq_refl); discriminate].
      assert (In s (filter (fun s => String.eqb (SegmentSummary.Segment s)
                                                "Lost Customers")
                           (segment_summary rfm))) as Hs
        by (rewrite Ef; now left).
      apply filter_In in Hs. destruct Hs as [Hs Hname].
      apply String.eqb_eq in Hname.
      rewrite (segment_summary_row rfm s Hs), Hname. reflexivity.
  - destruct (filter (fun s =>
                        String.eqb (SegmentSummary.Segment s) "Potential Loyalists"
                        || String.eqb (SegmentSummary.Segment s) "Need Attention")
                     (segment_summary rfm)) as [|s l] eqn:Ef.
    + rewrite (proj1 Hpot eq_refl). reflexivity.
    + destruct (existsb is_potential rfm) eqn:Ex;
        [| pose proof (proj2 Hpot eq_refl); discriminate].
      rewrite Hsum. reflexivity.
Qed.

Lemma tab1_findings_witness :
  exists t summary fs,
    build_rfm (orders_full weekday_shop)
              (merged_order_items (orders_full weekday_shop) weekday_shop)
    = Ok t
    /\ tab1_key_insights t = Ok (summary, fs)
    /\ List.length fs = 3%nat.
Proof.
  assert (exists t,
            build_rfm (orders_full weekday_shop)
                      (merged_order_items (orders_full weekday_shop) weekday_shop)
            = Ok t
            /\ existsb is_lost t = true /\ existsb is_potential t = true
            /\ exists summary fs, tab1_key_insights t = Ok (summary, fs))
    as [t [Et [Hl [Hp [summary [fs Hfs]]]]]].
  { eexists. split; [vm_compute; reflexivity |].
    split; [reflexivity |]. split; [reflexivity |].
    eexists. eexists. vm_compute. reflexivity. }
  exists t, summary, fs. split; [exact Et |]. split; [exact Hfs |].
  destruct (tab1_findings t summary fs Hfs) as [top ->].
  rewrite Hl, Hp. reflexivity.
Defined.
